(** * BuzzBench load-test engine: a shallow embedding of [internal/runner/runner.go]

    The development follows the Go source function by function:
    - [GoInt], [Duration], [Float64]: Go's [int] (64 bits, two's complement,
      silent wrap-around), [time.Duration] (an [int64] of nanoseconds) and
      [float64] (binary64, as the kernel's primitive floats);
    - the structs of [internal/api/models.go], one module per struct;
    - [getVariableValue], [processVariables], [setupVariableContext],
      [executeRequest] and [RunTest], written in a small state-and-panic monad
      over the mutable [VariableContext] and the outside world;
    - the properties of the engine, proved over these definitions.

    What the program obtains from outside (the random source, the clock, the
    network, the standard library's decoders and printers) is the interface
    [Platform]: the engine is verified for every platform, and run on
    [TestPlatform] for the concrete examples. Logging is left out: [logInfo]
    only writes to the Logger the Runner was created with. Integers are Go's
    on a 64-bit platform. *)

From Stdlib Require Import ZArith Lia List String Ascii Bool DecimalString.
From Stdlib Require Import Floats.PrimFloat Floats.SpecFloat Floats.FloatOps.
From stdpp Require Import base option list gmap strings.

Local Open Scope string_scope.
Local Open Scope list_scope.
Local Open Scope Z_scope.

(** ** Results of Go code that may panic

    [result] is for pure code. Code that works on a state ends in an [outcome]:
    it returns a value ([Done]) or panics ([Panicked]), and either way leaves
    the state as it was at that moment. *)

Inductive result (A : Type) : Type :=
| Ok (a : A)
| Panic (msg : string).
Arguments Ok {A} a.
Arguments Panic {A} msg.

Inductive outcome (S A : Type) : Type :=
| Done (a : A) (s : S)
| Panicked (msg : string) (s : S).
Arguments Done {S A} a s.
Arguments Panicked {S A} msg s.

(** The value a computation returned, if it did. *)
Definition returned {S A} (o : outcome S A) : option A :=
  match o with Done a _ => Some a | Panicked _ _ => None end.

(** ** Go's [int] on a 64-bit platform *)

Module GoInt.

Definition min_int : Z := - 2 ^ 63.
Definition max_int : Z := 2 ^ 63 - 1.

Definition in_range (z : Z) : Prop := min_int <= z <= max_int.

(** Two's-complement reduction of a mathematical integer to 64 bits. *)
Definition wrap (z : Z) : Z := (z + 2 ^ 63) mod 2 ^ 64 - 2 ^ 63.

Definition add (a b : Z) : Z := wrap (a + b).
Definition sub (a b : Z) : Z := wrap (a - b).
Definition mul (a b : Z) : Z := wrap (a * b).

(** [a / b]: truncated toward zero; a zero divisor is a run-time panic. *)
Definition div (a b : Z) : result Z :=
  if b =? 0 then Panic "runtime error: integer divide by zero"
  else Ok (wrap (Z.quot a b)).

(** [strconv.Itoa]. *)
Definition Itoa (z : Z) : string := NilZero.string_of_int (Z.to_int z).

End GoInt.

(** ** [time.Duration]: an [int64] count of nanoseconds *)

Module Duration.

Definition t := Z.

Definition Millisecond : t := 1000000.
Definition Second : t := 1000000000.
Definition Hour : t := 3600 * Second.

(** [d.Milliseconds()] is [int64(d) / 1e6]. *)
Definition Milliseconds (d : t) : Z := Z.quot d 1000000.

End Duration.

(** ** [float64] *)

Module Float64.

(** The conversion [float64(n)] of an integer: round to nearest, ties to
    even. *)
Definition of_int (z : Z) : float :=
  SF2Prim (binary_normalize prec emax z 0 false).

(** [d.Seconds()]: [float64(d / Second) + float64(d % Second) / 1e9]. *)
Definition Seconds (d : Duration.t) : float :=
  PrimFloat.add (of_int (Z.quot d Duration.Second))
                (PrimFloat.div (of_int (Z.rem d Duration.Second)) 1e9%float).

Definition sum (l : list float) : float :=
  fold_left PrimFloat.add l 0%float.

End Float64.

(** ** The structs of [internal/api] *)

Module TestConfiguration.
Record t := mk {
  ID : string;
  Name : string;
  URL : string;
  Method : string;
  Requests : Z;
  Concurrency : Z;
  TimeoutSecs : Z;
  AuthToken : string;
  Body : string;
  RunInPipeline : bool;
  UseVariables : bool;
  Variables : string;
  Description : string
}.
End TestConfiguration.

(** The values of Go's [error] interface that reach the runner, by origin. *)
Inductive error : Type :=
| UndefinedVariable (name : string)
| UnsupportedStrategy (strategy : string)
| RequestError (msg : string)
| TransportError (msg : string).

Definition Error_string (e : error) : string :=
  match e with
  | UndefinedVariable name => "undefined variable: " +:+ name
  | UnsupportedStrategy s => "unsupported variable strategy: " +:+ s
  | RequestError msg => msg
  | TransportError msg => msg
  end.

Module RequestResult.
Record t := mk {
  Duration : Duration.t;
  Status : Z;
  Error : option error;
  Timestamp : Z (* the instant, in nanoseconds since the Unix epoch *)
}.
End RequestResult.

Module ErrorData.
Record t := mk { Status : string; Message : string }.
End ErrorData.

Module TimelinePoint.
Record t := mk {
  Timestamp : float;
  ResponseTime : float;
  ActiveUsers : float
}.
End TimelinePoint.

Module TestResult.
Record t := mk {
  TestConfigurationID : string;
  URL : string;
  Method : string;
  Requests : Z;
  Concurrency : Z;
  SuccessRate : float;
  AvgResponseTime : float;
  MinResponseTime : float;
  MaxResponseTime : float;
  RequestsPerSecond : float;
  StatusCodes : gmap string Z;
  Errors : list ErrorData.t;
  Timeline : list TimelinePoint.t
}.
End TestResult.

(** ** The runner's own types *)

Module Variable_.
Record t := mk {
  Name : string;
  Type_ : string;
  Strategy : string;
  Value : string;
  StartValue : Z;
  EndValue : Z;
  Increment : Z;
  MinValue : Z;
  MaxValue : Z;
  Template : string;
  current : Z
}.

Definition set_Increment (n : Z) (v : t) : t :=
  mk (Name v) (Type_ v) (Strategy v) (Value v) (StartValue v) (EndValue v)
     n (MinValue v) (MaxValue v) (Template v) (current v).

Definition set_current (n : Z) (v : t) : t :=
  mk (Name v) (Type_ v) (Strategy v) (Value v) (StartValue v) (EndValue v)
     (Increment v) (MinValue v) (MaxValue v) (Template v) n.
End Variable_.

(** An HTTP request as [http.NewRequestWithContext] builds it. A [nil] body is
    [None]; [Header.Set] stores a one-element value list under the key. *)
Module Request.
Record t := mk {
  Method : string;
  URL : string;
  Body : option string;
  Header : gmap string (list string)
}.

Definition Header_Set (k v : string) (r : t) : t :=
  mk (Method r) (URL r) (Body r) (<[k := [v]]> (Header r)).
End Request.

(** ** What the engine obtains from outside

    [Rand] is the state of the [*rand.Rand] created by [setupVariableContext];
    [World] is everything else the process reads or changes: the clock, the
    UUID generator, the run's [context.Context] and the network. The last
    five fields are pure functions of Go's standard library. *)

Class Platform : Type := {
  Rand : Type;
  rand_New : Z -> Rand;
  (** [r.Intn(n)] for [0 < n]: a draw and the advanced generator. *)
  rand_Intn : Z -> Rand -> Z * Rand;
  rand_Intn_bound : forall n r, 0 < n -> 0 <= fst (rand_Intn n r) < n;
  rand_Float64 : Rand -> float * Rand;

  World : Type;
  (** [time.Now()], in nanoseconds since the Unix epoch. *)
  time_Now : World -> Z * World;
  (** [uuid.New().String()], taken to succeed. *)
  uuid_New : World -> string * World;
  (** [context.WithTimeout(context.Background(), d)] arms the run's deadline;
      [ctx_Done] tells whether it has fired. *)
  context_WithTimeout : Duration.t -> World -> World;
  ctx_Done : World -> bool;
  (** [client.Do(req)] under the client's timeout: a transport error or the
      response's status code. *)
  client_Do : Request.t -> Duration.t -> World -> (error + Z) * World;

  (** [json.Unmarshal] into [[]*Variable]: [None] when decoding fails; a
      [null] element of the array decodes to a [nil] pointer, [None] here. *)
  json_Unmarshal : string -> option (list (option Variable_.t));
  (** The error of [http.NewRequestWithContext] for a method and a URL. *)
  http_NewRequest_error : string -> string -> option error;
  http_StatusText : Z -> string;
  (** [fmt.Sprintf("%.2f", x)]. *)
  fmt_Sprintf_2f : float -> string;
  (** [t.Format(time.RFC3339)]. *)
  time_Format_RFC3339 : Z -> string
}.

Module VariableContext.
Record t `{Platform} := mk {
  Variables : gmap string Variable_.t;
  RequestIndex : Z;
  Rand_ : Rand
}.
Arguments mk {_} _ _ _.

Definition set_Variables `{Platform} (m : gmap string Variable_.t) (c : t) : t :=
  mk m (RequestIndex c) (Rand_ c).

Definition set_Rand `{Platform} (r : Rand) (c : t) : t :=
  mk (Variables c) (RequestIndex c) r.
End VariableContext.

(** ** A state-and-panic monad

    Go code that mutates what it is handed and may panic: a computation takes
    the state and ends in an [outcome]. A panic stops everything after it. *)

Definition M (S A : Type) : Type := S -> outcome S A.

Definition ret {S A} (a : A) : M S A := fun s => Done a s.

Definition bind {S A B} (m : M S A) (k : A -> M S B) : M S B :=
  fun s => match m s with
           | Done a s' => k a s'
           | Panicked msg s' => Panicked msg s'
           end.

Definition panic {S A} (msg : string) : M S A := fun s => Panicked msg s.

Definition get {S} : M S S := fun s => Done s s.

Definition modify {S} (f : S -> S) : M S unit := fun s => Done tt (f s).

(** A pure step that may panic. *)
Definition lift {S A} (r : result A) : M S A :=
  match r with Ok a => ret a | Panic msg => panic msg end.

Notation "'let*' x ':=' m 'in' k" := (bind m (fun x => k))
  (at level 10, x pattern, m at level 100, k at level 200).

(** ** Strings: the placeholder pattern and [strings.ReplaceAll] *)

Definition close_brace : ascii := "}"%char.
Definition open_brace : ascii := "{"%char.

(** The longest prefix free of a closing brace, and what follows it: how the
    greedy [[^}]+] runs. *)
Fixpoint span_name (s : string) : string * string :=
  match s with
  | EmptyString => (EmptyString, EmptyString)
  | String c s' =>
      if Ascii.eqb c close_brace then (EmptyString, s)
      else let (n, r) := span_name s' in (String c n, r)
  end.

Definition starts_with (p s : string) : bool := String.prefix p s.

(** A match of [\{\{([^}]+)\}\}] anchored at the start of [s]: the matched
    text. The class cannot take a closing brace, so the greedy run is the only
    candidate for the group. *)
Definition match_placeholder (s : string) : option string :=
  match s with
  | String a (String b rest) =>
      if Ascii.eqb a open_brace && Ascii.eqb b open_brace then
        let (name, after) := span_name rest in
        if negb (String.eqb name "") && starts_with "}}" after
        then Some ("{{" +:+ name +:+ "}}")
        else None
      else None
  | _ => None
  end.

(** The input cut at the successive leftmost matches: what
    [ReplaceAllStringFunc] copies ([Text]) and what it hands to its callback
    ([Match]). [skip] counts the bytes of a match still to be passed over. *)
Inductive segment : Type :=
| Text (c : ascii)
| Match (m : string).

Fixpoint segments_from (skip : nat) (s : string) : list segment :=
  match s with
  | EmptyString => []
  | String c s' =>
      match skip with
      | S k => segments_from k s'
      | O =>
          match match_placeholder s with
          | Some m => Match m :: segments_from (String.length m - 1) s'
          | None => Text c :: segments_from 0 s'
          end
      end
  end.

Definition segments (s : string) : list segment := segments_from 0 s.

Definition string_concat (l : list string) : string :=
  fold_right String.append "" l.

(** [re.ReplaceAllStringFunc(input, repl)] for the placeholder pattern, with a
    callback that runs in the monad, match by match from the left. *)
Fixpoint replace_segments {S} (repl : string -> M S string) (l : list segment)
  : M S (list string) :=
  match l with
  | [] => ret []
  | Text c :: l' =>
      let* rest := replace_segments repl l' in
      ret (String c "" :: rest)
  | Match m :: l' =>
      let* r := repl m in
      let* rest := replace_segments repl l' in
      ret (r :: rest)
  end.

Definition ReplaceAllStringFunc {S} (input : string) (repl : string -> M S string)
  : M S string :=
  let* pieces := replace_segments repl (segments input) in
  ret (string_concat pieces).

(** [strings.ReplaceAll(s, old, new)] for a non-empty [old]. *)
Fixpoint ReplaceAll_from (skip : nat) (s old new : string) : string :=
  match s with
  | EmptyString => EmptyString
  | String c s' =>
      match skip with
      | S k => ReplaceAll_from k s' old new
      | O =>
          if starts_with old s
          then new +:+ ReplaceAll_from (String.length old - 1) s' old new
          else String c (ReplaceAll_from 0 s' old new)
      end
  end.

Definition ReplaceAll (s old new : string) : string := ReplaceAll_from 0 s old new.

(** ** The variable engine *)

Section Engine.

Context {P : Platform}.

(** The state the variable engine works on: the run's [VariableContext]
    (reached through a pointer, so every update is seen by all later
    resolutions) and the world. *)
Record State := mkState {
  vctx : VariableContext.t;
  world : World
}.

Definition get_Variables : M State (gmap string Variable_.t) :=
  fun s => Done (VariableContext.Variables (vctx s)) s.

(** A write through the [*Variable] registered under [name]. *)
Definition store_Variable (name : string) (v : Variable_.t) : M State unit :=
  modify (fun s =>
    mkState (VariableContext.set_Variables
               (<[name := v]> (VariableContext.Variables (vctx s))) (vctx s))
            (world s)).

(** [ctx.Rand.Intn(n)]: panics unless [0 < n]. *)
Definition Rand_Intn (n : Z) : M State Z :=
  fun s =>
    if n <=? 0 then Panicked "invalid argument to Intn" s
    else let (x, r) := rand_Intn n (VariableContext.Rand_ (vctx s)) in
         Done x (mkState (VariableContext.set_Rand r (vctx s)) (world s)).

Definition Rand_Float64 : M State float :=
  fun s =>
    let (x, r) := rand_Float64 (VariableContext.Rand_ (vctx s)) in
    Done x (mkState (VariableContext.set_Rand r (vctx s)) (world s)).

Definition in_world {A} (f : World -> A * World) : M State A :=
  fun s => let (a, w) := f (world s) in Done a (mkState (vctx s) w).

(** The critical section of the [sequential] strategy (between
    [ctx.Mutex.Lock()] and [Unlock()]): the variable after the step. *)
Definition sequential_advance (v : Variable_.t) : Variable_.t :=
  let v1 :=
    Variable_.set_current
      (GoInt.add (Variable_.current v) (Variable_.Increment v)) v in
  if (Variable_.EndValue v1 >? Variable_.StartValue v1)
     && (Variable_.current v1 >? Variable_.EndValue v1)
  then Variable_.set_current (Variable_.StartValue v1) v1
  else v1.

(** The [switch v.Strategy] of [getVariableValue], for the definition [v]
    registered under [name]. *)
Definition generate_value (name : string) (v : Variable_.t) (requestIndex : Z)
  : M State (string * option error) :=
  let strategy := Variable_.Strategy v in
  if String.eqb strategy "static" then
    ret (Variable_.Value v, None)
  else if String.eqb strategy "sequential" then
    let current := Variable_.current v in
    let* _ := store_Variable name (sequential_advance v) in
    ret (GoInt.Itoa current, None)
  else if String.eqb strategy "random" then
    if String.eqb (Variable_.Type_ v) "integer" then
      let* n := Rand_Intn
                  (GoInt.add (GoInt.sub (Variable_.MaxValue v)
                                        (Variable_.MinValue v)) 1) in
      ret (GoInt.Itoa (GoInt.add n (Variable_.MinValue v)), None)
    else if String.eqb (Variable_.Type_ v) "float" then
      let* x := Rand_Float64 in
      let val :=
        PrimFloat.add
          (Float64.of_int (Variable_.MinValue v))
          (PrimFloat.mul x
             (Float64.of_int (GoInt.sub (Variable_.MaxValue v)
                                        (Variable_.MinValue v)))) in
      ret (fmt_Sprintf_2f val, None)
    else
      let* n := Rand_Intn 10000 in
      ret ("random-" +:+ GoInt.Itoa n, None)
  else if String.eqb strategy "uuid" then
    let* u := in_world uuid_New in
    ret (u, None)
  else if String.eqb strategy "timestamp" then
    let* now := in_world time_Now in
    ret (time_Format_RFC3339 now, None)
  else if String.eqb strategy "template" then
    let template := Variable_.Template v in
    let template :=
      ReplaceAll template "{{$index}}" (GoInt.Itoa requestIndex) in
    let* n := Rand_Intn 10000 in
    let template := ReplaceAll template "{{$random}}" (GoInt.Itoa n) in
    ret (template, None)
  else
    ret ("", Some (UnsupportedStrategy strategy)).

(** [getVariableValue]: the value and the error it returns. *)
Definition getVariableValue (name : string) (requestIndex : Z)
  : M State (string * option error) :=
  if String.eqb name "$index" then
    ret (GoInt.Itoa requestIndex, None)
  else if String.eqb name "$random" then
    let* n := Rand_Intn 10000 in
    ret (GoInt.Itoa n, None)
  else
    let* variables := get_Variables in
    match variables !! name with
    | None => ret ("", Some (UndefinedVariable name))
    | Some v => generate_value name v requestIndex
    end.

(** [match[2 : len(match)-2]]: the name between the braces. *)
Definition placeholder_name (match_ : string) : string :=
  String.substring 2 (String.length match_ - 4) match_.

(** The callback [processVariables] gives to [ReplaceAllStringFunc]. *)
Definition replace_match (requestIndex : Z) (match_ : string) : M State string :=
  let varName := placeholder_name match_ in
  let* (varValue, err) := getVariableValue varName requestIndex in
  match err with
  | Some _ => ret match_
  | None => ret varValue
  end.

Definition processVariables (input : string) (requestIndex : Z)
  : M State (string * option error) :=
  if String.eqb input "" then ret (input, None)
  else
    let* result := ReplaceAllStringFunc input (replace_match requestIndex) in
    ret (result, None).

(** The body of the loop of [setupVariableContext] on one definition. *)
Definition init_variable (v : Variable_.t) : Variable_.t :=
  let v :=
    if String.eqb (Variable_.Strategy v) "sequential"
       && (Variable_.Increment v <=? 0)
    then Variable_.set_Increment 1 v else v in
  if String.eqb (Variable_.Strategy v) "sequential"
  then Variable_.set_current (Variable_.StartValue v) v
  else v.

Definition register_variable (ctx : VariableContext.t) (v : Variable_.t)
  : VariableContext.t :=
  let v := init_variable v in
  VariableContext.set_Variables
    (<[Variable_.Name v := v]> (VariableContext.Variables ctx)) ctx.

(** "Initialize variables": the loop over the decoded definitions. Reading
    [v.Strategy] through a [nil] pointer panics. *)
Fixpoint register_variables (variables : list (option Variable_.t))
         (ctx : VariableContext.t) : result VariableContext.t :=
  match variables with
  | [] => Ok ctx
  | None :: _ =>
      Panic "runtime error: invalid memory address or nil pointer dereference"
  | Some v :: variables' =>
      register_variables variables' (register_variable ctx v)
  end.

Definition setupVariableContext (config : TestConfiguration.t)
  : M World VariableContext.t :=
  fun w =>
    let (now, w) := time_Now w in
    let ctx := VariableContext.mk ∅ 0 (rand_New now) in
    match json_Unmarshal (TestConfiguration.Variables config) with
    | None => Done ctx w
    | Some variables =>
        match register_variables variables ctx with
        | Ok ctx => Done ctx w
        | Panic msg => Panicked msg w
        end
    end.

End Engine.

(** ** The sequential strategy, goroutine by goroutine

    Every worker goroutine calls [getVariableValue] on the same
    [*VariableContext], so the "sequential" case runs on one [*Variable] from
    several goroutines at once. What follows is that case statement by
    statement, with the mutex: the shared memory is the variable and the
    state of [ctx.Mutex], each goroutine has its own [current], and a
    scheduler picks the goroutine that makes the next step. *)

Module Sequential.

(** Where a goroutine stands, and its local [current] once it is set. *)
Inductive goroutine : Type :=
| AtLock                        (* before ctx.Mutex.Lock() *)
| AtRead                        (* before current := v.current *)
| AtLoad (current : Z)          (* v.current += v.Increment: before the load *)
| AtStore (current sum : Z)     (* v.current += v.Increment: before the store *)
| AtTest (current : Z)          (* before the if *)
| AtReset (current : Z)         (* before v.current = v.StartValue *)
| AtUnlock (current : Z)        (* before ctx.Mutex.Unlock() *)
| AtReturn (current : Z)        (* before return strconv.Itoa(current), nil *)
| Returned (value : string).

Record memory := mkMemory {
  variable : Variable_.t;
  locked : bool
}.

(** One step of a goroutine, if it can make one: [Lock] blocks while the
    mutex is held, and a goroutine that has returned makes no step. *)
Definition step (m : memory) (g : goroutine) : option (memory * goroutine) :=
  let v := variable m in
  match g with
  | AtLock => if locked m then None else Some (mkMemory v true, AtRead)
  | AtRead => Some (m, AtLoad (Variable_.current v))
  | AtLoad current =>
      Some (m, AtStore current
                 (GoInt.add (Variable_.current v) (Variable_.Increment v)))
  | AtStore current sum =>
      Some (mkMemory (Variable_.set_current sum v) (locked m), AtTest current)
  | AtTest current =>
      if (Variable_.EndValue v >? Variable_.StartValue v)
         && (Variable_.current v >? Variable_.EndValue v)
      then Some (m, AtReset current)
      else Some (m, AtUnlock current)
  | AtReset current =>
      Some (mkMemory (Variable_.set_current (Variable_.StartValue v) v)
                     (locked m),
            AtUnlock current)
  | AtUnlock current => Some (mkMemory v false, AtReturn current)
  | AtReturn current => Some (m, Returned (GoInt.Itoa current))
  | Returned _ => None
  end.

Record t := mk {
  mem : memory;
  pool : list goroutine
}.

(** The scheduler gives the next step to goroutine [i]; nothing happens when
    that goroutine is blocked, has returned, or does not exist. *)
Definition schedule_by (step : memory -> goroutine -> option (memory * goroutine))
    (c : t) (i : nat) : t :=
  match pool c !! i with
  | Some g =>
      match step (mem c) g with
      | Some (m, g') => mk m (<[i := g']> (pool c))
      | None => c
      end
  | None => c
  end.

Definition schedule : t -> nat -> t := schedule_by step.

(** A run under a schedule: the goroutines that make the successive steps. *)
Definition run (steps : list nat) (c : t) : t := fold_left schedule steps c.

(** [n] goroutines about to resolve the variable [v], the mutex free. *)
Definition start (v : Variable_.t) (n : nat) : t :=
  mk (mkMemory v false) (repeat AtLock n).

Definition has_returned (g : goroutine) : bool :=
  match g with Returned _ => true | _ => false end.

Definition finished (c : t) : bool := forallb has_returned (pool c).

(** The values the goroutines have returned, goroutine by goroutine. *)
Definition values (c : t) : list string :=
  omap (fun g => match g with Returned value => Some value | _ => None end)
       (pool c).

End Sequential.

(** ** The request executor *)

Module Time.
(** [t1.Sub(t0)], which saturates at the ends of [time.Duration]. *)
Definition Sub (t1 t0 : Z) : Duration.t :=
  Z.max GoInt.min_int (Z.min GoInt.max_int (t1 - t0)).

(** [t.Unix()]: whole seconds since the epoch. *)
Definition Unix (t : Z) : Z := t / Duration.Second.
End Time.

Section Executor.

Context {P : Platform}.

(** What a worker holds while it executes requests: the pointer [varCtx]
    ([nil] when the test uses no variables) and the world. *)
Record RunState := mkRunState {
  varCtx : option VariableContext.t;
  rworld : World
}.

Definition in_rworld {A} (f : World -> A * World) : M RunState A :=
  fun s => let (a, w) := f (rworld s) in Done a (mkRunState (varCtx s) w).

(** Run the variable engine on the context [varCtx] points to. *)
Definition with_varCtx {A} (ctx : VariableContext.t) (m : M State A)
  : M RunState A :=
  fun s =>
    match m (mkState ctx (rworld s)) with
    | Done a s' => Done a (mkRunState (Some (vctx s')) (world s'))
    | Panicked msg s' => Panicked msg (mkRunState (Some (vctx s')) (world s'))
    end.

Definition carries_body (method : string) : bool :=
  String.eqb method "POST" || String.eqb method "PUT"
  || String.eqb method "PATCH".

(** "Apply variables to URL and body if needed", on the context [varCtx]
    points to: the resolved URL and body, or the error with which
    [executeRequest] gives the request up. *)
Definition apply_variables (config : TestConfiguration.t) (reqIdx : Z)
  : M State (error + string * string) :=
  let reqBody := TestConfiguration.Body config in
  let* (reqURL, err) :=
    processVariables (TestConfiguration.URL config) reqIdx in
  match err with
  | Some e => ret (inl e)
  | None =>
      if carries_body (TestConfiguration.Method config) then
        let* (reqBody, err) := processVariables reqBody reqIdx in
        match err with
        | Some e => ret (inl e)
        | None => ret (inr (reqURL, reqBody))
        end
      else ret (inr (reqURL, reqBody))
  end.

Definition resolve_request (config : TestConfiguration.t) (reqIdx : Z)
  : M RunState (error + string * string) :=
  let unresolved :=
    (TestConfiguration.URL config, TestConfiguration.Body config) in
  let* s := get in
  match varCtx s with
  | Some ctx =>
      if TestConfiguration.UseVariables config
      then with_varCtx ctx (apply_variables config reqIdx)
      else ret (inr unresolved)
  | None => ret (inr unresolved)
  end.

(** The Authorization header, set to the raw token when one is configured. *)
Definition authorize (config : TestConfiguration.t) (req : Request.t) : Request.t :=
  if negb (String.eqb (TestConfiguration.AuthToken config) "")
  then Request.Header_Set "Authorization" (TestConfiguration.AuthToken config) req
  else req.

(** [http.NewRequestWithContext] reads an empty method as GET. *)
Definition request_method (method : string) : string :=
  if String.eqb method "" then "GET" else method.

(** The request [executeRequest] builds from the resolved URL and body, with
    its headers: an error when [http.NewRequestWithContext] fails for GET or
    DELETE; for the other methods the header is set on the returned request
    before the error is looked at, and a failed construction returns [nil]. *)
Definition build_request (config : TestConfiguration.t) (reqURL reqBody : string)
  : result (error + Request.t) :=
  let method := TestConfiguration.Method config in
  if String.eqb method "GET" || String.eqb method "DELETE" then
    match http_NewRequest_error method reqURL with
    | Some err => Ok (inl err)
    | None =>
        Ok (inr (authorize config
                   (Request.mk (request_method method) reqURL None ∅)))
    end
  else
    let body := if negb (String.eqb reqBody "") then reqBody else "{}" in
    match http_NewRequest_error method reqURL with
    | Some _ =>
        Panic "runtime error: invalid memory address or nil pointer dereference"
    | None =>
        Ok (inr (authorize config
                   (Request.Header_Set "Content-Type" "application/json"
                      (Request.mk (request_method method) reqURL
                         (Some body) ∅))))
    end.

(** An outcome recorded before any network call. *)
Definition failed_outcome (err : error) : M RunState (option RequestResult.t) :=
  let* now := in_rworld time_Now in
  ret (Some (RequestResult.mk 0 0 (Some err) now)).

(** The network call of [executeRequest], timed from [reqStart], and the
    outcome made of the reply. *)
Definition send_request (req : Request.t) (timeout : Duration.t)
  : M RunState (option RequestResult.t) :=
  let* reqStart := in_rworld time_Now in
  let* reply := in_rworld (client_Do req timeout) in
  let* now := in_rworld time_Now in
  let reqDuration := Time.Sub now reqStart in
  match reply with
  | inl err => ret (Some (RequestResult.mk reqDuration 0 (Some err) reqStart))
  | inr status => ret (Some (RequestResult.mk reqDuration status None reqStart))
  end.

(** [executeRequest]: the outcome it sends on [resultChan], if any. *)
Definition executeRequest (config : TestConfiguration.t) (reqIdx : Z)
  : M RunState (option RequestResult.t) :=
  let* s := get in
  if ctx_Done (rworld s) then ret None
  else
    let timeout :=
      GoInt.mul (TestConfiguration.TimeoutSecs config) Duration.Second in
    let* resolved := resolve_request config reqIdx in
    match resolved with
    | inl err => failed_outcome err
    | inr (reqURL, reqBody) =>
        match build_request config reqURL reqBody with
        | Panic msg => panic msg
        | Ok (inl err) => failed_outcome err
        | Ok (inr req) => send_request req timeout
        end
    end.

End Executor.

(** ** The aggregator: the loop of [RunTest] over [resultChan] *)

Section Aggregator.

Context {P : Platform}.

(** The variables the loop updates, under the names they have in [RunTest];
    [Errors] and [StatusCodes] are the fields of [result]. *)
Record Tally := mkTally {
  Errors : list ErrorData.t;
  StatusCodes : gmap string Z;
  totalDuration : Duration.t;
  minDuration : Duration.t;
  maxDuration : Duration.t;
  successCount : Z;
  totalCount : Z;
  timelinePoints : gmap Z (list float)
}.

Definition initial_tally : Tally :=
  mkTally [] ∅ 0 Duration.Hour 0 0 0 ∅.

(** One iteration of [for res := range resultChan]. *)
Definition process_result (a : Tally) (res : RequestResult.t) : Tally :=
  let totalCount := GoInt.add (totalCount a) 1 in
  match RequestResult.Error res with
  | Some err =>
      mkTally (Errors a ++ [ErrorData.mk "" (Error_string err)])
              (StatusCodes a) (totalDuration a) (minDuration a)
              (maxDuration a) (successCount a) totalCount (timelinePoints a)
  | None =>
      let status := RequestResult.Status res in
      let duration := RequestResult.Duration res in
      let statusKey := GoInt.Itoa status in
      let codes :=
        <[statusKey := GoInt.add (default 0 (StatusCodes a !! statusKey)) 1]>
          (StatusCodes a) in
      let success := (200 <=? status) && (status <? 400) in
      let second := Time.Unix (RequestResult.Timestamp res) in
      mkTally
        (if success then Errors a
         else Errors a ++ [ErrorData.mk statusKey (http_StatusText status)])
        codes
        (GoInt.add (totalDuration a) duration)
        (if duration <? minDuration a then duration else minDuration a)
        (if duration >? maxDuration a then duration else maxDuration a)
        (if success then GoInt.add (successCount a) 1 else successCount a)
        totalCount
        (<[second := default [] (timelinePoints a !! second)
                     ++ [Float64.of_int (Duration.Milliseconds duration)]]>
           (timelinePoints a))
  end.

Definition tally (outcomes : list RequestResult.t) : Tally :=
  fold_left process_result outcomes initial_tally.

(** "Process timeline data". Go ranges over the map in an unspecified order;
    the points are listed here in the order of [map_to_list]. *)
Definition timeline_point (entry : Z * list float) : TimelinePoint.t :=
  let (second, durations) := entry in
  let n := Float64.of_int (Z.of_nat (length durations)) in
  TimelinePoint.mk (Float64.of_int second)
                   (PrimFloat.div (Float64.sum durations) n) n.

(** The summary [RunTest] returns for the outcomes it processed and the
    wall-clock duration of the run. *)
Definition summarize (config : TestConfiguration.t)
           (outcomes : list RequestResult.t) (totalTestDuration : Duration.t)
  : TestResult.t :=
  let a := tally outcomes in
  let some := 0 <? totalCount a in
  let measured := some && (0 <? successCount a) in
  let count := Float64.of_int (totalCount a) in
  TestResult.mk
    (TestConfiguration.ID config)
    (TestConfiguration.URL config)
    (TestConfiguration.Method config)
    (TestConfiguration.Requests config)
    (TestConfiguration.Concurrency config)
    (if some
     then PrimFloat.mul
            (PrimFloat.div (Float64.of_int (successCount a)) count) 100%float
     else 0%float)
    (if some
     then PrimFloat.div
            (Float64.of_int (Duration.Milliseconds (totalDuration a))) count
     else 0%float)
    (if measured
     then Float64.of_int (Duration.Milliseconds (minDuration a))
     else 0%float)
    (if measured
     then Float64.of_int (Duration.Milliseconds (maxDuration a))
     else 0%float)
    (if some
     then PrimFloat.div count (Float64.Seconds totalTestDuration)
     else 0%float)
    (StatusCodes a)
    (Errors a)
    (timeline_point <$> map_to_list (timelinePoints a)).

End Aggregator.

(** ** The dispatcher: [RunTest] *)

Section Dispatcher.

Context {P : Platform}.

(** The timeout handed to [context.WithTimeout]:
    [time.Duration(config.Requests/config.Concurrency+10)*time.Second]. *)
Definition run_timeout (config : TestConfiguration.t) : result Duration.t :=
  match GoInt.div (TestConfiguration.Requests config)
                  (TestConfiguration.Concurrency config) with
  | Panic msg => Panic msg
  | Ok q => Ok (GoInt.mul (GoInt.add q 10) Duration.Second)
  end.

(** [make(chan T, n)] for elements of [size] bytes, as the runtime's
    [makechan] decides it: a negative [n], or [n] elements that do not fit
    under the allocation limit next to the channel's header, is a panic. The
    limit is that of the 64-bit platforms with 48 bits of heap address. *)
Definition maxAlloc : Z := 2 ^ 48.
Definition hchanSize : Z := 96.

Definition make_chan (size n : Z) : result unit :=
  if (n <? 0) || (maxAlloc - hchanSize <? size * n)
  then Panic "makechan: size out of range"
  else Ok tt.

(** The sizes of the elements of [resultChan] (an [api.RequestResult]: a
    duration, an [int], an interface value and a [time.Time]) and of
    [requestChan] (an [int]). *)
Definition sizeof_RequestResult : Z := 56.
Definition sizeof_int : Z := 8.

(** The worker pool under the schedule in which the request indices are
    executed one after the other, in order: the outcomes in the order they
    reach [resultChan]. An index reached after the deadline yields none. *)
Fixpoint run_requests (config : TestConfiguration.t) (n : nat) (reqIdx : Z)
  : M RunState (list RequestResult.t) :=
  match n with
  | O => ret []
  | S n' =>
      let* sent := executeRequest config reqIdx in
      let* rest := run_requests config n' (reqIdx + 1) in
      ret (match sent with Some res => res :: rest | None => rest end)
  end.

(** A pool of no worker (a negative [Concurrency]) executes nothing. *)
Definition run_workers (config : TestConfiguration.t)
  : M RunState (list RequestResult.t) :=
  if 0 <? TestConfiguration.Concurrency config
  then run_requests config (Z.to_nat (TestConfiguration.Requests config)) 0
  else ret [].

Definition from_run {A} (ctx : option VariableContext.t) (m : M RunState A)
  : M World A :=
  fun w =>
    match m (mkRunState ctx w) with
    | Done a s => Done a (rworld s)
    | Panicked msg s => Panicked msg (rworld s)
    end.

(** [time.Now()] in the main goroutine. *)
Definition read_clock : M World Z :=
  fun w => let (t, w) := time_Now w in Done t w.

(** [RunTest] once its context is armed: from "Initialize variable context if
    needed" to the end. *)
Definition run_under_deadline (config : TestConfiguration.t)
  : M World TestResult.t :=
  let* varCtx :=
    (if TestConfiguration.UseVariables config
     then let* ctx := setupVariableContext config in ret (Some ctx)
     else ret None) in
  let* _ := lift (make_chan sizeof_RequestResult
                            (TestConfiguration.Requests config)) in
  let* _ := lift (make_chan sizeof_int (TestConfiguration.Requests config)) in
  let* startTime := read_clock in
  let* outcomes := from_run varCtx (run_workers config) in
  let* endTime := read_clock in
  ret (summarize config outcomes (Time.Sub endTime startTime)).

Definition RunTest (config : TestConfiguration.t) : M World TestResult.t :=
  let* timeout := lift (run_timeout config) in
  let* _ := modify (context_WithTimeout timeout) in
  run_under_deadline config.

End Dispatcher.

(** ** A platform to run the engine on

    A deterministic stand-in for the outside: the generator is a counter whose
    draw is its residue, the clock advances by one millisecond at every
    reading, the server answers every request with status 200 after five
    milliseconds, and the decoder yields the variable definitions [vars]. *)

Definition test_Intn (n : Z) (r : Z) : Z * Z := (r mod n, r + 1).

Lemma test_Intn_bound (n r : Z) : 0 < n -> 0 <= fst (test_Intn n r) < n.
Proof. intros Hn. simpl. apply Z.mod_pos_bound. exact Hn. Qed.

Definition TestPlatform (vars : list Variable_.t) : Platform := {|
  Rand := Z;
  rand_New := fun seed => seed;
  rand_Intn := test_Intn;
  rand_Intn_bound := test_Intn_bound;
  rand_Float64 := fun r => (0.5%float, r + 1);
  World := Z;
  time_Now := fun w => (w, w + Duration.Millisecond);
  uuid_New := fun w => ("00000000-0000-4000-8000-" +:+ GoInt.Itoa w, w + 1);
  context_WithTimeout := fun _ w => w;
  ctx_Done := fun _ => false;
  client_Do := fun _ _ w => (inr 200, w + 5 * Duration.Millisecond);
  json_Unmarshal := fun _ => Some (Some <$> vars);
  http_NewRequest_error := fun _ _ => None;
  http_StatusText := fun _ => "";
  fmt_Sprintf_2f := fun _ => "0.50";
  time_Format_RFC3339 := fun t => GoInt.Itoa t
|}.

(** ** The specification's wording, and inputs for the examples *)

(** The deadline as the specification words it: the ceiling of
    requests / concurrency, plus ten seconds. *)
Definition ceil_div (a b : Z) : Z := - ((- a) / b).

Definition spec_timeout (config : TestConfiguration.t) : Duration.t :=
  (ceil_div (TestConfiguration.Requests config)
            (TestConfiguration.Concurrency config) + 10) * Duration.Second.

Definition config_of (requests concurrency : Z) : TestConfiguration.t :=
  TestConfiguration.mk "t1" "load" "http://localhost:8080/items" "GET"
    requests concurrency 5 "" "" true false "" "".

(** Outcomes by class. A success has no failure cause and a status in
    200..399; an outcome that got a response has no failure cause, whatever
    its status. *)
Definition is_success (res : RequestResult.t) : bool :=
  match RequestResult.Error res with
  | Some _ => false
  | None => (200 <=? RequestResult.Status res) && (RequestResult.Status res <=? 399)
  end.

Definition has_response (res : RequestResult.t) : bool :=
  match RequestResult.Error res with Some _ => false | None => true end.

Definition successes (outcomes : list RequestResult.t) : list RequestResult.t :=
  List.filter is_success outcomes.

Definition responses (outcomes : list RequestResult.t) : list RequestResult.t :=
  List.filter has_response outcomes.

Definition count (outcomes : list RequestResult.t) : Z :=
  Z.of_nat (length outcomes).

Definition durations (outcomes : list RequestResult.t) : list Duration.t :=
  List.map RequestResult.Duration outcomes.

Definition total (ds : list Duration.t) : Z := fold_right Z.add 0 ds.

Definition least (bound : Z) (ds : list Z) : Z := fold_right Z.min bound ds.

Definition greatest (bound : Z) (ds : list Z) : Z := fold_right Z.max bound ds.

(** The latency extremes as the specification words them: over the durations
    of the successful outcomes only, zero when there is none. *)
Definition spec_MinResponseTime (outcomes : list RequestResult.t) : float :=
  match durations (successes outcomes) with
  | [] => 0%float
  | d :: ds => Float64.of_int (Duration.Milliseconds (least d ds))
  end.

Definition spec_MaxResponseTime (outcomes : list RequestResult.t) : float :=
  match durations (successes outcomes) with
  | [] => 0%float
  | d :: ds => Float64.of_int (Duration.Milliseconds (greatest d ds))
  end.

(** The average latency as the specification words it: the durations of all
    processed outcomes over their count. *)
Definition spec_AvgResponseTime (outcomes : list RequestResult.t) : float :=
  PrimFloat.div
    (Float64.of_int (Duration.Milliseconds (total (durations outcomes))))
    (Float64.of_int (count outcomes)).

Definition ms (n : Z) : Duration.t := n * Duration.Millisecond.

Definition responded (status : Z) (d : Duration.t) : RequestResult.t :=
  RequestResult.mk d status None 1700000000000000000.

Definition timed_out (d : Duration.t) : RequestResult.t :=
  RequestResult.mk d 0 (Some (TransportError "context deadline exceeded"))
    1700000000000000000.

(** Four outcomes: two successes, one HTTP error, one transport error. *)
Definition sample_outcomes : list RequestResult.t :=
  [responded 200 (ms 20); responded 503 (ms 30); timed_out (ms 40);
   responded 301 (ms 10)].

(** [n] successive resolutions of one variable, in the order they are made:
    the values returned. *)
Fixpoint resolve_times `{P : Platform} (n : nat) (name : string) (requestIndex : Z)
  : M State (list string) :=
  match n with
  | O => ret []
  | S n' =>
      let* (value, _) := getVariableValue name requestIndex in
      let* rest := resolve_times n' name requestIndex in
      ret (value :: rest)
  end.

Definition is_builtin (name : string) : bool :=
  String.eqb name "$index" || String.eqb name "$random".

Definition sequential_variable (name : string) (start end_ increment : Z)
  : Variable_.t :=
  Variable_.mk name "integer" "sequential" "" start end_ increment 0 0 "" 0.

Definition random_integer (name : string) (min max : Z) : Variable_.t :=
  Variable_.mk name "integer" "random" "" 0 0 0 min max "" 0.

(** The state of the engine right after [setupVariableContext] has registered
    the definitions [vars], on the test platform. *)
Definition state_with (vars : list Variable_.t) : @State (TestPlatform vars) :=
  match @setupVariableContext (TestPlatform vars) (config_of 5 1)
          1700000000000000000 with
  | Done ctx w => @mkState (TestPlatform vars) ctx w
  | Panicked _ w =>
      @mkState (TestPlatform vars) (@VariableContext.mk (TestPlatform vars) ∅ 0 0) w
  end.

(** The state after a write through the pointer registered under [name]. *)
Definition stored `{P : Platform} (name : string) (v : Variable_.t) (s : State)
  : State :=
  mkState (VariableContext.set_Variables
             (<[name := v]> (VariableContext.Variables (vctx s))) (vctx s))
          (world s).

(** The cursor of a sequential variable after one resolution, as the
    specification words it: advanced by the increment, and back at the start
    when that exceeds the end of a range with [end > start]. *)
Definition next_cursor (v : Variable_.t) : Z :=
  let advanced := GoInt.add (Variable_.current v) (Variable_.Increment v) in
  if (Variable_.EndValue v >? Variable_.StartValue v)
     && (advanced >? Variable_.EndValue v)
  then Variable_.StartValue v
  else advanced.

(** A random variable of integer type whose width [max - min + 1], in Go's
    arithmetic, is not positive: [rand.Intn] panics on it. *)
Definition empty_range (v : Variable_.t) : bool :=
  String.eqb (Variable_.Strategy v) "random"
  && String.eqb (Variable_.Type_ v) "integer"
  && (GoInt.add (GoInt.sub (Variable_.MaxValue v) (Variable_.MinValue v)) 1 <=? 0).

(** A name the engine can resolve in the state [s] without a panic: a
    built-in, an absent variable, or a variable that is no random integer of
    empty range. *)
Definition resolvable `{P : Platform} (s : State) (name : string) : bool :=
  is_builtin name
  || match VariableContext.Variables (vctx s) !! name with
     | Some v => negb (empty_range v)
     | None => true
     end.

(** A name that refers to no variable of the runtime state. *)
Definition undefined `{P : Platform} (s : State) (name : string) : Prop :=
  is_builtin name = false
  /\ VariableContext.Variables (vctx s) !! name = None.

(** The placeholders of an input, in the order they are resolved. *)
Definition placeholders (input : string) : list string :=
  omap (fun seg => match seg with Match m => Some m | Text _ => None end)
       (segments input).

(** What a piece of the output owes to the segment of the input it comes
    from: a copied byte is itself, and the placeholder of an undefined
    variable is left as it was written. *)
Definition rendered `{P : Platform} (s : State) (seg : segment) (piece : string)
  : Prop :=
  match seg with
  | Text c => piece = String c ""
  | Match m => undefined s (placeholder_name m) -> piece = m
  end.

(** Two states with the same variable definitions, cursors apart. *)
Definition same_definitions `{P : Platform} (s s' : State) : Prop :=
  forall name : string,
    Variable_.set_current 0 <$> (VariableContext.Variables (vctx s') !! name)
    = Variable_.set_current 0 <$> (VariableContext.Variables (vctx s) !! name).

(** A computation that returns, and keeps the definitions. *)
Definition steady `{P : Platform} {A} (m : M State A) (s : State) : Prop :=
  exists (a : A) (s' : State), m s = Done a s' /\ same_definitions s s'.

(** The text of the input a segment stands for. *)
Definition segment_text (seg : segment) : string :=
  match seg with
  | Text c => String c ""
  | Match m => m
  end.

(** A string without its first [n] bytes. *)
Fixpoint skip_bytes (n : nat) (s : string) : string :=
  match n, s with
  | O, _ => s
  | S n', String _ s' => skip_bytes n' s'
  | S _, EmptyString => EmptyString
  end.

(** The timeout [executeRequest] gives its HTTP client. *)
Definition client_timeout (config : TestConfiguration.t) : Duration.t :=
  GoInt.mul (TestConfiguration.TimeoutSecs config) Duration.Second.

Definition post_config (body : string) : TestConfiguration.t :=
  TestConfiguration.mk "t2" "create" "http://localhost:8080/items/{{n}}" "POST"
    10 2 5 "secret" body true true "" "".

(** What a worker holds on the test platform before its first request. *)
Definition run_state_with (vars : list Variable_.t)
  : @RunState (TestPlatform vars) :=
  @mkRunState (TestPlatform vars) (Some (@vctx _ (state_with vars)))
    (@world _ (state_with vars)).

(** The state a computation ends in. *)
Definition final_state {S A} (o : outcome S A) : S :=
  match o with Done _ s => s | Panicked _ s => s end.


(** The values [n] resolutions of the sequential variable [v] return when
    they are made one after the other: each one the cursor it finds, which
    it leaves advanced. *)
Fixpoint sequential_values (v : Variable_.t) (n : nat) : list string :=
  match n with
  | O => []
  | S n' =>
      GoInt.Itoa (Variable_.current v)
      :: sequential_values (Variable_.set_current (next_cursor v) v) n'
  end.

(** The variable after [n] such resolutions. *)
Definition after_resolutions (v : Variable_.t) (n : nat) : Variable_.t :=
  Nat.iter n (fun v => Variable_.set_current (next_cursor v) v) v.

(** Goroutines in the critical section of the sequential strategy, past it,
    and the value a goroutine past it returns. *)
Definition in_section (g : Sequential.goroutine) : bool :=
  match g with
  | Sequential.AtRead | Sequential.AtLoad _ | Sequential.AtStore _ _
  | Sequential.AtTest _ | Sequential.AtReset _ | Sequential.AtUnlock _ => true
  | _ => false
  end.

Definition past_section (g : Sequential.goroutine) : bool :=
  match g with
  | Sequential.AtReturn _ | Sequential.Returned _ => true
  | _ => false
  end.

Definition value_of (g : Sequential.goroutine) : option string :=
  match g with
  | Sequential.AtReturn current => Some (GoInt.Itoa current)
  | Sequential.Returned value => Some value
  | _ => None
  end.

(** The steps a goroutine has yet to make, at most. *)
Definition steps_left (g : Sequential.goroutine) : nat :=
  match g with
  | Sequential.AtLock => 8
  | Sequential.AtRead => 7
  | Sequential.AtLoad _ => 6
  | Sequential.AtStore _ _ => 5
  | Sequential.AtTest _ => 4
  | Sequential.AtReset _ => 3
  | Sequential.AtUnlock _ => 2
  | Sequential.AtReturn _ => 1
  | Sequential.Returned _ => 0
  end.

Definition work (pool : list Sequential.goroutine) : nat :=
  fold_right (fun g acc => (steps_left g + acc)%nat) 0%nat pool.

(** What the memory holds while the goroutine [g] is in the critical section
    it entered when the variable was [base]. *)
Definition holds (base var : Variable_.t) (g : Sequential.goroutine) : Prop :=
  let sum := GoInt.add (Variable_.current base) (Variable_.Increment base) in
  match g with
  | Sequential.AtRead => var = base
  | Sequential.AtLoad current =>
      var = base /\ current = Variable_.current base
  | Sequential.AtStore current s =>
      var = base /\ current = Variable_.current base /\ s = sum
  | Sequential.AtTest current =>
      var = Variable_.set_current sum base
      /\ current = Variable_.current base
  | Sequential.AtReset current =>
      var = Variable_.set_current sum base
      /\ current = Variable_.current base
      /\ (Variable_.EndValue base >? Variable_.StartValue base)
         && (sum >? Variable_.EndValue base) = true
  | Sequential.AtUnlock current =>
      var = Variable_.set_current (next_cursor base) base
      /\ current = Variable_.current base
  | _ => False
  end.

(** A configuration that resolutions made one after the other also reach:
    the goroutines past the critical section have the values of as many
    successive resolutions of [v0], at most one goroutine is in the section,
    it holds the mutex, and the memory is where it has brought it. *)
Definition serial (v0 : Variable_.t) (c : Sequential.t) : Prop :=
  let served := length (List.filter past_section (Sequential.pool c)) in
  let base := after_resolutions v0 served in
  Permutation (omap value_of (Sequential.pool c)) (sequential_values v0 served)
  /\ match List.filter in_section (Sequential.pool c) with
     | [] =>
         Sequential.locked (Sequential.mem c) = false
         /\ Sequential.variable (Sequential.mem c) = base
     | [g] =>
         Sequential.locked (Sequential.mem c) = true
         /\ holds base (Sequential.variable (Sequential.mem c)) g
     | _ => False
     end.

(** The same statements under a mutex that excludes nobody: what the
    sequential strategy would do without its lock. *)
Definition step_unguarded (m : Sequential.memory) (g : Sequential.goroutine)
  : option (Sequential.memory * Sequential.goroutine) :=
  match Sequential.step
          (Sequential.mkMemory (Sequential.variable m) false) g with
  | Some (m', g') =>
      Some (Sequential.mkMemory (Sequential.variable m') false, g')
  | None => None
  end.

Definition run_unguarded (steps : list nat) (c : Sequential.t) : Sequential.t :=
  fold_left (Sequential.schedule_by step_unguarded) steps c.
(** ** Further definitions: the rest of the runner, the analyzer and the configuration *)

From Stdlib Require Import DecimalPos DecimalZ Permutation.

(** *** What the aggregator records, outcome by outcome *)

(** The error record the loop of [RunTest] appends for an outcome that is no
    success: the message of the failure cause, or the status code with its
    reason phrase. *)
Definition error_record `{P : Platform} (res : RequestResult.t) : ErrorData.t :=
  match RequestResult.Error res with
  | Some err => ErrorData.mk "" (Error_string err)
  | None =>
      ErrorData.mk (GoInt.Itoa (RequestResult.Status res))
                   (http_StatusText (RequestResult.Status res))
  end.

Definition is_failure (res : RequestResult.t) : bool := negb (is_success res).

(** The responses whose status prints as the key [k]. *)
Definition with_status_key (k : string) (outcomes : list RequestResult.t)
  : list RequestResult.t :=
  List.filter (fun res => String.eqb (GoInt.Itoa (RequestResult.Status res)) k)
              (responses outcomes).

(** The responses with the status [status]. *)
Definition with_status (status : Z) (outcomes : list RequestResult.t)
  : list RequestResult.t :=
  List.filter (fun res => RequestResult.Status res =? status)
              (responses outcomes).

(** The responses that began in the Unix second [second], and their
    durations as the timeline keeps them. *)
Definition in_second (second : Z) (outcomes : list RequestResult.t)
  : list RequestResult.t :=
  List.filter (fun res => Time.Unix (RequestResult.Timestamp res) =? second)
              (responses outcomes).

Definition bucket (second : Z) (outcomes : list RequestResult.t) : list float :=
  List.map (fun res => Float64.of_int
                         (Duration.Milliseconds (RequestResult.Duration res)))
           (in_second second outcomes).

(** An entry of a histogram or of the timeline map after [n] additions: absent
    until the first one. *)
Definition counted (n : Z) : option Z :=
  if n =? 0 then None else Some (GoInt.wrap n).

Definition started_at (second : Z) (status : Z) (d : Duration.t)
  : RequestResult.t :=
  RequestResult.mk d status None (second * Duration.Second).

(** A bucket of the timeline map: absent until the first duration. *)
Definition filled (durations : list float) : option (list float) :=
  match durations with [] => None | _ => Some durations end.

(** *** A second platform, for the edges

    The deadline has fired or not as [done] says, a URL that begins with a
    colon is refused by [http.NewRequestWithContext], and the server is
    unreachable: every call ends in a transport error after five
    milliseconds. The only variables document that decodes is the array of
    one null, to a slice of one [nil] pointer. *)
Definition EdgePlatform (done : bool) : Platform := {|
  Rand := Z;
  rand_New := fun seed => seed;
  rand_Intn := test_Intn;
  rand_Intn_bound := test_Intn_bound;
  rand_Float64 := fun r => (0.25%float, r + 1);
  World := Z;
  time_Now := fun w => (w, w + Duration.Millisecond);
  uuid_New := fun w => ("00000000-0000-4000-8000-" +:+ GoInt.Itoa w, w + 1);
  context_WithTimeout := fun _ w => w;
  ctx_Done := fun _ => done;
  client_Do := fun _ _ w =>
    (inl (TransportError "connection refused"), w + 5 * Duration.Millisecond);
  json_Unmarshal := fun text =>
    if String.eqb text "[null]" then Some [None] else None;
  http_NewRequest_error := fun _ url =>
    if starts_with ":" url
    then Some (RequestError "missing protocol scheme") else None;
  http_StatusText := fun _ => "";
  fmt_Sprintf_2f := fun _ => "0.25";
  time_Format_RFC3339 := fun t => GoInt.Itoa t
|}.

Definition config_for (method url body : string) (use_variables : bool)
  : TestConfiguration.t :=
  TestConfiguration.mk "t3" "edge" url method 3 2 5 "" body true use_variables
    "" "".

(** *** The worker pool, request index by request index *)

(** What became of a request index: whether the context of the run was done
    when its turn came, and the outcome sent on [resultChan], if any. *)
Module Handled.
Record t := mk {
  index : Z;
  expired : bool;
  sent : option RequestResult.t
}.
End Handled.

(** [run_requests], keeping what became of every index. *)
Fixpoint trace_requests `{P : Platform} (config : TestConfiguration.t)
    (n : nat) (reqIdx : Z) : M RunState (list Handled.t) :=
  match n with
  | O => ret []
  | S n' =>
      let* s := get in
      let* outcome := executeRequest config reqIdx in
      let* rest := trace_requests config n' (reqIdx + 1) in
      ret (Handled.mk reqIdx (ctx_Done (rworld s)) outcome :: rest)
  end.

Definition trace_workers `{P : Platform} (config : TestConfiguration.t)
  : M RunState (list Handled.t) :=
  if 0 <? TestConfiguration.Concurrency config
  then trace_requests config (Z.to_nat (TestConfiguration.Requests config)) 0
  else ret [].

(** The outcomes of a trace, in the order they were sent, and the indices
    whose turn came after the deadline. *)
Definition outcomes_of (trace : list Handled.t) : list RequestResult.t :=
  omap Handled.sent trace.

Definition expired_in (trace : list Handled.t) : list Handled.t :=
  List.filter Handled.expired trace.

Definition count_expired (trace : list Handled.t) : Z :=
  Z.of_nat (length (expired_in trace)).

(** The request indices of a run of [n] requests. *)
Definition indices (n : nat) : list Z := Z.of_nat <$> seq 0 n.

(** An index either came up after the deadline and sent nothing, or sent
    exactly one outcome. *)
Definition accounted (h : Handled.t) : Prop :=
  if Handled.expired h then Handled.sent h = None
  else is_Some (Handled.sent h).

(** *** A third platform, with a deadline that fires

    The world is the clock and the deadline of the run's context:
    [context.WithTimeout] sets the deadline, the context is done once the
    clock has reached it, and the server answers every request with status
    200 after [latency]. *)
Definition DeadlinePlatform (latency : Duration.t) : Platform := {|
  Rand := Z;
  rand_New := fun seed => seed;
  rand_Intn := test_Intn;
  rand_Intn_bound := test_Intn_bound;
  rand_Float64 := fun r => (0.5%float, r + 1);
  World := Z * Z;
  time_Now := fun w => (fst w, (fst w + Duration.Millisecond, snd w));
  uuid_New := fun w =>
    ("00000000-0000-4000-8000-" +:+ GoInt.Itoa (fst w), (fst w + 1, snd w));
  context_WithTimeout := fun timeout w => (fst w, fst w + timeout);
  ctx_Done := fun w => snd w <=? fst w;
  client_Do := fun _ _ w => (inr 200, (fst w + latency, snd w));
  json_Unmarshal := fun _ => None;
  http_NewRequest_error := fun _ _ => None;
  http_StatusText := fun _ => "";
  fmt_Sprintf_2f := fun _ => "0.50";
  time_Format_RFC3339 := fun t => GoInt.Itoa t
|}.

(** *** Placeholders *)

(** The text of the placeholder of a name. *)
Definition placeholder (name : string) : string := "{{" +:+ name +:+ "}}".

(** A string without a closing brace. *)
Fixpoint brace_free (s : string) : bool :=
  match s with
  | EmptyString => true
  | String c s' => negb (Ascii.eqb c close_brace) && brace_free s'
  end.

(** A name that can stand in a placeholder: not empty, no closing brace. *)
Definition name_ok (name : string) : bool :=
  negb (String.eqb name "") && brace_free name.

(** [old] occurs in [s]. *)
Fixpoint occurs (old s : string) : bool :=
  starts_with old s
  || match s with
     | EmptyString => false
     | String _ s' => occurs old s'
     end.

(** The strategies [getVariableValue] knows. *)
Definition known_strategy (strategy : string) : bool :=
  String.eqb strategy "static" || String.eqb strategy "sequential"
  || String.eqb strategy "random" || String.eqb strategy "uuid"
  || String.eqb strategy "timestamp" || String.eqb strategy "template".

(** The last definition of [name] in a decoded list. *)
Definition last_definition (name : string) (vars : list Variable_.t)
  : option Variable_.t :=
  List.find (fun v => String.eqb (Variable_.Name v) name) (rev vars).

Definition static_variable (name value : string) : Variable_.t :=
  Variable_.mk name "string" "static" value 0 0 0 0 0 "" 0.

Definition template_variable (name template : string) : Variable_.t :=
  Variable_.mk name "string" "template" "" 0 0 0 0 0 template 0.

Definition odd_variable (name strategy : string) : Variable_.t :=
  Variable_.mk name "string" strategy "" 0 0 0 0 0 "" 0.

(** A string without an opening brace: no match can begin in it. *)
Fixpoint plain (s : string) : bool :=
  match s with
  | EmptyString => true
  | String c s' => negb (Ascii.eqb c open_brace) && plain s'
  end.

(** The bytes of a string, each as a copied segment. *)
Fixpoint copied (s : string) : list segment :=
  match s with
  | EmptyString => []
  | String c s' => Text c :: copied s'
  end.

(** [processVariables] without its shortcut for the empty input. *)
Definition replace_all `{P : Platform} (input : string) (requestIndex : Z)
  : M State string :=
  ReplaceAllStringFunc input (replace_match requestIndex).


(** The piece a match is replaced by when its resolution touches nothing of
    the runtime state: the request index, the value of a static variable, or
    the match itself when the name is undefined or its strategy is none of
    those [getVariableValue] knows. [None] for a resolution that draws from
    the generator, reads the world or moves a cursor. *)
Definition settled `{P : Platform} (s : State) (requestIndex : Z) (m : string)
  : option string :=
  let name := placeholder_name m in
  if String.eqb name "$index" then Some (GoInt.Itoa requestIndex)
  else if String.eqb name "$random" then None
  else
    match VariableContext.Variables (vctx s) !! name with
    | None => Some m
    | Some v =>
        if String.eqb (Variable_.Strategy v) "static"
        then Some (Variable_.Value v)
        else if known_strategy (Variable_.Strategy v) then None
        else Some m
    end.

Definition settled_piece `{P : Platform} (s : State) (requestIndex : Z)
    (seg : segment) : string :=
  match seg with
  | Text c => String c ""
  | Match m => default m (settled s requestIndex m)
  end.

(** A name whose resolution ends in an error: no built-in, and either
    undefined or of a strategy [getVariableValue] does not know. *)
Definition erroring `{P : Platform} (s : State) (name : string) : bool :=
  negb (is_builtin name)
  && match VariableContext.Variables (vctx s) !! name with
     | None => true
     | Some v => negb (known_strategy (Variable_.Strategy v))
     end.

(** A value that prints an integer of the range of the sequential variable
    [v]. *)
Definition within (v : Variable_.t) (value : string) : Prop :=
  exists z : Z,
    value = GoInt.Itoa z
    /\ Variable_.StartValue v <= z <= Variable_.EndValue v.

(** The state after one draw [ctx.Rand.Intn(n)]: only the generator has
    moved. *)
Definition after_draw `{P : Platform} (n : Z) (s : State) : State :=
  mkState (VariableContext.set_Rand
             (snd (rand_Intn n (VariableContext.Rand_ (vctx s)))) (vctx s))
          (world s).

(** A test configuration with the variables document [variables]. *)
Definition config_with (variables : string) : TestConfiguration.t :=
  TestConfiguration.mk "t4" "variables" "http://localhost:8080/{{n}}" "GET"
    3 2 5 "" "" true true variables "".

(** *** The analyzer ([pkg/results]) *)

Definition strings_Contains (s substr : string) : bool := occurs substr s.

(** [getStatusCodeType]: the class of a status code, by the first byte of its
    text. *)
Definition getStatusCodeType (code : string) : string :=
  match code with
  | String firstChar _ =>
      if Ascii.eqb firstChar "1" then "Informational"
      else if Ascii.eqb firstChar "2" then "Success"
      else if Ascii.eqb firstChar "3" then "Redirection"
      else if Ascii.eqb firstChar "4" then "Client Error"
      else if Ascii.eqb firstChar "5" then "Server Error"
      else "Unknown"
  | EmptyString => "Unknown"
  end.

(** The [switch] of [GetStatusCodeCounts]: the counter a code is added to. *)
Definition counter_of (code : string) : string :=
  let codeType := getStatusCodeType code in
  if strings_Contains codeType "Success" then "success"
  else if strings_Contains codeType "Redirection" then "redirection"
  else if strings_Contains codeType "Client Error" then "clientError"
  else if strings_Contains codeType "Server Error" then "serverError"
  else "unknown".

(** One iteration of the loop over [a.Result.StatusCodes]. *)
Definition add_count (result : gmap string Z) (entry : string * Z)
  : gmap string Z :=
  let (code, count) := entry in
  let k := counter_of code in
  <[k := GoInt.add (default 0 (result !! k)) count]> result.

Definition initial_counts : gmap string Z :=
  <["success" := 0]>
    (<["redirection" := 0]>
       (<["clientError" := 0]>
          (<["serverError" := 0]> (<["unknown" := 0]> ∅)))).

(** The loop, over the entries in the order the iteration yields them. *)
Definition count_classes (entries : list (string * Z)) : gmap string Z :=
  fold_left add_count entries initial_counts.

(** [GetStatusCodeCounts]. Go ranges over the map in an unspecified order;
    the entries are taken here in the order of [map_to_list]. *)
Definition GetStatusCodeCounts (r : TestResult.t) : gmap string Z :=
  count_classes (map_to_list (TestResult.StatusCodes r)).

Definition counters : list string :=
  ["success"; "redirection"; "clientError"; "serverError"; "unknown"].

Definition is_counter (k : string) : bool :=
  existsb (String.eqb k) counters.

(** The sum of the counts of the entries that go to the counter [k]. *)
Definition class_total (k : string) (entries : list (string * Z)) : Z :=
  fold_right Z.add 0
    (List.map snd
       (List.filter (fun entry => String.eqb (counter_of (fst entry)) k)
                    entries)).

(** The sum of the five counters, in Go's arithmetic. *)
Definition counted_in_all (result : gmap string Z) : Z :=
  fold_right (fun k acc => GoInt.add (default 0 (result !! k)) acc) 0 counters.

(** The answered outcomes whose status code goes to the counter [k]. *)
Definition answered_in_class (k : string) (outcomes : list RequestResult.t)
  : list RequestResult.t :=
  List.filter
    (fun res => String.eqb (counter_of (GoInt.Itoa (RequestResult.Status res))) k)
    (responses outcomes).

(** The class of a three-digit status code by its hundreds. *)
Definition counter_of_status (status : Z) : string :=
  if status <? 200 then "unknown"
  else if status <? 300 then "success"
  else if status <? 400 then "redirection"
  else if status <? 500 then "clientError"
  else "serverError".

(** The answered outcomes whose three-digit status code is of the class
    [k]. *)
Definition answered_by_hundreds (k : string) (outcomes : list RequestResult.t)
  : list RequestResult.t :=
  List.filter
    (fun res => String.eqb (counter_of_status (RequestResult.Status res)) k)
    (responses outcomes).

(** *** The configuration ([internal/config])

    The process environment is a finite map from names to values, the [.env]
    file is the list of the lines [bufio.Scanner] yields ([None] when the file
    is missing or cannot be opened), and [strings.TrimSpace] is taken as
    given. *)

Module Config.

Record t := mk {
  APIKey : string;
  BaseURL : string;
  Verbose : bool;
  SingleTest : bool;
  TestID : string;
  OutputJSON : bool;
  JSONOutFile : string
}.

Definition DefaultBaseURL : string := "https://buzzbench.io/api".

Definition has_byte (c : ascii) (s : string) : bool :=
  existsb (Ascii.eqb c) (list_ascii_of_string s).

(** [os.Setenv], whose error [loadEnvFile] drops: an empty name, a name with
    an equals sign or a NUL, or a value with a NUL is refused. *)
Definition Setenv (key value : string) (env : gmap string string)
  : gmap string string :=
  if String.eqb key "" || has_byte "=" key || has_byte Ascii.zero key
     || has_byte Ascii.zero value
  then env
  else <[key := value]> env.

(** [strings.SplitN(line, "=", 2)] when it has two parts: the text before
    the first equals sign, and the text after it. *)
Fixpoint SplitN_2 (line : string) : option (string * string) :=
  match line with
  | EmptyString => None
  | String c rest =>
      if Ascii.eqb c "=" then Some (EmptyString, rest)
      else match SplitN_2 rest with
           | Some (before, after) => Some (String c before, after)
           | None => None
           end
  end.

(** [strings.TrimRight(s, cutset)] for a cutset of one byte. *)
Fixpoint TrimRight (s : string) (c : ascii) : string :=
  match s with
  | EmptyString => EmptyString
  | String a s' =>
      match TrimRight s' c with
      | EmptyString => if Ascii.eqb a c then EmptyString else String a ""
      | trimmed => String a trimmed
      end
  end.

Fixpoint ends_with (c : ascii) (s : string) : bool :=
  match s with
  | EmptyString => false
  | String a EmptyString => Ascii.eqb a c
  | String _ s' => ends_with c s'
  end.

(** [getEnv]: an unset and an empty variable both give the default. *)
Definition getEnv (env : gmap string string) (key defaultValue : string)
  : string :=
  let value := default "" (env !! key) in
  if String.eqb value "" then defaultValue else value.

Section WithTrimSpace.

Variable TrimSpace : string -> string.

(** The name and value a line of the file stands for, if any: comments, blank
    lines and lines without an equals sign are skipped. *)
Definition parse_line (line : string) : option (string * string) :=
  if starts_with "#" line || (String.length (TrimSpace line) =? 0)%nat
  then None
  else
    match SplitN_2 line with
    | Some (before, after) => Some (TrimSpace before, TrimSpace after)
    | None => None
    end.

(** The body of the loop of [loadEnvFile] on one line. *)
Definition load_line (env : gmap string string) (line : string)
  : gmap string string :=
  match parse_line line with
  | None => env
  | Some (key, value) =>
      match env !! key with
      | Some _ => env
      | None => Setenv key value env
      end
  end.

Definition loadEnvFile (file : option (list string))
    (env : gmap string string) : gmap string string :=
  match file with
  | None => env
  | Some lines => fold_left load_line lines env
  end.

(** [New]: the configuration, and the environment it leaves. *)
Definition New (EmbeddedApiKey : string) (file : option (list string))
    (env : gmap string string) : t * gmap string string :=
  if negb (String.eqb EmbeddedApiKey "") then
    (mk EmbeddedApiKey DefaultBaseURL false false "" false "", env)
  else
    let env := loadEnvFile file env in
    let cfg :=
      mk (getEnv env "BUZZBENCH_API_KEY" "")
         (getEnv env "BUZZBENCH_API_URL" DefaultBaseURL)
         false false "" false "" in
    (mk (APIKey cfg) (TrimRight (BaseURL cfg) "/") (Verbose cfg)
        (SingleTest cfg) (TestID cfg) (OutputJSON cfg) (JSONOutFile cfg),
     env).

(** What a line sets when no earlier one and not the environment has the
    name: the name and value [os.Setenv] accepts. *)
Definition setting (line : string) : option (string * string) :=
  match parse_line line with
  | Some (key, value) =>
      if String.eqb key "" || has_byte "=" key || has_byte Ascii.zero key
         || has_byte Ascii.zero value
      then None
      else Some (key, value)
  | None => None
  end.

(** The value of the first line of the file that sets [key]. *)
Fixpoint first_setting (key : string) (lines : list string) : option string :=
  match lines with
  | [] => None
  | line :: lines' =>
      match setting line with
      | Some (k, value) =>
          if String.eqb k key then Some value else first_setting key lines'
      | None => first_setting key lines'
      end
  end.

End WithTrimSpace.

(** [strings.TrimSpace] on ASCII text: the white space is the blank and the
    bytes 9 to 13. *)
Definition is_space (c : ascii) : bool :=
  let n := nat_of_ascii c in
  (n =? 32)%nat || ((9 <=? n)%nat && (n <=? 13)%nat).

Fixpoint trim_left (s : string) : string :=
  match s with
  | String c s' => if is_space c then trim_left s' else s
  | EmptyString => EmptyString
  end.

Fixpoint trim_right (s : string) : string :=
  match s with
  | EmptyString => EmptyString
  | String a s' =>
      match trim_right s' with
      | EmptyString => if is_space a then EmptyString else String a ""
      | trimmed => String a trimmed
      end
  end.

Definition ascii_TrimSpace (s : string) : string := trim_right (trim_left s).

End Config.
(** * Properties *)

(** ** Go integers *)

Lemma wrap_in_range (z : Z) : GoInt.in_range z -> GoInt.wrap z = z.
Proof.
  unfold GoInt.in_range, GoInt.wrap, GoInt.min_int, GoInt.max_int.
  intros Hz. rewrite Z.mod_small; lia.
Qed.

Lemma wrap_add_wrap_l (a b : Z) :
  GoInt.wrap (GoInt.wrap a + b) = GoInt.wrap (a + b).
Proof.
  unfold GoInt.wrap.
  replace ((a + 2 ^ 63) mod 2 ^ 64 - 2 ^ 63 + b + 2 ^ 63)
    with ((a + 2 ^ 63) mod 2 ^ 64 + b) by lia.
  rewrite Zplus_mod_idemp_l. f_equal. f_equal. lia.
Qed.

(** ** The deadline of a run *)

(** C1, as stated, fails: ten requests over three workers get a deadline of
    13 seconds (10/3 = 3 in Go), not the 14 seconds of the ceiling. *)
Lemma run_timeout_is_not_the_ceiling :
  run_timeout (config_of 10 3) = Ok (13 * Duration.Second)
  /\ spec_timeout (config_of 10 3) = 14 * Duration.Second
  /\ run_timeout (config_of 10 3) <> Ok (spec_timeout (config_of 10 3)).
Proof. repeat split. vm_compute. discriminate. Qed.

(** C1 (amended): for every test specification with a non-zero concurrency
    whose deadline fits in a [time.Duration], the timeout of the run is
    requests / concurrency + 10 seconds, where the division is Go's, truncated
    toward zero; for a non-negative request count and a positive concurrency
    that is the floor of the quotient. *)
Theorem run_timeout_truncates `{P : Platform}
    (config : TestConfiguration.t) (w : World) :
  let requests := TestConfiguration.Requests config in
  let concurrency := TestConfiguration.Concurrency config in
  concurrency <> 0 ->
  GoInt.in_range ((Z.quot requests concurrency + 10) * Duration.Second) ->
  run_timeout config
  = Ok ((Z.quot requests concurrency + 10) * Duration.Second)
  /\ RunTest config w
     = run_under_deadline config
         (context_WithTimeout
            ((Z.quot requests concurrency + 10) * Duration.Second) w)
  /\ (0 <= requests -> 0 < concurrency ->
      Z.quot requests concurrency = requests / concurrency
      /\ concurrency * (requests / concurrency) <= requests
         < concurrency * (requests / concurrency + 1)).
Proof.
  intros requests concurrency Hc Hfit.
  assert (Htimeout : run_timeout config
            = Ok ((Z.quot requests concurrency + 10) * Duration.Second));
    [|split; [exact Htimeout | split]].
  - unfold run_timeout, GoInt.div. fold requests concurrency.
    destruct (Z.eqb_spec concurrency 0) as [|_]; [contradiction|].
    unfold GoInt.mul, GoInt.add.
    assert (Hq : GoInt.in_range (Z.quot requests concurrency)).
    { revert Hfit. unfold GoInt.in_range, GoInt.min_int, GoInt.max_int,
        Duration.Second. lia. }
    assert (Hq10 : GoInt.in_range (Z.quot requests concurrency + 10)).
    { revert Hfit. unfold GoInt.in_range, GoInt.min_int, GoInt.max_int,
        Duration.Second. lia. }
    rewrite (wrap_in_range _ Hq), (wrap_in_range _ Hq10),
      (wrap_in_range _ Hfit). reflexivity.
  - unfold RunTest, bind. rewrite Htimeout. reflexivity.
  - intros Hr Hpos. split.
    + apply Z.quot_div_nonneg; lia.
    + pose proof (Z.mul_div_le requests concurrency Hpos).
      pose proof (Z.mul_succ_div_gt requests concurrency Hpos). lia.
Qed.

Lemma run_timeout_truncates_witness :
  run_timeout (config_of 1000 50) = Ok ((Z.quot 1000 50 + 10) * Duration.Second)
  /\ @RunTest (TestPlatform []) (config_of 1000 50) 0
     = @run_under_deadline (TestPlatform []) (config_of 1000 50)
         (@context_WithTimeout (TestPlatform [])
            ((Z.quot 1000 50 + 10) * Duration.Second) 0)
  /\ (0 <= 1000 -> 0 < 50 ->
      Z.quot 1000 50 = 1000 / 50
      /\ 50 * (1000 / 50) <= 1000 < 50 * (1000 / 50 + 1)).
Proof.
  apply (@run_timeout_truncates (TestPlatform []) (config_of 1000 50) 0).
  - simpl. lia.
  - vm_compute. split; discriminate.
Defined.

(** ** A zero concurrency *)

(** C9: for every specification with [Concurrency = 0], [RunTest] panics with
    an integer division by zero while it computes the deadline: the world is
    still the one the run started in, so no request was issued (nor the clock
    read, nor the deadline armed). *)
Theorem RunTest_zero_concurrency_panics `{P : Platform}
    (config : TestConfiguration.t) (w : World) :
  TestConfiguration.Concurrency config = 0 ->
  RunTest config w = Panicked "runtime error: integer divide by zero" w.
Proof.
  intros Hzero. unfold RunTest, bind, run_timeout, GoInt.div.
  rewrite Hzero. reflexivity.
Qed.

Lemma RunTest_zero_concurrency_panics_witness :
  @RunTest (TestPlatform []) (config_of 100 0) 0
  = Panicked "runtime error: integer divide by zero" 0.
Proof.
  apply (@RunTest_zero_concurrency_panics (TestPlatform []) (config_of 100 0)).
  reflexivity.
Defined.

(** ** The aggregator *)

Section AggregatorFacts.

Context {P : Platform}.

Lemma tally_snoc (outcomes : list RequestResult.t) (res : RequestResult.t) :
  tally (outcomes ++ [res]) = process_result (tally outcomes) res.
Proof. unfold tally. rewrite fold_left_app. reflexivity. Qed.

Lemma count_snoc (outcomes : list RequestResult.t) (res : RequestResult.t) :
  count (outcomes ++ [res]) = count outcomes + 1.
Proof. unfold count. rewrite length_app. simpl. lia. Qed.

Lemma successes_snoc (outcomes : list RequestResult.t) (res : RequestResult.t) :
  successes (outcomes ++ [res])
  = successes outcomes ++ (if is_success res then [res] else []).
Proof. unfold successes. rewrite List.filter_app. reflexivity. Qed.

Lemma responses_snoc (outcomes : list RequestResult.t) (res : RequestResult.t) :
  responses (outcomes ++ [res])
  = responses outcomes ++ (if has_response res then [res] else []).
Proof. unfold responses. rewrite List.filter_app. reflexivity. Qed.

Lemma total_snoc (ds : list Z) (d : Z) : total (ds ++ [d]) = total ds + d.
Proof. induction ds as [|x ds IH]; simpl; [lia|]. rewrite IH. lia. Qed.

Lemma least_snoc (bound : Z) (ds : list Z) (d : Z) :
  least bound (ds ++ [d]) = Z.min (least bound ds) d.
Proof. induction ds as [|x ds IH]; simpl; [lia|]. rewrite IH. lia. Qed.

Lemma greatest_snoc (bound : Z) (ds : list Z) (d : Z) :
  greatest bound (ds ++ [d]) = Z.max (greatest bound ds) d.
Proof. induction ds as [|x ds IH]; simpl; [lia|]. rewrite IH. lia. Qed.

(** [least] is the minimum of the bound and the list; [greatest] the maximum. *)
Lemma least_lower (bound : Z) (ds : list Z) :
  least bound ds <= bound /\ Forall (fun d => least bound ds <= d) ds.
Proof.
  induction ds as [|x ds [IHb IHf]]; simpl.
  - split; [lia | constructor].
  - split; [lia|]. constructor; [lia|].
    eapply List.Forall_impl; [|exact IHf]. simpl. intros d Hd. lia.
Qed.

Lemma least_attained (bound : Z) (ds : list Z) :
  least bound ds = bound \/ In (least bound ds) ds.
Proof.
  induction ds as [|x ds IH]; simpl; [left; reflexivity|].
  destruct (Z.min_spec x (least bound ds)) as [[_ ->]|[_ ->]].
  - right. left. reflexivity.
  - destruct IH as [->|Hin]; [left; reflexivity | right; right; exact Hin].
Qed.

Lemma greatest_upper (bound : Z) (ds : list Z) :
  bound <= greatest bound ds /\ Forall (fun d => d <= greatest bound ds) ds.
Proof.
  induction ds as [|x ds [IHb IHf]]; simpl.
  - split; [lia | constructor].
  - split; [lia|]. constructor; [lia|].
    eapply List.Forall_impl; [|exact IHf]. simpl. intros d Hd. lia.
Qed.

Lemma greatest_attained (bound : Z) (ds : list Z) :
  greatest bound ds = bound \/ In (greatest bound ds) ds.
Proof.
  induction ds as [|x ds IH]; simpl; [left; reflexivity|].
  destruct (Z.max_spec x (greatest bound ds)) as [[_ ->]|[_ ->]].
  - destruct IH as [->|Hin]; [left; reflexivity | right; right; exact Hin].
  - right. left. reflexivity.
Qed.

Lemma success_test (res : RequestResult.t) :
  RequestResult.Error res = None ->
  (200 <=? RequestResult.Status res) && (RequestResult.Status res <? 400)
  = is_success res.
Proof.
  intros Hnone. unfold is_success. rewrite Hnone. f_equal.
  destruct (Z.ltb_spec (RequestResult.Status res) 400),
    (Z.leb_spec (RequestResult.Status res) 399); (reflexivity || lia).
Qed.

(** What the loop has accumulated when the channel closes, in Go's 64-bit
    arithmetic. *)
Lemma tally_totalCount (outcomes : list RequestResult.t) :
  totalCount (tally outcomes) = GoInt.wrap (count outcomes).
Proof.
  induction outcomes as [|res outcomes IH] using rev_ind; [reflexivity|].
  rewrite tally_snoc, count_snoc. unfold process_result.
  destruct (RequestResult.Error res); simpl; rewrite IH;
    apply wrap_add_wrap_l.
Qed.

Lemma tally_successCount (outcomes : list RequestResult.t) :
  successCount (tally outcomes) = GoInt.wrap (count (successes outcomes)).
Proof.
  induction outcomes as [|res outcomes IH] using rev_ind; [reflexivity|].
  rewrite tally_snoc, successes_snoc. unfold process_result.
  destruct (RequestResult.Error res) as [err|] eqn:Herr.
  - simpl. unfold is_success. rewrite Herr, app_nil_r. exact IH.
  - simpl. rewrite (success_test res Herr).
    destruct (is_success res).
    + rewrite count_snoc, IH. apply wrap_add_wrap_l.
    + rewrite app_nil_r. exact IH.
Qed.

Lemma tally_totalDuration (outcomes : list RequestResult.t) :
  totalDuration (tally outcomes)
  = GoInt.wrap (total (durations (responses outcomes))).
Proof.
  induction outcomes as [|res outcomes IH] using rev_ind; [reflexivity|].
  rewrite tally_snoc, responses_snoc. unfold process_result, has_response.
  destruct (RequestResult.Error res) as [err|]; simpl.
  - rewrite app_nil_r. exact IH.
  - unfold durations. rewrite List.map_app. simpl. rewrite total_snoc.
    rewrite IH. apply wrap_add_wrap_l.
Qed.

Lemma tally_minDuration (outcomes : list RequestResult.t) :
  minDuration (tally outcomes)
  = least Duration.Hour (durations (responses outcomes)).
Proof.
  induction outcomes as [|res outcomes IH] using rev_ind; [reflexivity|].
  rewrite tally_snoc, responses_snoc. unfold process_result, has_response.
  destruct (RequestResult.Error res) as [err|]; simpl.
  - rewrite app_nil_r. exact IH.
  - unfold durations. rewrite List.map_app. simpl. rewrite least_snoc.
    fold (durations (responses outcomes)). rewrite <- IH.
    destruct (Z.ltb_spec (RequestResult.Duration res)
                (minDuration (tally outcomes))); lia.
Qed.

Lemma tally_maxDuration (outcomes : list RequestResult.t) :
  maxDuration (tally outcomes) = greatest 0 (durations (responses outcomes)).
Proof.
  induction outcomes as [|res outcomes IH] using rev_ind; [reflexivity|].
  rewrite tally_snoc, responses_snoc. unfold process_result, has_response.
  destruct (RequestResult.Error res) as [err|]; simpl.
  - rewrite app_nil_r. exact IH.
  - unfold durations. rewrite List.map_app. simpl. rewrite greatest_snoc.
    fold (durations (responses outcomes)). rewrite <- IH.
    destruct (Z.gtb_spec (RequestResult.Duration res)
                (maxDuration (tally outcomes))); lia.
Qed.

Lemma count_successes_le (outcomes : list RequestResult.t) :
  0 <= count (successes outcomes) <= count outcomes.
Proof.
  unfold count, successes.
  pose proof (List.filter_length_le is_success outcomes). lia.
Qed.

Lemma count_pos (outcomes : list RequestResult.t) :
  outcomes <> [] -> 0 < count outcomes.
Proof. destruct outcomes; [contradiction|]. unfold count. simpl. lia. Qed.

Lemma count_in_range (outcomes : list RequestResult.t) :
  0 <= count outcomes <= GoInt.max_int -> GoInt.in_range (count outcomes).
Proof. unfold GoInt.in_range, GoInt.min_int, GoInt.max_int. lia. Qed.

End AggregatorFacts.

(** ** What [RunTest] summarizes *)

Section DispatcherFacts.

Context {P : Platform}.

Lemma bind_Done {S A B} (m : M S A) (k : A -> M S B) (s s' : S) (b : B) :
  bind m k s = Done b s' ->
  exists (a : A) (s1 : S), m s = Done a s1 /\ k a s1 = Done b s'.
Proof.
  unfold bind. destruct (m s) as [a s1|]; [|discriminate].
  intros Hk. exists a, s1. split; [reflexivity | exact Hk].
Qed.

Lemma run_requests_count (config : TestConfiguration.t) (n : nat) :
  forall (reqIdx : Z) (rs rs' : RunState) (outcomes : list RequestResult.t),
    run_requests config n reqIdx rs = Done outcomes rs' ->
    (length outcomes <= n)%nat.
Proof.
  induction n as [|n IH]; intros reqIdx rs rs' outcomes.
  - intros [= <- _]. simpl. lia.
  - cbn [run_requests]. unfold bind.
    destruct (executeRequest config reqIdx rs) as [sent rs1|]; [|discriminate].
    destruct (run_requests config n (reqIdx + 1) rs1) as [rest rs2|] eqn:Hrest;
      [|discriminate].
    apply IH in Hrest. intros [= <- _].
    destruct sent; simpl; lia.
Qed.

(** A run that ends returns the summary of the outcomes it processed, which
    are at most [config.Requests]: the capacity of [resultChan]. *)
Lemma RunTest_summarizes (config : TestConfiguration.t) (w w' : World)
    (r : TestResult.t) :
  RunTest config w = Done r w' ->
  exists (outcomes : list RequestResult.t) (elapsed : Duration.t),
    r = summarize config outcomes elapsed
    /\ count outcomes <= Z.max 0 (TestConfiguration.Requests config).
Proof.
  intros Hrun. unfold RunTest in Hrun.
  apply bind_Done in Hrun as (timeout & w0 & _ & Hrun).
  apply bind_Done in Hrun as ([] & w1 & _ & Hrun).
  unfold run_under_deadline in Hrun.
  apply bind_Done in Hrun as (ctx & w2 & _ & Hrun).
  apply bind_Done in Hrun as ([] & w3 & _ & Hrun).
  apply bind_Done in Hrun as ([] & w3' & _ & Hrun).
  apply bind_Done in Hrun as (startTime & w4 & _ & Hrun).
  apply bind_Done in Hrun as (outcomes & w5 & Hworkers & Hrun).
  apply bind_Done in Hrun as (endTime & w6 & _ & Hrun).
  injection Hrun as <- _.
  exists outcomes, (Time.Sub endTime startTime). split; [reflexivity|].
  revert Hworkers. unfold from_run, run_workers.
  destruct (0 <? TestConfiguration.Concurrency config).
  - destruct (run_requests config
                (Z.to_nat (TestConfiguration.Requests config)) 0
                (mkRunState ctx w4)) as [outs rs|] eqn:Hreqs; [|discriminate].
    apply run_requests_count in Hreqs. intros [= <- _]. unfold count. lia.
  - intros [= <- _]. unfold count. simpl. lia.
Qed.

End DispatcherFacts.

(** Two floats are different when [eqb] tells the first from the second but
    not from itself (which rules out NaN). *)
Lemma float_neq (x y : float) :
  PrimFloat.eqb x x = true -> PrimFloat.eqb x y = false -> x <> y.
Proof. intros Hxx Hxy Heq. subst y. congruence. Qed.

(** C2: for every non-empty list of processed outcomes, the reported success
    rate is [float64(successes) / float64(processed) * 100], where a success
    is an outcome with no failure cause and a status in 200..399, and every
    processed outcome, transport errors and HTTP errors included, counts in
    the denominator. (The channel holds at most [config.Requests] outcomes, an
    [int]: hence the bound on the count.) *)
Theorem SuccessRate_is_successes_over_processed `{P : Platform}
    (config : TestConfiguration.t) (outcomes : list RequestResult.t)
    (elapsed : Duration.t) :
  outcomes <> [] ->
  count outcomes <= GoInt.max_int ->
  TestResult.SuccessRate (summarize config outcomes elapsed)
  = PrimFloat.mul
      (PrimFloat.div (Float64.of_int (count (successes outcomes)))
                     (Float64.of_int (count outcomes)))
      100%float.
Proof.
  intros Hsome Hfits. pose proof (count_pos outcomes Hsome) as Hpos.
  pose proof (count_successes_le outcomes) as Hle.
  unfold summarize. simpl.
  rewrite tally_totalCount, tally_successCount.
  rewrite !wrap_in_range by (apply count_in_range; lia).
  destruct (Z.ltb_spec 0 (count outcomes)); [reflexivity | lia].
Qed.

Lemma SuccessRate_is_successes_over_processed_witness :
  TestResult.SuccessRate
    (@summarize (TestPlatform []) (config_of 4 2) sample_outcomes (ms 100))
  = PrimFloat.mul
      (PrimFloat.div (Float64.of_int (count (successes sample_outcomes)))
                     (Float64.of_int (count sample_outcomes)))
      100%float.
Proof.
  apply (@SuccessRate_is_successes_over_processed (TestPlatform [])).
  - discriminate.
  - vm_compute. discriminate.
Defined.

Example SuccessRate_of_sample :
  TestResult.SuccessRate
    (@summarize (TestPlatform []) (config_of 4 2) sample_outcomes (ms 100))
  = 50%float.
Proof. vm_compute. reflexivity. Qed.

(** C4, as stated, fails: of a success of 50 ms, a 500 response of 5 ms and a
    404 response of 80 ms the reported minimum is 5 ms and the reported
    maximum 80 ms, the durations of the two failed responses; over the
    successful outcomes alone both would be 50 ms. *)
Lemma extremes_count_error_statuses :
  let outcomes :=
    [responded 200 (ms 50); responded 500 (ms 5); responded 404 (ms 80)] in
  let r := @summarize (TestPlatform []) (config_of 3 1) outcomes (ms 100) in
  TestResult.MinResponseTime r = 5%float
  /\ TestResult.MaxResponseTime r = 80%float
  /\ spec_MinResponseTime outcomes = 50%float
  /\ spec_MaxResponseTime outcomes = 50%float
  /\ TestResult.MinResponseTime r <> spec_MinResponseTime outcomes
  /\ TestResult.MaxResponseTime r <> spec_MaxResponseTime outcomes.
Proof.
  vm_compute. repeat split; apply float_neq; reflexivity.
Qed.

(** C4 (amended): the reported minimum and maximum latency are computed over
    the durations of all outcomes that have no failure cause, those with an
    HTTP-error status included: the minimum is the least of one hour and these
    durations, the maximum the greatest of zero and these durations, each in
    whole milliseconds. Both are reported as zero whenever no successful
    outcome occurred. *)
Theorem extremes_over_responses `{P : Platform}
    (config : TestConfiguration.t) (outcomes : list RequestResult.t)
    (elapsed : Duration.t) :
  let r := summarize config outcomes elapsed in
  let ds := durations (responses outcomes) in
  count outcomes <= GoInt.max_int ->
  (successes outcomes <> [] ->
   TestResult.MinResponseTime r
   = Float64.of_int (Duration.Milliseconds (least Duration.Hour ds))
   /\ TestResult.MaxResponseTime r
      = Float64.of_int (Duration.Milliseconds (greatest 0 ds)))
  /\ (successes outcomes = [] ->
      TestResult.MinResponseTime r = 0%float
      /\ TestResult.MaxResponseTime r = 0%float).
Proof.
  intros r ds Hfits. subst r ds.
  pose proof (count_successes_le outcomes) as Hle.
  unfold summarize. simpl.
  rewrite tally_totalCount, tally_successCount, tally_minDuration,
    tally_maxDuration.
  rewrite !wrap_in_range by (apply count_in_range; lia).
  split; cycle 1.
  - intros Hnone. rewrite Hnone. simpl. rewrite andb_false_r.
    split; reflexivity.
  - intros Hsome. pose proof (count_pos _ Hsome) as Hpos.
    destruct (Z.ltb_spec 0 (count outcomes)); [|lia].
    destruct (Z.ltb_spec 0 (count (successes outcomes))); [|lia].
    split; reflexivity.
Qed.

Lemma extremes_over_responses_witness :
  let r := @summarize (TestPlatform []) (config_of 4 2) sample_outcomes (ms 100) in
  let ds := durations (responses sample_outcomes) in
  (successes sample_outcomes <> [] ->
   TestResult.MinResponseTime r
   = Float64.of_int (Duration.Milliseconds (least Duration.Hour ds))
   /\ TestResult.MaxResponseTime r
      = Float64.of_int (Duration.Milliseconds (greatest 0 ds)))
  /\ (successes sample_outcomes = [] ->
      TestResult.MinResponseTime r = 0%float
      /\ TestResult.MaxResponseTime r = 0%float).
Proof.
  apply (@extremes_over_responses (TestPlatform []) (config_of 4 2)
           sample_outcomes (ms 100)).
  vm_compute. discriminate.
Defined.

Example extremes_of_sample :
  let r := @summarize (TestPlatform []) (config_of 4 2) sample_outcomes (ms 100) in
  TestResult.MinResponseTime r = 10%float
  /\ TestResult.MaxResponseTime r = 30%float.
Proof. vm_compute. split; reflexivity. Qed.

(** C5, as stated, fails: a transport error after 7 ms and a success of 3 ms
    are reported with an average of 3 / 2 = 1.5 ms; the durations of all
    processed outcomes over their count would give (7 + 3) / 2 = 5 ms. *)
Lemma AvgResponseTime_skips_transport_errors :
  let outcomes := [timed_out (ms 7); responded 200 (ms 3)] in
  let reported :=
    TestResult.AvgResponseTime
      (@summarize (TestPlatform []) (config_of 2 1) outcomes (ms 100)) in
  reported = 1.5%float
  /\ spec_AvgResponseTime outcomes = 5%float
  /\ reported <> spec_AvgResponseTime outcomes.
Proof.
  repeat split. vm_compute. apply float_neq; reflexivity.
Qed.

(** C5 (amended): for every non-empty list of processed outcomes, the reported
    average latency is the sum of the durations of the outcomes that have no
    failure cause (successes and HTTP-error statuses; transport errors add
    nothing), in whole milliseconds, divided by the count of all processed
    outcomes, and requests-per-second is that same count divided by the
    wall-clock duration of the run in seconds. The sum is accumulated in a
    [time.Duration], hence reduced to 64 bits. *)
Theorem AvgResponseTime_over_responses `{P : Platform}
    (config : TestConfiguration.t) (outcomes : list RequestResult.t)
    (elapsed : Duration.t) :
  let r := summarize config outcomes elapsed in
  outcomes <> [] ->
  count outcomes <= GoInt.max_int ->
  TestResult.AvgResponseTime r
  = PrimFloat.div
      (Float64.of_int
         (Duration.Milliseconds
            (GoInt.wrap (total (durations (responses outcomes))))))
      (Float64.of_int (count outcomes))
  /\ TestResult.RequestsPerSecond r
     = PrimFloat.div (Float64.of_int (count outcomes)) (Float64.Seconds elapsed).
Proof.
  intros r Hsome Hfits. subst r. pose proof (count_pos outcomes Hsome) as Hpos.
  unfold summarize. simpl.
  rewrite tally_totalCount, tally_totalDuration.
  rewrite !wrap_in_range by (apply count_in_range; lia).
  destruct (Z.ltb_spec 0 (count outcomes)); [|lia].
  split; reflexivity.
Qed.

Lemma AvgResponseTime_over_responses_witness :
  let r := @summarize (TestPlatform []) (config_of 4 2) sample_outcomes (ms 100) in
  TestResult.AvgResponseTime r
  = PrimFloat.div
      (Float64.of_int
         (Duration.Milliseconds
            (GoInt.wrap (total (durations (responses sample_outcomes))))))
      (Float64.of_int (count sample_outcomes))
  /\ TestResult.RequestsPerSecond r
     = PrimFloat.div (Float64.of_int (count sample_outcomes))
                     (Float64.Seconds (ms 100)).
Proof.
  apply (@AvgResponseTime_over_responses (TestPlatform []) (config_of 4 2)
           sample_outcomes (ms 100)).
  - discriminate.
  - vm_compute. discriminate.
Defined.

Example averages_of_sample :
  let r := @summarize (TestPlatform []) (config_of 4 2) sample_outcomes (ms 100) in
  TestResult.AvgResponseTime r = 15%float
  /\ TestResult.RequestsPerSecond r = 40%float.
Proof. vm_compute. split; reflexivity. Qed.

(** ** The variable engine *)

Section EngineFacts.

Context {P : Platform}.

Lemma not_builtin (name : string) :
  is_builtin name = false ->
  String.eqb name "$index" = false /\ String.eqb name "$random" = false.
Proof. unfold is_builtin. intros H. apply orb_false_elim in H. exact H. Qed.

(** A user-defined name is looked up in the context. *)
Lemma getVariableValue_lookup (name : string) (requestIndex : Z) (s : State)
    (v : Variable_.t) :
  is_builtin name = false ->
  VariableContext.Variables (vctx s) !! name = Some v ->
  getVariableValue name requestIndex s = generate_value name v requestIndex s.
Proof.
  intros Hname Hv. apply not_builtin in Hname as [Hi Hr].
  unfold getVariableValue. rewrite Hi, Hr.
  unfold bind at 1. unfold get_Variables. rewrite Hv. reflexivity.
Qed.

Lemma getVariableValue_undefined (name : string) (requestIndex : Z) (s : State) :
  is_builtin name = false ->
  VariableContext.Variables (vctx s) !! name = None ->
  getVariableValue name requestIndex s
  = Done ("", Some (UndefinedVariable name)) s.
Proof.
  intros Hname Hv. apply not_builtin in Hname as [Hi Hr].
  unfold getVariableValue. rewrite Hi, Hr.
  unfold bind, get_Variables. rewrite Hv. reflexivity.
Qed.

Lemma getVariableValue_sequential (name : string) (requestIndex : Z) (s : State)
    (v : Variable_.t) :
  is_builtin name = false ->
  VariableContext.Variables (vctx s) !! name = Some v ->
  Variable_.Strategy v = "sequential" ->
  getVariableValue name requestIndex s
  = Done (GoInt.Itoa (Variable_.current v), None)
         (stored name (sequential_advance v) s).
Proof.
  intros Hname Hv Hseq.
  rewrite (getVariableValue_lookup name requestIndex s v Hname Hv).
  unfold generate_value. rewrite Hseq. reflexivity.
Qed.

End EngineFacts.

Lemma sequential_advance_cursor (v : Variable_.t) :
  sequential_advance v = Variable_.set_current (next_cursor v) v.
Proof.
  unfold sequential_advance, next_cursor. simpl.
  destruct (_ && _); reflexivity.
Qed.

(** ** Atomicity of the sequential strategy *)

Lemma sequential_values_snoc (n : nat) :
  forall v : Variable_.t,
    sequential_values v (S n)
    = sequential_values v n
      ++ [GoInt.Itoa (Variable_.current (after_resolutions v n))].
Proof.
  induction n as [|n IH]; intros v; [reflexivity|].
  change (sequential_values v (S (S n)))
    with (GoInt.Itoa (Variable_.current v)
          :: sequential_values (Variable_.set_current (next_cursor v) v) (S n)).
  rewrite IH. unfold after_resolutions. rewrite Nat.iter_succ_r. reflexivity.
Qed.

Lemma filter_middle {A} (f : A -> bool) (l1 l2 : list A) (x : A) :
  List.filter f (l1 ++ x :: l2)
  = List.filter f l1 ++ (if f x then [x] else []) ++ List.filter f l2.
Proof.
  rewrite List.filter_app. cbn [List.filter]. destruct (f x); reflexivity.
Qed.

Lemma omap_middle {A B} (f : A -> option B) (l1 l2 : list A) (x : A) :
  omap f (l1 ++ x :: l2)
  = omap f l1 ++ match f x with Some y => [y] | None => [] end ++ omap f l2.
Proof.
  rewrite omap_app. cbn [omap list_omap]. destruct (f x); reflexivity.
Qed.

Lemma singleton_middle {A} (l1 l2 : list A) (x : A) (P : A -> Prop) (Q : Prop) :
  match l1 ++ x :: l2 with
  | [] => Q
  | [y] => P y
  | _ => False
  end ->
  l1 = [] /\ l2 = [] /\ P x.
Proof.
  destruct l1 as [|a [|b l1]]; destruct l2 as [|c l2]; simpl; intros H;
    try contradiction; auto.
Qed.

Lemma empty_app {A} (l1 l2 : list A) (P : A -> Prop) (Q : Prop) :
  match l1 ++ l2 with
  | [] => Q
  | [y] => P y
  | _ => False
  end ->
  ~ (exists y, P y) ->
  l1 = [] /\ l2 = [] /\ Q.
Proof.
  destruct l1 as [|a [|b l1]]; destruct l2 as [|c [|d l2]]; simpl; intros H Hno;
    try contradiction; auto; exfalso; apply Hno; eauto.
Qed.

Lemma step_serial (v0 : Variable_.t) (m m' : Sequential.memory)
    (l1 l2 : list Sequential.goroutine) (g g' : Sequential.goroutine) :
  serial v0 (Sequential.mk m (l1 ++ g :: l2)) ->
  Sequential.step m g = Some (m', g') ->
  serial v0 (Sequential.mk m' (l1 ++ g' :: l2)).
Proof.
  unfold serial. cbn [Sequential.pool Sequential.mem].
  rewrite !filter_middle, !omap_middle, !length_app.
  destruct m as [var lk].
  destruct g as [| |c|c s|c|c|c|c|value];
    cbn [Sequential.step Sequential.variable Sequential.locked];
    intros [Hvalues Hmem] Hstep.
  - (* Lock *)
    destruct lk; [discriminate|]. injection Hstep as <- <-.
    cbn [in_section past_section value_of app length Sequential.locked
         Sequential.variable] in *.
    split; [exact Hvalues|].
    apply empty_app in Hmem as (-> & -> & _ & Hvar);
      [|intros [y [Hy _]]; discriminate].
    cbn [app]. split; [reflexivity | exact Hvar].
  - (* current := v.current *)
    injection Hstep as <- <-.
    cbn [in_section past_section value_of app length Sequential.locked
         Sequential.variable] in *.
    split; [exact Hvalues|].
    apply (singleton_middle _ _ _
             (fun y => lk = true /\ holds _ var y)) in Hmem
      as (-> & -> & Hlk & Hvar).
    cbn [app holds] in *. split; [exact Hlk|]. split; [exact Hvar|].
    rewrite Hvar. reflexivity.
  - (* the load of v.current += v.Increment *)
    injection Hstep as <- <-.
    cbn [in_section past_section value_of app length Sequential.locked
         Sequential.variable] in *.
    split; [exact Hvalues|].
    apply (singleton_middle _ _ _
             (fun y => lk = true /\ holds _ var y)) in Hmem
      as (-> & -> & Hlk & Hvar & Hc).
    cbn [app holds] in *. split; [exact Hlk|].
    split; [exact Hvar|]. split; [exact Hc|]. rewrite Hvar. reflexivity.
  - (* the store *)
    injection Hstep as <- <-.
    cbn [in_section past_section value_of app length Sequential.locked
         Sequential.variable] in *.
    split; [exact Hvalues|].
    apply (singleton_middle _ _ _
             (fun y => lk = true /\ holds _ var y)) in Hmem
      as (-> & -> & Hlk & Hvar & Hc & Hs).
    cbn [app holds] in *. split; [exact Hlk|].
    split; [|exact Hc]. rewrite Hvar, Hs. reflexivity.
  - (* the test *)
    cbn [in_section past_section value_of app length Sequential.locked
         Sequential.variable] in *.
    apply (singleton_middle _ _ _
             (fun y => lk = true /\ holds _ var y)) in Hmem
      as (-> & -> & Hlk & Hvar & Hc).
    cbn [holds] in Hvar.
    destruct ((Variable_.EndValue var >? Variable_.StartValue var)
              && (Variable_.current var >? Variable_.EndValue var)) eqn:Htest;
      injection Hstep as <- <-;
      cbn [in_section past_section value_of app length Sequential.locked
           Sequential.variable holds];
      (split; [exact Hvalues|]); (split; [exact Hlk|]).
    + split; [exact Hvar|]. split; [exact Hc|].
      rewrite Hvar in Htest. exact Htest.
    + split; [|exact Hc]. rewrite Hvar. unfold next_cursor.
      rewrite Hvar in Htest.
      cbn [Variable_.EndValue Variable_.StartValue Variable_.current
           Variable_.set_current] in Htest.
      rewrite Htest. reflexivity.
  - (* the reset *)
    injection Hstep as <- <-.
    cbn [in_section past_section value_of app length Sequential.locked
         Sequential.variable] in *.
    split; [exact Hvalues|].
    apply (singleton_middle _ _ _
             (fun y => lk = true /\ holds _ var y)) in Hmem
      as (-> & -> & Hlk & Hvar & Hc & Htest).
    cbn [app holds] in *. split; [exact Hlk|]. split; [|exact Hc].
    rewrite Hvar. unfold next_cursor. rewrite Htest. reflexivity.
  - (* Unlock *)
    injection Hstep as <- <-.
    cbn [in_section past_section value_of app length Sequential.locked
         Sequential.variable] in *.
    apply (singleton_middle _ _ _
             (fun y => lk = true /\ holds _ var y)) in Hmem
      as (Hl1 & Hl2 & Hlk & Hvar & Hc).
    rewrite Hl1, Hl2. cbn [app].
    replace (length (List.filter past_section l1)
             + (1 + length (List.filter past_section l2)))%nat
      with (S (length (List.filter past_section l1)
               + (0 + length (List.filter past_section l2))))%nat by lia.
    split.
    + rewrite sequential_values_snoc, Hc.
      etransitivity; [symmetry; apply Permutation_middle|].
      etransitivity; [|apply Permutation_cons_append].
      apply Permutation_cons; [reflexivity | exact Hvalues].
    + split; [reflexivity|]. rewrite Hvar. reflexivity.
  - (* return *)
    injection Hstep as <- <-.
    cbn [in_section past_section value_of app length Sequential.locked
         Sequential.variable] in *.
    split; [exact Hvalues | exact Hmem].
  - discriminate.
Qed.

Lemma pool_split (pool : list Sequential.goroutine) (i : nat)
    (g g' : Sequential.goroutine) :
  pool !! i = Some g ->
  pool = take i pool ++ g :: drop (S i) pool
  /\ <[i := g']> pool = take i pool ++ g' :: drop (S i) pool.
Proof.
  intros Hi. split.
  - symmetry. apply take_drop_middle. exact Hi.
  - apply insert_take_drop. eapply lookup_lt_Some. exact Hi.
Qed.

Lemma schedule_serial (v0 : Variable_.t) (c : Sequential.t) (i : nat) :
  serial v0 c -> serial v0 (Sequential.schedule c i).
Proof.
  intros Hc. unfold Sequential.schedule, Sequential.schedule_by.
  destruct (Sequential.pool c !! i) as [g|] eqn:Hi; [|exact Hc].
  destruct (Sequential.step (Sequential.mem c) g) as [[m' g']|] eqn:Hstep;
    [|exact Hc].
  destruct (pool_split _ i g g' Hi) as [Hpool ->].
  apply (step_serial v0 (Sequential.mem c) m' _ _ g g'); [|exact Hstep].
  rewrite <- Hpool. destruct c; exact Hc.
Qed.

Lemma run_serial (v0 : Variable_.t) (steps : list nat) :
  forall c : Sequential.t, serial v0 c -> serial v0 (Sequential.run steps c).
Proof.
  unfold Sequential.run.
  induction steps as [|i steps IH]; intros c Hc; [exact Hc|].
  cbn [fold_left]. apply IH, schedule_serial, Hc.
Qed.

Lemma start_serial (v0 : Variable_.t) (n : nat) :
  serial v0 (Sequential.start v0 n).
Proof.
  unfold serial, Sequential.start. cbn [Sequential.pool Sequential.mem].
  assert (Hidle : List.filter past_section (repeat Sequential.AtLock n) = []
                  /\ List.filter in_section (repeat Sequential.AtLock n) = []
                  /\ omap value_of (repeat Sequential.AtLock n) = []).
  { induction n as [|n IH]; [repeat split | exact IH]. }
  destruct Hidle as (Hpast & Hin & Hval).
  rewrite Hpast, Hin, Hval. split; [reflexivity|]. split; reflexivity.
Qed.

Lemma schedule_length (c : Sequential.t) (i : nat) :
  length (Sequential.pool (Sequential.schedule c i))
  = length (Sequential.pool c).
Proof.
  unfold Sequential.schedule, Sequential.schedule_by.
  destruct (Sequential.pool c !! i) as [g|]; [|reflexivity].
  destruct (Sequential.step (Sequential.mem c) g) as [[m' g']|];
    [|reflexivity].
  apply length_insert.
Qed.

Lemma run_length (steps : list nat) :
  forall c : Sequential.t,
    length (Sequential.pool (Sequential.run steps c))
    = length (Sequential.pool c).
Proof.
  unfold Sequential.run.
  induction steps as [|i steps IH]; intros c; [reflexivity|].
  cbn [fold_left]. rewrite IH. apply schedule_length.
Qed.

Lemma finished_pool (pool : list Sequential.goroutine) :
  forallb Sequential.has_returned pool = true ->
  List.filter past_section pool = pool
  /\ List.filter in_section pool = []
  /\ omap value_of pool
     = omap (fun g => match g with
                      | Sequential.Returned value => Some value
                      | _ => None
                      end) pool.
Proof.
  induction pool as [|g pool IH]; [intros _; repeat split|].
  cbn [forallb]. intros H. apply andb_prop in H as [Hg Hpool].
  destruct (IH Hpool) as (Hpast & Hin & Hval).
  destruct g; try discriminate.
  cbn [List.filter past_section in_section omap list_omap value_of].
  change (list_omap Sequential.goroutine string value_of pool)
    with (omap value_of pool).
  rewrite Hpast, Hin, Hval. repeat split.
Qed.

Lemma finished_serial (v0 : Variable_.t) (c : Sequential.t) :
  serial v0 c ->
  Sequential.finished c = true ->
  Permutation (Sequential.values c)
              (sequential_values v0 (length (Sequential.pool c)))
  /\ Sequential.variable (Sequential.mem c)
     = after_resolutions v0 (length (Sequential.pool c))
  /\ Sequential.locked (Sequential.mem c) = false.
Proof.
  unfold serial, Sequential.finished, Sequential.values.
  intros [Hvalues Hmem] Hdone.
  destruct (finished_pool _ Hdone) as (Hpast & Hin & Hval).
  rewrite Hpast, Hval in Hvalues. rewrite Hpast, Hin in Hmem.
  destruct Hmem as [Hlk Hvar]. repeat split; assumption.
Qed.

Lemma work_middle (l1 l2 : list Sequential.goroutine) (g : Sequential.goroutine) :
  work (l1 ++ g :: l2) = (work l1 + steps_left g + work l2)%nat.
Proof.
  unfold work. induction l1 as [|x l1 IH]; cbn [app fold_right]; [lia|].
  rewrite IH. lia.
Qed.

Lemma step_works (m m' : Sequential.memory) (g g' : Sequential.goroutine) :
  Sequential.step m g = Some (m', g') -> (steps_left g' < steps_left g)%nat.
Proof.
  destruct g; cbn [Sequential.step]; try discriminate.
  - destruct (Sequential.locked m); [discriminate|].
    intros [= _ <-]. simpl. lia.
  - intros [= _ <-]. simpl. lia.
  - intros [= _ <-]. simpl. lia.
  - intros [= _ <-]. simpl. lia.
  - destruct (_ && _); intros [= _ <-]; simpl; lia.
  - intros [= _ <-]. simpl. lia.
  - intros [= _ <-]. simpl. lia.
  - intros [= _ <-]. simpl. lia.
Qed.

Lemma schedule_works (c : Sequential.t) (i : nat) (g : Sequential.goroutine) :
  Sequential.pool c !! i = Some g ->
  is_Some (Sequential.step (Sequential.mem c) g) ->
  (work (Sequential.pool (Sequential.schedule c i))
   < work (Sequential.pool c))%nat.
Proof.
  intros Hi [[m' g'] Hstep].
  unfold Sequential.schedule, Sequential.schedule_by. rewrite Hi, Hstep.
  cbn [Sequential.pool].
  destruct (pool_split _ i g g' Hi) as [Hpool ->].
  remember (take i (Sequential.pool c)) as l1.
  remember (drop (S i) (Sequential.pool c)) as l2.
  rewrite Hpool, !work_middle.
  pose proof (step_works _ _ _ _ Hstep). lia.
Qed.

Lemma serial_progress (v0 : Variable_.t) (c : Sequential.t) :
  serial v0 c ->
  Sequential.finished c = false ->
  exists i : nat,
    (work (Sequential.pool (Sequential.schedule c i))
     < work (Sequential.pool c))%nat.
Proof.
  intros [_ Hmem] Hrunning.
  destruct (List.filter in_section (Sequential.pool c)) as [|g [|g2 l]] eqn:Hin;
    [| |contradiction].
  - (* the mutex is free: any goroutine that has not returned can move *)
    destruct Hmem as [Hfree _].
    unfold Sequential.finished in Hrunning.
    assert (Hsome : exists g, In g (Sequential.pool c)
                              /\ Sequential.has_returned g = false).
    { clear -Hrunning. induction (Sequential.pool c) as [|g pool IH];
        [discriminate|].
      cbn [forallb] in Hrunning.
      destruct (Sequential.has_returned g) eqn:Hg.
      - destruct (IH Hrunning) as (g0 & Hg0 & Hr). exists g0.
        split; [right; exact Hg0 | exact Hr].
      - exists g. split; [left; reflexivity | exact Hg]. }
    destruct Hsome as (g & Hg & Hr).
    assert (Hout : in_section g = false).
    { destruct (in_section g) eqn:Hsec; [|reflexivity].
      assert (Hgin : In g (List.filter in_section (Sequential.pool c)))
        by (apply List.filter_In; split; assumption).
      rewrite Hin in Hgin. destruct Hgin. }
    apply list_elem_of_In, list_elem_of_lookup in Hg as [i Hi].
    exists i. apply (schedule_works c i g Hi).
    destruct g; try discriminate; cbn [Sequential.step].
    + rewrite Hfree. eexists; reflexivity.
    + eexists; reflexivity.
  - (* the goroutine in the critical section can move *)
    assert (Hg : In g (Sequential.pool c) /\ in_section g = true).
    { apply List.filter_In. rewrite Hin. left. reflexivity. }
    destruct Hg as [Hg Hsec].
    apply list_elem_of_In, list_elem_of_lookup in Hg as [i Hi].
    exists i. apply (schedule_works c i g Hi).
    destruct g; try discriminate; cbn [Sequential.step];
      try (eexists; reflexivity).
    destruct (_ && _); eexists; reflexivity.
Qed.

Lemma serial_terminates (v0 : Variable_.t) (bound : nat) :
  forall c : Sequential.t,
    (work (Sequential.pool c) <= bound)%nat ->
    serial v0 c ->
    exists more : list nat,
      Sequential.finished (Sequential.run more c) = true.
Proof.
  induction bound as [|bound IH]; intros c Hwork Hc.
  - destruct (Sequential.finished c) eqn:Hdone; [exists []; exact Hdone|].
    destruct (serial_progress v0 c Hc Hdone) as [i Hi]. lia.
  - destruct (Sequential.finished c) eqn:Hdone; [exists []; exact Hdone|].
    destruct (serial_progress v0 c Hc Hdone) as [i Hi].
    destruct (IH (Sequential.schedule c i)) as [more Hmore];
      [lia | apply schedule_serial, Hc |].
    exists (i :: more). exact Hmore.
Qed.

Lemma stored_lookup `{P : Platform} (name : string) (v : Variable_.t)
    (s : State) :
  VariableContext.Variables (vctx (stored name v s)) !! name = Some v.
Proof. unfold stored. simpl. apply lookup_insert_eq. Qed.

Lemma resolve_times_sequential `{P : Platform} (name : string)
    (requestIndex : Z) (n : nat) :
  forall (s : State) (v : Variable_.t),
    is_builtin name = false ->
    VariableContext.Variables (vctx s) !! name = Some v ->
    Variable_.Strategy v = "sequential" ->
    exists s' : State,
      resolve_times n name requestIndex s = Done (sequential_values v n) s'
      /\ VariableContext.Variables (vctx s') !! name
         = Some (after_resolutions v n).
Proof.
  induction n as [|n IH]; intros s v Hname Hv Hseq.
  - exists s. split; [reflexivity | exact Hv].
  - cbn [resolve_times sequential_values]. unfold bind at 1.
    rewrite (getVariableValue_sequential name requestIndex s v Hname Hv Hseq),
      sequential_advance_cursor.
    destruct (IH (stored name (Variable_.set_current (next_cursor v) v) s)
                 (Variable_.set_current (next_cursor v) v) Hname
                 (stored_lookup _ _ _) Hseq) as (s' & Hrun & Hlookup).
    exists s'. unfold bind. rewrite Hrun. split; [reflexivity|].
    rewrite Hlookup. unfold after_resolutions. rewrite Nat.iter_succ_r.
    reflexivity.
Qed.

Lemma serial_excludes (v0 : Variable_.t) (c : Sequential.t) :
  serial v0 c ->
  (length (List.filter in_section (Sequential.pool c)) <= 1)%nat.
Proof.
  intros [_ Hmem].
  destruct (List.filter in_section (Sequential.pool c)) as [|g [|g2 l]];
    [simpl; lia | simpl; lia | contradiction].
Qed.

Lemma add_overflows (a b : Z) :
  GoInt.in_range a -> GoInt.in_range b -> GoInt.max_int < a + b ->
  GoInt.add a b = a + b - 2 ^ 64.
Proof.
  unfold GoInt.in_range, GoInt.min_int, GoInt.max_int, GoInt.add, GoInt.wrap.
  intros Ha Hb Hover.
  replace (a + b + 2 ^ 63) with ((a + b - 2 ^ 63) + 1 * 2 ^ 64) by lia.
  rewrite Z_mod_plus_full, Z.mod_small by lia. lia.
Qed.

(** The lock is what makes the resolutions atomic. Under one and the same
    schedule two goroutines get the cursors 0 and 1 with the mutex, and both
    get the cursor 0 with a mutex that excludes nobody. *)
Example a_lock_that_excludes_nobody_loses_an_update :
  let v := init_variable (sequential_variable "n" 0 2 1) in
  let steps := [0; 1; 0; 0; 1; 0; 0; 0; 1; 1; 1; 1; 1; 1; 0; 1]%nat in
  Sequential.values (Sequential.run steps (Sequential.start v 2))
  = ["0"; "1"]
  /\ Sequential.values (run_unguarded steps (Sequential.start v 2))
     = ["0"; "0"].
Proof. vm_compute. split; reflexivity. Qed.

(** C3, as stated, fails where Go's addition overflows. With start = 0,
    end = 0 and increment = 2^62 the resolutions yield 0, 2^62 and then
    -2^63, so the cursor of a variable with end <= start does not grow
    monotonically: it wraps around the 64-bit range. With start = 0,
    end = 2^63 - 2 and increment = 2^62 they yield 0, 2^62, -2^63 and -2^62:
    the advanced value 2^63 would exceed end, and end > start, yet the cursor
    is not put back to start. *)
Lemma sequential_cursor_overflows :
  let v := sequential_variable "n" 0 0 (2 ^ 62) in
  let u := sequential_variable "n" 0 (2 ^ 63 - 2) (2 ^ 62) in
  Variable_.EndValue v <= Variable_.StartValue v
  /\ returned (resolve_times 3 "n" 0 (state_with [v]))
     = Some ["0"; "4611686018427387904"; "-9223372036854775808"]
  /\ next_cursor (sequential_advance (init_variable v))
     < Variable_.current (sequential_advance (init_variable v))
  /\ Variable_.EndValue u > Variable_.StartValue u
  /\ Variable_.current (sequential_advance (init_variable u))
     + Variable_.Increment u > Variable_.EndValue u
  /\ returned (resolve_times 4 "n" 0 (state_with [u]))
     = Some ["0"; "4611686018427387904"; "-9223372036854775808";
             "-4611686018427387904"].
Proof. vm_compute. repeat split; discriminate. Qed.

(** C3 (amended): each resolution of a sequential variable returns the current
    cursor and advances it by the increment (set to 1 by the setup when the
    configured increment is <= 0), atomically: the read and the update are
    made under the mutex of the context, so that resolutions made by
    concurrent goroutines take effect one after another, at most one
    goroutine being between [Lock] and [Unlock] at any time, and under every
    schedule they end and return what as many resolutions made in a row
    return. The advance is Go's 64-bit addition. As long as cursor +
    increment is an [int], the cursor is put back to start when cursor +
    increment exceeds end, but only when end > start; when end <= start it is
    never put back and, for a positive increment, grows at every resolution.
    When cursor + increment exceeds the largest [int], the sum wraps around
    to cursor + increment - 2^64, which is what is compared with end and
    stored: with end <= start, or with the cursor not above end, the cursor
    is then not put back to start and falls below its former value. A
    sequential variable with start = 0, end = 2, increment = 1 yields 0, 1,
    2, 0, 1 over five resolutions. *)
Theorem sequential_resolution `{P : Platform}
    (name : string) (requestIndex : Z) (s : State) (v : Variable_.t) :
  is_builtin name = false ->
  VariableContext.Variables (vctx s) !! name = Some v ->
  Variable_.Strategy v = "sequential" ->
  let advanced := GoInt.add (Variable_.current v) (Variable_.Increment v) in
  let sum := Variable_.current v + Variable_.Increment v in
  (* one resolution *)
  getVariableValue name requestIndex s
  = Done (GoInt.Itoa (Variable_.current v), None)
         (stored name (Variable_.set_current (next_cursor v) v) s)
  /\ (Variable_.EndValue v > Variable_.StartValue v ->
      advanced > Variable_.EndValue v ->
      next_cursor v = Variable_.StartValue v)
  /\ (Variable_.EndValue v > Variable_.StartValue v ->
      advanced <= Variable_.EndValue v ->
      next_cursor v = advanced)
  /\ (Variable_.EndValue v <= Variable_.StartValue v ->
      next_cursor v = advanced
      /\ (GoInt.in_range (Variable_.current v) ->
          0 < Variable_.Increment v ->
          sum <= GoInt.max_int ->
          next_cursor v = sum /\ Variable_.current v < next_cursor v))
  (* the addition *)
  /\ (GoInt.in_range sum -> advanced = sum)
  /\ (GoInt.in_range (Variable_.current v) ->
      GoInt.in_range (Variable_.Increment v) ->
      GoInt.max_int < sum ->
      advanced = sum - 2 ^ 64
      /\ (Variable_.EndValue v <= Variable_.StartValue v
          \/ Variable_.current v <= Variable_.EndValue v ->
          next_cursor v = sum - 2 ^ 64
          /\ next_cursor v < Variable_.current v))
  (* resolutions by concurrent goroutines, under any schedule *)
  /\ (forall (n : nat) (steps : list nat),
        let c := Sequential.run steps (Sequential.start v n) in
        (length (List.filter in_section (Sequential.pool c)) <= 1)%nat
        /\ (exists more : list nat,
              Sequential.finished (Sequential.run more c) = true)
        /\ (Sequential.finished c = true ->
            Permutation (Sequential.values c) (sequential_values v n)
            /\ Sequential.variable (Sequential.mem c) = after_resolutions v n
            /\ Sequential.locked (Sequential.mem c) = false))
  (* resolutions made in a row *)
  /\ (forall n : nat,
        exists s' : State,
          resolve_times n name requestIndex s
          = Done (sequential_values v n) s'
          /\ VariableContext.Variables (vctx s') !! name
             = Some (after_resolutions v n))
  (* the setup *)
  /\ (forall v0 : Variable_.t,
        Variable_.Strategy v0 = "sequential" ->
        Variable_.Increment (init_variable v0)
        = (if Variable_.Increment v0 <=? 0 then 1 else Variable_.Increment v0)
        /\ Variable_.current (init_variable v0) = Variable_.StartValue v0
        /\ Variable_.StartValue (init_variable v0) = Variable_.StartValue v0
        /\ Variable_.EndValue (init_variable v0) = Variable_.EndValue v0
        /\ Variable_.Strategy (init_variable v0) = "sequential")
  (* the example *)
  /\ (forall (r : Rand) (w : World),
        exists ctx : VariableContext.t,
          register_variables [Some (sequential_variable "n" 0 2 1)]
            (VariableContext.mk ∅ 0 r) = Ok ctx
          /\ returned (resolve_times 5 "n" 0 (mkState ctx w))
             = Some ["0"; "1"; "2"; "0"; "1"]).
Proof.
  intros Hname Hv Hseq advanced sum.
  assert (Hexact : GoInt.in_range sum -> advanced = sum)
    by (intros Hfit; apply wrap_in_range, Hfit).
  assert (Hopen : Variable_.EndValue v <= Variable_.StartValue v ->
                  next_cursor v = advanced).
  { intros Hends. unfold next_cursor. fold advanced.
    destruct (Z.gtb_spec (Variable_.EndValue v) (Variable_.StartValue v));
      [lia | reflexivity]. }
  assert (Hwithin : advanced <= Variable_.EndValue v ->
                    next_cursor v = advanced).
  { intros Hle. unfold next_cursor. fold advanced.
    destruct (Z.gtb_spec advanced (Variable_.EndValue v)); [lia|].
    rewrite andb_false_r. reflexivity. }
  split; [|split; [|split; [|split; [|split; [|split;
    [|split; [|split; [|split]]]]]]]].
  - rewrite (getVariableValue_sequential name requestIndex s v Hname Hv Hseq).
    rewrite sequential_advance_cursor. reflexivity.
  - intros Hrange Hpast. unfold next_cursor. fold advanced.
    destruct (Z.gtb_spec (Variable_.EndValue v) (Variable_.StartValue v)); [|lia].
    destruct (Z.gtb_spec advanced (Variable_.EndValue v)); [reflexivity|lia].
  - intros _ Hle. exact (Hwithin Hle).
  - intros Hends. split; [exact (Hopen Hends)|]. intros Hcur Hinc Hfit.
    rewrite (Hopen Hends), Hexact;
      [subst sum; lia|].
    revert Hcur Hfit. unfold GoInt.in_range, GoInt.min_int, GoInt.max_int.
    subst sum. lia.
  - exact Hexact.
  - intros Hcur Hinc Hover.
    assert (Hwrapped : advanced = sum - 2 ^ 64)
      by (apply add_overflows; assumption).
    split; [exact Hwrapped|]. intros Hends.
    assert (Hbelow : advanced < Variable_.current v).
    { rewrite Hwrapped. subst sum. revert Hinc.
      unfold GoInt.in_range, GoInt.max_int. lia. }
    assert (Hnext : next_cursor v = advanced).
    { destruct Hends as [Hends|Hends]; [exact (Hopen Hends)|].
      apply Hwithin. lia. }
    rewrite Hnext. split; [exact Hwrapped | exact Hbelow].
  - intros n steps c.
    assert (Hc : serial v c) by apply run_serial, start_serial.
    split; [exact (serial_excludes v c Hc)|]. split.
    + apply (serial_terminates v (work (Sequential.pool c)) c (le_n _) Hc).
    + intros Hdone.
      destruct (finished_serial v c Hc Hdone) as (Hvalues & Hvar & Hfree).
      assert (Hlen : length (Sequential.pool c) = n).
      { subst c. rewrite run_length. unfold Sequential.start.
        cbn [Sequential.pool]. apply repeat_length. }
      rewrite Hlen in Hvalues, Hvar. repeat split; assumption.
  - intros n. apply resolve_times_sequential; assumption.
  - intros v0 Hv0. unfold init_variable. rewrite Hv0. simpl.
    destruct (Variable_.Increment v0 <=? 0); simpl; rewrite Hv0; simpl;
      repeat split; exact Hv0.
  - intros r w. eexists. split; [reflexivity|]. vm_compute. reflexivity.
Qed.

Lemma sequential_resolution_witness :
  let v := init_variable (sequential_variable "n" 0 2 1) in
  let steps := [0; 1; 0; 0; 1; 0; 0; 0; 1; 1; 1; 1; 1; 1; 0; 1]%nat in
  returned
    (@getVariableValue (TestPlatform [sequential_variable "n" 0 2 1]) "n" 0
       (state_with [sequential_variable "n" 0 2 1]))
  = Some ("0", None)
  /\ Permutation
       (Sequential.values (Sequential.run steps (Sequential.start v 2)))
       (sequential_values v 2).
Proof.
  pose proof
    (@sequential_resolution (TestPlatform [sequential_variable "n" 0 2 1])
       "n" 0 (state_with [sequential_variable "n" 0 2 1])
       (init_variable (sequential_variable "n" 0 2 1))
       eq_refl eq_refl eq_refl)
    as (Hstep & _ & _ & _ & _ & _ & Hpool & _).
  split.
  - rewrite Hstep. reflexivity.
  - apply (Hpool 2%nat
                 [0; 1; 0; 0; 1; 0; 0; 0; 1; 1; 1; 1; 1; 1; 0; 1]%nat).
    reflexivity.
Defined.

(** ** Random integers *)

(** C7, as stated, fails where the width of the range overflows: with min = 0
    and max = 2^63 - 1 the argument [max - min + 1] of [Intn] wraps around to
    -2^63 and [Intn] panics, so the resolution yields no integer at all. *)
Lemma random_integer_range_overflows :
  let v := random_integer "r" 0 GoInt.max_int in
  Variable_.MinValue v <= Variable_.MaxValue v
  /\ getVariableValue "r" 0 (state_with [v])
     = Panicked "invalid argument to Intn" (state_with [v]).
Proof. split; [vm_compute; discriminate | vm_compute; reflexivity]. Qed.

(** C7 (amended): for every random-strategy variable of integer type with
    min <= max whose width max - min + 1 is representable as an [int], every
    resolution yields an integer in the inclusive range [min, max]; with
    min = 5 and max = 5 every resolution yields 5. *)
Theorem random_integer_in_range `{P : Platform}
    (name : string) (requestIndex : Z) (s : State) (v : Variable_.t) :
  is_builtin name = false ->
  VariableContext.Variables (vctx s) !! name = Some v ->
  Variable_.Strategy v = "random" ->
  Variable_.Type_ v = "integer" ->
  GoInt.in_range (Variable_.MinValue v) ->
  GoInt.in_range (Variable_.MaxValue v) ->
  Variable_.MinValue v <= Variable_.MaxValue v ->
  Variable_.MaxValue v - Variable_.MinValue v + 1 <= GoInt.max_int ->
  exists (z : Z) (s' : State),
    getVariableValue name requestIndex s = Done (GoInt.Itoa z, None) s'
    /\ Variable_.MinValue v <= z <= Variable_.MaxValue v
    /\ (Variable_.MinValue v = 5 -> Variable_.MaxValue v = 5 ->
        GoInt.Itoa z = "5").
Proof.
  intros Hname Hv Hrandom Hinteger Hmin Hmax Hle Hwidth.
  rewrite (getVariableValue_lookup name requestIndex s v Hname Hv).
  unfold generate_value. rewrite Hrandom, Hinteger. simpl.
  set (lo := Variable_.MinValue v) in *. set (hi := Variable_.MaxValue v) in *.
  assert (Hn : GoInt.add (GoInt.sub hi lo) 1 = hi - lo + 1).
  { unfold GoInt.add, GoInt.sub. rewrite wrap_add_wrap_l.
    apply wrap_in_range.
    revert Hwidth. unfold GoInt.in_range, GoInt.min_int, GoInt.max_int. lia. }
  rewrite Hn. unfold bind, Rand_Intn.
  destruct (Z.leb_spec (hi - lo + 1) 0) as [|Hpos]; [lia|].
  pose proof (rand_Intn_bound (hi - lo + 1)
                (VariableContext.Rand_ (vctx s)) Hpos) as Hdraw.
  destruct (rand_Intn (hi - lo + 1) (VariableContext.Rand_ (vctx s)))
    as [x r]. simpl in Hdraw.
  assert (Hz : GoInt.add x lo = x + lo).
  { apply wrap_in_range. revert Hmin Hmax.
    unfold GoInt.in_range, GoInt.min_int, GoInt.max_int. lia. }
  exists (x + lo), (mkState (VariableContext.set_Rand r (vctx s)) (world s)).
  unfold ret. rewrite Hz. split; [reflexivity|]. split; [lia|].
  intros H5 H5'. replace (x + lo) with 5 by lia. reflexivity.
Qed.

Lemma random_integer_in_range_witness :
  exists (z : Z) (s' : @State (TestPlatform [random_integer "r" 5 5])),
    getVariableValue "r" 0 (state_with [random_integer "r" 5 5])
    = Done (GoInt.Itoa z, None) s'
    /\ 5 <= z <= 5
    /\ (5 = 5 -> 5 = 5 -> GoInt.Itoa z = "5").
Proof.
  apply (@random_integer_in_range (TestPlatform [random_integer "r" 5 5])
           "r" 0 (state_with [random_integer "r" 5 5])
           (random_integer "r" 5 5)).
  - reflexivity.
  - vm_compute. reflexivity.
  - reflexivity.
  - reflexivity.
  - vm_compute. split; discriminate.
  - vm_compute. split; discriminate.
  - simpl. lia.
  - vm_compute. discriminate.
Defined.

(** ** Resolution of a whole string *)

Section ResolutionFacts.

Context {P : Platform}.

Lemma same_definitions_refl (s : State) : same_definitions s s.
Proof. intros name. reflexivity. Qed.

Lemma same_definitions_trans (s1 s2 s3 : State) :
  same_definitions s1 s2 -> same_definitions s2 s3 -> same_definitions s1 s3.
Proof. intros H12 H23 name. rewrite (H23 name). apply H12. Qed.

Lemma same_definitions_vars (s s' : State) :
  VariableContext.Variables (vctx s') = VariableContext.Variables (vctx s) ->
  same_definitions s s'.
Proof. intros Heq name. rewrite Heq. reflexivity. Qed.

Lemma same_definitions_stored (s : State) (name : string) (v : Variable_.t) :
  VariableContext.Variables (vctx s) !! name = Some v ->
  same_definitions s (stored name (sequential_advance v) s).
Proof.
  intros Hv other. unfold stored. simpl.
  destruct (decide (name = other)) as [<-|Hne].
  - rewrite lookup_insert_eq, Hv. simpl. f_equal.
    rewrite sequential_advance_cursor. reflexivity.
  - rewrite lookup_insert_ne by exact Hne. reflexivity.
Qed.

Lemma empty_range_set_current (n : Z) (v : Variable_.t) :
  empty_range (Variable_.set_current n v) = empty_range v.
Proof. reflexivity. Qed.

Lemma same_definitions_lookup (s s' : State) (name : string) :
  same_definitions s s' ->
  match VariableContext.Variables (vctx s) !! name,
        VariableContext.Variables (vctx s') !! name with
  | Some v, Some v' => empty_range v' = empty_range v
  | None, None => True
  | _, _ => False
  end.
Proof.
  intros Hsame. specialize (Hsame name).
  destruct (VariableContext.Variables (vctx s) !! name) as [v|],
    (VariableContext.Variables (vctx s') !! name) as [v'|];
    simpl in Hsame; try discriminate; [|exact I].
  assert (Heq : Variable_.set_current 0 v' = Variable_.set_current 0 v)
    by congruence.
  rewrite <- (empty_range_set_current 0 v'), Heq. reflexivity.
Qed.

Lemma same_definitions_resolvable (s s' : State) (name : string) :
  same_definitions s s' -> resolvable s' name = resolvable s name.
Proof.
  intros Hsame. unfold resolvable.
  pose proof (same_definitions_lookup s s' name Hsame) as Hl.
  destruct (VariableContext.Variables (vctx s) !! name),
    (VariableContext.Variables (vctx s') !! name); try contradiction.
  - rewrite Hl. reflexivity.
  - reflexivity.
Qed.

Lemma same_definitions_defined (s s' : State) (name : string) :
  same_definitions s s' -> undefined s name -> undefined s' name.
Proof.
  intros Hsame [Hb Hnone]. split; [exact Hb|].
  pose proof (same_definitions_lookup s s' name Hsame) as Hl.
  rewrite Hnone in Hl.
  destruct (VariableContext.Variables (vctx s') !! name);
    [contradiction | reflexivity].
Qed.

(** The draws and the readings of the world leave the definitions alone. *)
Lemma Rand_Intn_returns (n : Z) (s : State) :
  0 < n ->
  exists (x : Z) (s' : State),
    Rand_Intn n s = Done x s' /\ same_definitions s s'.
Proof.
  intros Hn. unfold Rand_Intn.
  destruct (Z.leb_spec n 0); [lia|].
  destruct (rand_Intn n (VariableContext.Rand_ (vctx s))) as [x r].
  eexists _, _. split; [reflexivity|].
  apply same_definitions_vars. reflexivity.
Qed.

Lemma Rand_Float64_returns (s : State) :
  exists (x : float) (s' : State),
    Rand_Float64 s = Done x s' /\ same_definitions s s'.
Proof.
  unfold Rand_Float64.
  destruct (rand_Float64 (VariableContext.Rand_ (vctx s))) as [x r].
  eexists _, _. split; [reflexivity|].
  apply same_definitions_vars. reflexivity.
Qed.

Lemma in_world_returns {A} (f : World -> A * World) (s : State) :
  exists (a : A) (s' : State),
    in_world f s = Done a s' /\ same_definitions s s'.
Proof.
  unfold in_world. destruct (f (world s)) as [a w].
  eexists _, _. split; [reflexivity|].
  apply same_definitions_vars. reflexivity.
Qed.

Lemma steady_ret {A} (a : A) (s : State) : steady (ret a) s.
Proof. exists a, s. split; [reflexivity | apply same_definitions_refl]. Qed.

Lemma steady_bind {A B} (m : M State A) (k : A -> M State B) (s : State) :
  steady m s -> (forall a s', steady (k a) s') -> steady (bind m k) s.
Proof.
  intros (a & s1 & Hm & H1) Hk. destruct (Hk a s1) as (b & s2 & Hkb & H2).
  exists b, s2. unfold bind. rewrite Hm. split; [exact Hkb|].
  eapply same_definitions_trans; eassumption.
Qed.

Lemma steady_get_Variables {A} (k : gmap string Variable_.t -> M State A)
    (s : State) :
  steady (k (VariableContext.Variables (vctx s))) s ->
  steady (bind get_Variables k) s.
Proof. unfold steady, bind, get_Variables. intros H. exact H. Qed.

(** [getVariableValue] returns for every resolvable name. *)
Lemma getVariableValue_steady (name : string) (requestIndex : Z) (s : State) :
  resolvable s name = true -> steady (getVariableValue name requestIndex) s.
Proof.
  unfold resolvable, is_builtin. intros Hres. unfold getVariableValue.
  destruct (String.eqb name "$index"); [apply steady_ret|].
  destruct (String.eqb name "$random").
  { apply steady_bind; [apply Rand_Intn_returns; lia|].
    intros; apply steady_ret. }
  simpl in Hres. apply steady_get_Variables.
  destruct (VariableContext.Variables (vctx s) !! name) as [v|] eqn:Hv;
    [|apply steady_ret].
  unfold generate_value. cbv zeta. unfold empty_range in Hres.
  destruct (String.eqb (Variable_.Strategy v) "static"); [apply steady_ret|].
  destruct (String.eqb (Variable_.Strategy v) "sequential").
  { apply steady_bind; [|intros; apply steady_ret].
    exists tt, (stored name (sequential_advance v) s).
    split; [reflexivity | apply same_definitions_stored; exact Hv]. }
  destruct (String.eqb (Variable_.Strategy v) "random").
  { destruct (String.eqb (Variable_.Type_ v) "integer").
    { simpl in Hres. apply steady_bind; [|intros; apply steady_ret].
      apply Rand_Intn_returns.
      destruct (Z.leb_spec
                  (GoInt.add (GoInt.sub (Variable_.MaxValue v)
                                        (Variable_.MinValue v)) 1) 0);
        [discriminate | assumption]. }
    destruct (String.eqb (Variable_.Type_ v) "float").
    { apply steady_bind; [apply Rand_Float64_returns|].
      intros; apply steady_ret. }
    apply steady_bind; [apply Rand_Intn_returns; lia|].
    intros; apply steady_ret. }
  destruct (String.eqb (Variable_.Strategy v) "uuid").
  { apply steady_bind; [apply in_world_returns | intros; apply steady_ret]. }
  destruct (String.eqb (Variable_.Strategy v) "timestamp").
  { apply steady_bind; [apply in_world_returns | intros; apply steady_ret]. }
  destruct (String.eqb (Variable_.Strategy v) "template").
  { apply steady_bind; [apply Rand_Intn_returns; lia|].
    intros; apply steady_ret. }
  apply steady_ret.
Qed.

End ResolutionFacts.

(** ** The segments of an input are the input *)

Lemma append_cons (c : ascii) (a b : string) :
  String c a +:+ b = String c (a +:+ b).
Proof. reflexivity. Qed.

Lemma span_name_append (s : string) :
  s = fst (span_name s) +:+ snd (span_name s).
Proof.
  induction s as [|c s IH]; [reflexivity|]. simpl.
  destruct (Ascii.eqb c close_brace); [reflexivity|].
  destruct (span_name s) as [n r]. simpl in *. rewrite append_cons.
  f_equal. exact IH.
Qed.

Lemma starts_with_append (p s : string) :
  starts_with p s = true -> s = p +:+ skip_bytes (String.length p) s.
Proof.
  unfold starts_with. revert s.
  induction p as [|a p IH]; intros s Hp; [reflexivity|].
  destruct s as [|b s]; simpl in Hp; [discriminate|].
  destruct (ascii_dec a b) as [->|]; [|discriminate].
  simpl. rewrite append_cons. f_equal. apply IH. exact Hp.
Qed.

Lemma skip_bytes_append (a b : string) :
  skip_bytes (String.length a) (a +:+ b) = b.
Proof.
  induction a as [|c a IH]; [reflexivity|]. rewrite append_cons. exact IH.
Qed.

Lemma length_append (a b : string) :
  String.length (a +:+ b) = (String.length a + String.length b)%nat.
Proof.
  induction a as [|c a IH]; [reflexivity|].
  rewrite append_cons. simpl. rewrite IH. reflexivity.
Qed.

Lemma append_assoc (a b c : string) : (a +:+ b) +:+ c = a +:+ (b +:+ c).
Proof.
  induction a as [|x a IH]; [reflexivity|].
  rewrite !append_cons, IH. reflexivity.
Qed.

(** A match is a prefix of what it was found in, at least five bytes long. *)
Lemma match_placeholder_prefix (s m : string) :
  match_placeholder s = Some m ->
  s = m +:+ skip_bytes (String.length m) s /\ (5 <= String.length m)%nat.
Proof.
  unfold match_placeholder.
  destruct s as [|a [|b rest]]; try discriminate.
  destruct (Ascii.eqb_spec a open_brace) as [->|]; [|discriminate].
  destruct (Ascii.eqb_spec b open_brace) as [->|]; [|discriminate].
  simpl. pose proof (span_name_append rest) as Hrest.
  destruct (span_name rest) as [name after]. simpl in Hrest.
  destruct (String.eqb_spec name "") as [|Hname]; [discriminate|].
  simpl. destruct (starts_with "}}" after) eqn:Hclose; [|discriminate].
  intros [= <-]. apply starts_with_append in Hclose.
  change (String.length "}}") with 2%nat in Hclose.
  assert (Hr : rest = (name +:+ "}}") +:+ skip_bytes 2 after).
  { rewrite append_assoc, <- Hclose. exact Hrest. }
  change ("{{" +:+ name +:+ "}}")
    with (String open_brace (String open_brace (name +:+ "}}"))).
  cbn [String.length skip_bytes]. split.
  - rewrite !append_cons. do 2 f_equal.
    rewrite Hr at 2. rewrite skip_bytes_append. exact Hr.
  - rewrite length_append. simpl.
    destruct name; [contradiction | simpl; lia].
Qed.

Lemma segments_from_text (s : string) :
  forall skip : nat,
    (skip <= String.length s)%nat ->
    string_concat (segment_text <$> segments_from skip s) = skip_bytes skip s.
Proof.
  induction s as [|c s IH]; intros skip Hskip.
  - destruct skip; reflexivity.
  - destruct skip as [|k].
    + cbn [segments_from skip_bytes].
      destruct (match_placeholder (String c s)) as [m|] eqn:Hm.
      * apply match_placeholder_prefix in Hm as [Hprefix Hlen].
        assert (Hfit : (String.length m <= String.length (String c s))%nat).
        { rewrite Hprefix, length_append. lia. }
        simpl in Hfit. cbn [fmap list_fmap segment_text string_concat fold_right].
        change (fold_right String.append ""
                  (list_fmap _ _ segment_text
                     (segments_from (String.length m - 1) s)))
          with (string_concat
                  (segment_text <$> segments_from (String.length m - 1) s)).
        rewrite IH by lia.
        transitivity (m +:+ skip_bytes (String.length m) (String c s));
          [|symmetry; exact Hprefix].
        f_equal. destruct (String.length m) as [|n]; [lia|]. simpl.
        rewrite Nat.sub_0_r. reflexivity.
      * cbn [fmap list_fmap segment_text string_concat fold_right].
        change (fold_right String.append ""
                  (list_fmap _ _ segment_text (segments_from 0 s)))
          with (string_concat (segment_text <$> segments_from 0 s)).
        rewrite IH by lia. reflexivity.
    + cbn [segments_from skip_bytes]. apply IH. simpl in Hskip. lia.
Qed.

Lemma segments_text (input : string) :
  string_concat (segment_text <$> segments input) = input.
Proof. unfold segments. rewrite segments_from_text by lia. reflexivity. Qed.

Section ProcessVariablesFacts.

Context {P : Platform}.

(** The callback returns for a resolvable name, and hands an undefined
    placeholder back as it is. *)
Lemma replace_match_steady (requestIndex : Z) (m : string) (s : State) :
  resolvable s (placeholder_name m) = true ->
  exists (piece : string) (s' : State),
    replace_match requestIndex m s = Done piece s'
    /\ same_definitions s s'
    /\ (undefined s (placeholder_name m) -> piece = m).
Proof.
  intros Hres. unfold replace_match, bind.
  destruct (getVariableValue_steady (placeholder_name m) requestIndex s Hres)
    as ([value err] & s1 & Hget & Hsame).
  rewrite Hget.
  destruct err as [e|]; eexists _, s1; (split; [reflexivity|]);
    (split; [exact Hsame|]).
  - reflexivity.
  - intros [Hb Hnone].
    rewrite (getVariableValue_undefined _ requestIndex s Hb Hnone) in Hget.
    discriminate.
Qed.

Lemma replace_segments_rendered (requestIndex : Z) (segs : list segment) :
  forall s : State,
    (forall m, In (Match m) segs -> resolvable s (placeholder_name m) = true) ->
    exists (pieces : list string) (s' : State),
      replace_segments (replace_match requestIndex) segs s = Done pieces s'
      /\ same_definitions s s'
      /\ Forall2 (rendered s) segs pieces.
Proof.
  induction segs as [|seg segs IH]; intros s Hres.
  - exists [], s.
    split; [reflexivity | split; [apply same_definitions_refl | constructor]].
  - destruct seg as [c|m].
    + destruct (IH s) as (pieces & s' & Hrun & Hsame & Hall).
      { intros m Hin. apply Hres. right. exact Hin. }
      exists (String c "" :: pieces), s'. cbn [replace_segments].
      unfold bind. rewrite Hrun.
      split; [reflexivity | split; [exact Hsame|]].
      constructor; [reflexivity | exact Hall].
    + destruct (replace_match_steady requestIndex m s) as
        (piece & s1 & Hone & Hsame1 & Hpiece).
      { apply Hres. left. reflexivity. }
      destruct (IH s1) as (pieces & s' & Hrun & Hsame & Hall).
      { intros m' Hin. rewrite (same_definitions_resolvable s s1 _ Hsame1).
        apply Hres. right. exact Hin. }
      exists (piece :: pieces), s'. cbn [replace_segments].
      unfold bind. rewrite Hone, Hrun.
      split; [reflexivity | split].
      * eapply same_definitions_trans; eassumption.
      * constructor; [exact Hpiece|].
        eapply List.Forall2_impl; [|exact Hall].
        intros [c|m'] p; simpl; [trivial|].
        intros Hp Hundef. apply Hp.
        (* undefined at the start is undefined when the callback runs *)
        eapply same_definitions_defined; eassumption.
Qed.

Lemma In_placeholders (input m : string) :
  In (Match m) (segments input) -> In m (placeholders input).
Proof.
  unfold placeholders. generalize (segments input). intros segs.
  induction segs as [|seg segs IH]; [intros []|].
  intros [->|Hin]; simpl.
  - left. reflexivity.
  - destruct seg; [apply IH; exact Hin | right; apply IH; exact Hin].
Qed.

(** When every placeholder is left as it is, the output is the input. *)
Lemma rendered_verbatim (s : State) (segs : list segment) (pieces : list string) :
  Forall2 (rendered s) segs pieces ->
  (forall m, In (Match m) segs -> undefined s (placeholder_name m)) ->
  pieces = segment_text <$> segs.
Proof.
  induction 1 as [|seg piece segs pieces Hone _ IH]; intros Hundef;
    [reflexivity|].
  cbn [fmap list_fmap]. f_equal.
  - destruct seg as [c|m]; simpl in *; [exact Hone|].
    apply Hone, Hundef. left. reflexivity.
  - apply IH. intros m Hin. apply Hundef. right. exact Hin.
Qed.

(** [processVariables] never returns an error. *)
Lemma processVariables_error_nil (input : string) (requestIndex : Z)
    (s s' : State) (output : string) (err : option error) :
  processVariables input requestIndex s = Done (output, err) s' -> err = None.
Proof.
  unfold processVariables.
  destruct (String.eqb input ""); [intros [= _ <- _]; reflexivity|].
  unfold bind.
  destruct (ReplaceAllStringFunc input (replace_match requestIndex) s);
    [intros [= _ <- _]; reflexivity | discriminate].
Qed.

End ProcessVariablesFacts.

(** [processVariables] returns, without an error, when every placeholder of
    the input is resolvable; the pieces of the output are rendered from the
    segments of the input. *)
Lemma processVariables_rendered `{P : Platform}
    (input : string) (requestIndex : Z) (s : State) :
  (forall m, In m (placeholders input) ->
             resolvable s (placeholder_name m) = true) ->
  exists (pieces : list string) (s' : State),
    processVariables input requestIndex s = Done (string_concat pieces, None) s'
    /\ Forall2 (rendered s) (segments input) pieces.
Proof.
  intros Hres. unfold processVariables.
  destruct (String.eqb_spec input "") as [->|_].
  - exists [], s. split; [reflexivity | constructor].
  - destruct (replace_segments_rendered requestIndex (segments input) s)
      as (pieces & s' & Hrun & _ & Hall).
    { intros m Hin. apply Hres, In_placeholders, Hin. }
    exists pieces, s'.
    unfold bind, ReplaceAllStringFunc, bind. rewrite Hrun.
    split; [reflexivity | exact Hall].
Qed.

(** C6, as stated, fails: resolution can fail hard. With a random variable of
    integer type whose bounds are the wrong way round (min = 10, max = 1),
    resolving a string that names it, next to an undefined variable, panics
    in [rand.Intn] and returns no string. *)
Lemma resolution_panics_on_empty_range :
  let s := state_with [random_integer "page" 10 1] in
  undefined s "missing"
  /\ processVariables "/items/{{missing}}?page={{page}}" 0 s
     = Panicked "invalid argument to Intn" s.
Proof. split; [split|]; vm_compute; reflexivity. Qed.

(** C6 (amended): for every input string and request index, and every runtime
    state in which no placeholder of the input names a random variable of
    integer type with max - min + 1 <= 0 (on which [rand.Intn] panics),
    resolution returns a string and no error; the output is the input with
    each placeholder replaced, and a placeholder that refers to a variable
    absent from the runtime state is left verbatim, so an input whose
    placeholders are all undefined comes back unchanged. *)
Theorem undefined_placeholders_left_verbatim `{P : Platform}
    (input : string) (requestIndex : Z) (s : State) :
  (forall m, In m (placeholders input) ->
             resolvable s (placeholder_name m) = true) ->
  exists (output : string) (pieces : list string) (s' : State),
    processVariables input requestIndex s = Done (output, None) s'
    /\ output = string_concat pieces
    /\ Forall2 (rendered s) (segments input) pieces
    /\ ((forall m, In m (placeholders input) ->
                   undefined s (placeholder_name m)) ->
        output = input).
Proof.
  intros Hres.
  destruct (processVariables_rendered input requestIndex s Hres)
    as (pieces & s' & Hrun & Hall).
  exists (string_concat pieces), pieces, s'.
  split; [exact Hrun|]. split; [reflexivity|]. split; [exact Hall|].
  intros Hundef. rewrite (rendered_verbatim s _ _ Hall).
  - apply segments_text.
  - intros m Hin. apply Hundef, In_placeholders, Hin.
Qed.

Lemma undefined_placeholders_left_verbatim_witness :
  let s := state_with [sequential_variable "n" 0 2 1] in
  exists (output : string) (pieces : list string) s',
    processVariables "/users/{{missing}}/{{n}}" 7 s = Done (output, None) s'
    /\ output = string_concat pieces
    /\ Forall2 (rendered s) (segments "/users/{{missing}}/{{n}}") pieces
    /\ ((forall m, In m (placeholders "/users/{{missing}}/{{n}}") ->
                   undefined s (placeholder_name m)) ->
        output = "/users/{{missing}}/{{n}}").
Proof.
  apply (@undefined_placeholders_left_verbatim
           (TestPlatform [sequential_variable "n" 0 2 1])
           "/users/{{missing}}/{{n}}" 7
           (state_with [sequential_variable "n" 0 2 1])).
  intros m Hin. vm_compute in Hin.
  destruct Hin as [<-|[<-|[]]]; vm_compute; reflexivity.
Defined.

Example processVariables_keeps_undefined :
  returned (processVariables "/users/{{missing}}/{{n}}?i={{$index}}" 7
              (state_with [sequential_variable "n" 0 2 1]))
  = Some ("/users/{{missing}}/0?i=7", None).
Proof. vm_compute. reflexivity. Qed.

(** ** The executor *)

Section ExecutorFacts.

Context {P : Platform}.

(** The resolution step of [executeRequest] never ends in an error. *)
Lemma apply_variables_resolves (config : TestConfiguration.t) (reqIdx : Z)
    (s s' : State) (resolved : error + string * string) :
  apply_variables config reqIdx s = Done resolved s' ->
  exists reqURL reqBody : string, resolved = inr (reqURL, reqBody).
Proof.
  unfold apply_variables, bind.
  destruct (processVariables (TestConfiguration.URL config) reqIdx s)
    as [[reqURL err] s1|] eqn:Hurl; [|discriminate].
  apply processVariables_error_nil in Hurl as ->.
  destruct (carries_body (TestConfiguration.Method config)).
  - destruct (processVariables (TestConfiguration.Body config) reqIdx s1)
      as [[reqBody err] s2|] eqn:Hbody; [|discriminate].
    apply processVariables_error_nil in Hbody as ->.
    intros [= <- _]. eauto.
  - intros [= <- _]. eauto.
Qed.

Lemma resolve_request_resolves (config : TestConfiguration.t) (reqIdx : Z)
    (rs rs' : RunState) (resolved : error + string * string) :
  resolve_request config reqIdx rs = Done resolved rs' ->
  exists reqURL reqBody : string, resolved = inr (reqURL, reqBody).
Proof.
  unfold resolve_request, bind, get.
  destruct (varCtx rs) as [ctx|]; [|intros [= <- _]; eauto].
  destruct (TestConfiguration.UseVariables config); [|intros [= <- _]; eauto].
  unfold with_varCtx.
  destruct (apply_variables config reqIdx (mkState ctx (rworld rs)))
    as [r s1|] eqn:Happly; [|discriminate].
  intros [= <- _]. eapply apply_variables_resolves. exact Happly.
Qed.

End ExecutorFacts.

(** C10, as stated, fails: [processVariables] does not return for every
    runtime state. With a random variable of integer type with min = 1 and
    max = 0, resolving its placeholder panics in [rand.Intn(0)]: this failure
    of a placeholder is not swallowed, and no error, nil or not, is returned. *)
Lemma processVariables_panics_in_Intn :
  let s := state_with [random_integer "r" 1 0] in
  processVariables "{{r}}" 3 s = Panicked "invalid argument to Intn" s.
Proof. vm_compute. reflexivity. Qed.

(** C10 (amended): [processVariables] never returns a non-nil error: for
    every input string, runtime state and request index the error it returns
    is nil whenever it returns, and it returns whenever no placeholder of the
    input names a random variable of integer type with max - min + 1 <= 0 (the
    failures "undefined variable" and "unsupported strategy" are swallowed by
    leaving the placeholder verbatim). So the resolution step of
    [executeRequest] never takes its zero-duration "variable error" branches:
    whenever it ends, it ends with a resolved URL and body. *)
Theorem processVariables_error_is_nil `{P : Platform} :
  (forall (input : string) (requestIndex : Z) (s s' : State)
          (output : string) (err : option error),
      processVariables input requestIndex s = Done (output, err) s' ->
      err = None)
  /\ (forall (input : string) (requestIndex : Z) (s : State),
        (forall m, In m (placeholders input) ->
                   resolvable s (placeholder_name m) = true) ->
        exists (output : string) (s' : State),
          processVariables input requestIndex s = Done (output, None) s')
  /\ (forall (config : TestConfiguration.t) (reqIdx : Z) (rs rs' : RunState)
             (resolved : error + string * string),
        resolve_request config reqIdx rs = Done resolved rs' ->
        exists reqURL reqBody : string, resolved = inr (reqURL, reqBody)).
Proof.
  split; [|split].
  - intros input requestIndex s s' output err.
    apply processVariables_error_nil.
  - intros input requestIndex s Hres.
    destruct (processVariables_rendered input requestIndex s Hres)
      as (pieces & s' & Hrun & _).
    exists (string_concat pieces), s'. exact Hrun.
  - intros config reqIdx rs rs' resolved. apply resolve_request_resolves.
Qed.

Lemma processVariables_error_is_nil_witness :
  exists (output : string) s',
    processVariables "/users/{{n}}/{{undefined}}" 0
      (state_with [sequential_variable "n" 0 2 1])
    = Done (output, None) s'.
Proof.
  apply (proj1 (proj2 (@processVariables_error_is_nil
                         (TestPlatform [sequential_variable "n" 0 2 1])))).
  intros m Hin. vm_compute in Hin.
  destruct Hin as [<-|[<-|[]]]; vm_compute; reflexivity.
Defined.

(** ** The request that is sent *)

Lemma Header_Set_other (k k' v : string) (req : Request.t) :
  k <> k' ->
  Request.Header (Request.Header_Set k v req) !! k' = Request.Header req !! k'.
Proof. intros Hne. unfold Request.Header_Set. simpl. apply lookup_insert_ne, Hne. Qed.

(** C8: every request the executor builds and sends obeys the body rules,
    by the method of the test specification: for GET and DELETE no body is
    attached; for every other method the body is the resolved body, or the
    literal {} when the resolved body is the empty string, and the
    Content-Type header is application/json. The resolved URL and body are
    those of the resolution step, and the request is the one handed to the
    HTTP client. *)
Theorem request_body_rules `{P : Platform}
    (config : TestConfiguration.t) (reqIdx : Z) (rs rs1 : RunState)
    (reqURL reqBody : string) (req : Request.t) :
  ctx_Done (rworld rs) = false ->
  resolve_request config reqIdx rs = Done (inr (reqURL, reqBody)) rs1 ->
  build_request config reqURL reqBody = Ok (inr req) ->
  let method := TestConfiguration.Method config in
  executeRequest config reqIdx rs = send_request req (client_timeout config) rs1
  /\ Request.Method req = request_method method
  /\ Request.URL req = reqURL
  /\ (method = "GET" \/ method = "DELETE" -> Request.Body req = None)
  /\ (method <> "GET" -> method <> "DELETE" ->
      Request.Body req = Some (if String.eqb reqBody "" then "{}" else reqBody)
      /\ Request.Header req !! "Content-Type" = Some ["application/json"]).
Proof.
  intros Hlive Hresolve Hbuild method.
  split.
  { unfold executeRequest, bind, get. cbv beta iota. rewrite Hlive.
    cbv beta iota. rewrite Hresolve. cbv beta iota. rewrite Hbuild.
    reflexivity. }
  revert Hbuild. unfold build_request. fold method.
  assert (Hauth : forall r,
             Request.Method (authorize config r) = Request.Method r
             /\ Request.URL (authorize config r) = Request.URL r
             /\ Request.Body (authorize config r) = Request.Body r
             /\ Request.Header (authorize config r) !! "Content-Type"
                = Request.Header r !! "Content-Type").
  { intros r. unfold authorize.
    destruct (negb (String.eqb (TestConfiguration.AuthToken config) ""));
      repeat split.
    apply Header_Set_other. discriminate. }
  destruct (String.eqb_spec method "GET") as [Hget|Hget];
    [|destruct (String.eqb_spec method "DELETE") as [Hdel|Hdel]];
    cbn [orb].
  1,2: destruct (http_NewRequest_error method reqURL); [discriminate|];
    intros [= <-];
    destruct (Hauth (Request.mk (request_method method) reqURL None ∅))
      as (Hm & Hu & Hb & _);
    (split; [exact Hm|]); (split; [exact Hu|]); (split; [intros _; exact Hb|]);
    intros; congruence.
  destruct (http_NewRequest_error method reqURL); [discriminate|].
  intros [= <-].
  match goal with |- context [authorize config ?r] =>
    destruct (Hauth r) as (Hm & Hu & Hb & Hh) end.
  split; [exact Hm|]. split; [exact Hu|]. split.
  - intros [?|?]; contradiction.
  - intros _ _. split.
    + rewrite Hb. simpl. destruct (String.eqb reqBody ""); reflexivity.
    + rewrite Hh. unfold Request.Header_Set. simpl. apply lookup_insert_eq.
Qed.

Lemma request_body_rules_witness :
  exists req : Request.t,
    Request.URL req = "http://localhost:8080/items/0"
    /\ Request.Body req = Some "{}"
    /\ Request.Header req !! "Content-Type" = Some ["application/json"]
    /\ Request.Header req !! "Authorization" = Some ["secret"].
Proof.
  pose (vars := [sequential_variable "n" 0 2 1]).
  pose (config := post_config "").
  pose (req := Request.Header_Set "Authorization" "secret"
                 (Request.Header_Set "Content-Type" "application/json"
                    (Request.mk "POST" "http://localhost:8080/items/0"
                       (Some "{}") ∅))).
  pose (rs1 := final_state
                 (@resolve_request (TestPlatform vars) config 0
                    (run_state_with vars))).
  destruct (@request_body_rules (TestPlatform vars) config 0
              (run_state_with vars) rs1
              "http://localhost:8080/items/0" "" req)
    as (_ & _ & Hurl & _ & Hbody).
  - reflexivity.
  - vm_compute. reflexivity.
  - vm_compute. reflexivity.
  - exists req. split; [exact Hurl|].
    destruct Hbody as [Hb Hh]; [discriminate | discriminate |].
    split; [exact Hb|]. split; [exact Hh|]. vm_compute. reflexivity.
Defined.

(** ** A whole run on the test platform

    Ten POST requests with a sequential variable in the URL: every request is
    answered with status 200 after six milliseconds of measured time. *)
Example RunTest_on_the_test_platform :
  let r := returned (@RunTest (TestPlatform [sequential_variable "n" 0 2 1])
                       (post_config "") 1700000000000000000) in
  TestResult.SuccessRate <$> r = Some 100%float
  /\ TestResult.AvgResponseTime <$> r = Some 6%float
  /\ TestResult.MinResponseTime <$> r = Some 6%float
  /\ TestResult.MaxResponseTime <$> r = Some 6%float
  /\ (fun t => TestResult.StatusCodes t !! "200") <$> r = Some (Some 10)
  /\ TestResult.Errors <$> r = Some [].
Proof. vm_compute. repeat split; reflexivity. Qed.

(** * Further properties *)

(** ** The error list, the histogram and the timeline *)

Section RecordFacts.

Context {P : Platform}.

Lemma Itoa_inj (a b : Z) : GoInt.Itoa a = GoInt.Itoa b -> a = b.
Proof.
  unfold GoInt.Itoa. intros Heq.
  assert (Hnorm : forall z, NilZero.int_of_string
                              (NilZero.string_of_int (Z.to_int z))
                            = Some (Z.to_int z)).
  { intros z. apply NilZero.isi; destruct z as [|p|p]; simpl;
      try discriminate; intros [= Hnil];
      exact (DecimalPos.Unsigned.to_uint_nonnil p Hnil). }
  apply (f_equal NilZero.int_of_string) in Heq.
  rewrite !Hnorm in Heq. injection Heq as Heq.
  rewrite <- (DecimalZ.of_to a), <- (DecimalZ.of_to b), Heq. reflexivity.
Qed.

Lemma failures_snoc (outcomes : list RequestResult.t) (res : RequestResult.t) :
  List.filter is_failure (outcomes ++ [res])
  = List.filter is_failure outcomes ++ (if is_failure res then [res] else []).
Proof. rewrite List.filter_app. reflexivity. Qed.

Lemma tally_Errors (outcomes : list RequestResult.t) :
  Errors (tally outcomes) = error_record <$> List.filter is_failure outcomes.
Proof.
  induction outcomes as [|res outcomes IH] using rev_ind; [reflexivity|].
  rewrite tally_snoc, failures_snoc, fmap_app, <- IH.
  unfold process_result, is_failure, error_record.
  destruct (RequestResult.Error res) as [err|] eqn:Herr.
  - unfold is_success. rewrite Herr. simpl. rewrite Herr. reflexivity.
  - simpl. rewrite (success_test res Herr).
    destruct (is_success res); simpl.
    + rewrite app_nil_r. reflexivity.
    + rewrite Herr. reflexivity.
Qed.

Lemma with_status_key_snoc (k : string) (outcomes : list RequestResult.t)
    (res : RequestResult.t) :
  with_status_key k (outcomes ++ [res])
  = with_status_key k outcomes
    ++ (if has_response res
           && String.eqb (GoInt.Itoa (RequestResult.Status res)) k
        then [res] else []).
Proof.
  unfold with_status_key. rewrite responses_snoc, List.filter_app.
  destruct (has_response res); simpl; [|reflexivity].
  destruct (String.eqb _ k); reflexivity.
Qed.

Lemma count_nonneg (outcomes : list RequestResult.t) : 0 <= count outcomes.
Proof. unfold count. lia. Qed.

Lemma counted_succ (n : Z) :
  0 <= n -> Some (GoInt.add (default 0 (counted n)) 1) = counted (n + 1).
Proof.
  intros Hn. unfold counted, GoInt.add.
  destruct (Z.eqb_spec (n + 1) 0); [lia|].
  destruct (Z.eqb_spec n 0) as [->|_]; simpl; [reflexivity|].
  rewrite wrap_add_wrap_l. reflexivity.
Qed.

Lemma tally_StatusCodes (outcomes : list RequestResult.t) (k : string) :
  StatusCodes (tally outcomes) !! k = counted (count (with_status_key k outcomes)).
Proof.
  induction outcomes as [|res outcomes IH] using rev_ind; [reflexivity|].
  rewrite tally_snoc, with_status_key_snoc.
  unfold process_result, has_response.
  destruct (RequestResult.Error res) as [err|]; simpl.
  - rewrite app_nil_r. exact IH.
  - destruct (String.eqb_spec (GoInt.Itoa (RequestResult.Status res)) k)
      as [->|Hne].
    + rewrite lookup_insert_eq, IH, count_snoc.
      apply counted_succ, count_nonneg.
    + rewrite lookup_insert_ne by exact Hne. rewrite app_nil_r. exact IH.
Qed.

Lemma with_status_key_Itoa (status : Z) (outcomes : list RequestResult.t) :
  with_status_key (GoInt.Itoa status) outcomes = with_status status outcomes.
Proof.
  unfold with_status_key, with_status. apply List.filter_ext. intros res.
  destruct (Z.eqb_spec (RequestResult.Status res) status) as [->|Hne].
  - apply String.eqb_refl.
  - apply String.eqb_neq. intros Heq. apply Hne, Itoa_inj, Heq.
Qed.

Lemma in_second_snoc (second : Z) (outcomes : list RequestResult.t)
    (res : RequestResult.t) :
  in_second second (outcomes ++ [res])
  = in_second second outcomes
    ++ (if has_response res
           && (Time.Unix (RequestResult.Timestamp res) =? second)
        then [res] else []).
Proof.
  unfold in_second. rewrite responses_snoc, List.filter_app.
  destruct (has_response res); simpl; [|reflexivity].
  destruct (_ =? second); reflexivity.
Qed.

Lemma filled_snoc (durations : list float) (d : float) :
  Some (default [] (filled durations) ++ [d]) = filled (durations ++ [d]).
Proof. destruct durations; reflexivity. Qed.

Lemma tally_timelinePoints (outcomes : list RequestResult.t) (second : Z) :
  timelinePoints (tally outcomes) !! second = filled (bucket second outcomes).
Proof.
  induction outcomes as [|res outcomes IH] using rev_ind; [reflexivity|].
  rewrite tally_snoc. unfold bucket. rewrite in_second_snoc.
  unfold process_result, has_response.
  destruct (RequestResult.Error res) as [err|]; simpl.
  - rewrite app_nil_r. exact IH.
  - destruct (Z.eqb_spec (Time.Unix (RequestResult.Timestamp res)) second)
      as [->|Hne].
    + rewrite lookup_insert_eq, IH, List.map_app. apply filled_snoc.
    + rewrite lookup_insert_ne by exact Hne. rewrite app_nil_r. exact IH.
Qed.

End RecordFacts.

(** X1: every processed outcome that is not a success is recorded as exactly
    one error, in arrival order: a transport failure by its message, an HTTP
    error by its status code and reason phrase. Successes are never listed,
    so the errors and the successes together are all the outcomes. *)
Theorem every_failure_is_recorded_once `{P : Platform}
    (config : TestConfiguration.t) (outcomes : list RequestResult.t)
    (elapsed : Duration.t) :
  TestResult.Errors (summarize config outcomes elapsed)
  = error_record <$> List.filter is_failure outcomes
  /\ (length (TestResult.Errors (summarize config outcomes elapsed))
      + length (successes outcomes) = length outcomes)%nat.
Proof.
  assert (Herrors : TestResult.Errors (summarize config outcomes elapsed)
                    = error_record <$> List.filter is_failure outcomes)
    by apply tally_Errors.
  split; [exact Herrors|]. rewrite Herrors, length_fmap.
  unfold successes, is_failure. clear Herrors.
  induction outcomes as [|res outcomes IH]; [reflexivity|]. simpl.
  destruct (is_success res); simpl; lia.
Qed.

(** X2: the status-code histogram maps the decimal form of a status code to
    the number of outcomes answered with that status, whether success or
    error; transport failures are not tallied, and a code that never occurred
    has no entry. *)
Theorem histogram_counts_responses `{P : Platform}
    (config : TestConfiguration.t) (outcomes : list RequestResult.t)
    (elapsed : Duration.t) :
  let codes := TestResult.StatusCodes (summarize config outcomes elapsed) in
  (forall status : Z,
      codes !! GoInt.Itoa status = counted (count (with_status status outcomes)))
  /\ (forall (k : string) (n : Z),
        codes !! k = Some n ->
        exists res : RequestResult.t,
          In res outcomes
          /\ RequestResult.Error res = None
          /\ k = GoInt.Itoa (RequestResult.Status res)).
Proof.
  intros codes. subst codes. unfold summarize. simpl. split.
  - intros status. rewrite tally_StatusCodes, with_status_key_Itoa.
    reflexivity.
  - intros k n. rewrite tally_StatusCodes. unfold counted.
    destruct (with_status_key k outcomes) as [|res rest] eqn:Hkey;
      [discriminate|]. intros _.
    assert (Hin : In res (with_status_key k outcomes))
      by (rewrite Hkey; left; reflexivity).
    unfold with_status_key, responses in Hin.
    apply List.filter_In in Hin as [Hin Hk].
    apply List.filter_In in Hin as [Hin Hresp].
    exists res. split; [exact Hin|]. split.
    + unfold has_response in Hresp.
      destruct (RequestResult.Error res); [discriminate | reflexivity].
    + symmetry. apply String.eqb_eq, Hk.
Qed.

(** X3: the points of the timeline are those of the Unix seconds in which an
    answered request began, and no others: the response time of the point of
    a second is the mean of the durations (in whole milliseconds, summed in
    arrival order) of the answered requests of that second, and its active
    count is their number. *)
Theorem timeline_points_are_the_seconds `{P : Platform}
    (config : TestConfiguration.t) (outcomes : list RequestResult.t)
    (elapsed : Duration.t) (p : TimelinePoint.t) :
  In p (TestResult.Timeline (summarize config outcomes elapsed))
  <-> exists second : Z,
        bucket second outcomes <> []
        /\ p = TimelinePoint.mk
                 (Float64.of_int second)
                 (PrimFloat.div
                    (Float64.sum (bucket second outcomes))
                    (Float64.of_int
                       (Z.of_nat (length (bucket second outcomes)))))
                 (Float64.of_int (Z.of_nat (length (bucket second outcomes)))).
Proof.
  unfold summarize. simpl. rewrite <- list_elem_of_In, list_elem_of_fmap.
  split.
  - intros ([second durations] & -> & Hentry).
    apply elem_of_map_to_list in Hentry.
    rewrite tally_timelinePoints in Hentry. exists second.
    destruct (bucket second outcomes) as [|d ds] eqn:Hb; [discriminate|].
    injection Hentry as <-. split; [discriminate | reflexivity].
  - intros (second & Hsome & ->).
    exists (second, bucket second outcomes). split; [reflexivity|].
    apply elem_of_map_to_list. rewrite tally_timelinePoints.
    destruct (bucket second outcomes); [contradiction | reflexivity].
Qed.

(** The points come in the order of the map, which is not chronological. *)
Example timeline_of_two_seconds :
  let outcomes := [started_at 10 200 (ms 20); started_at 11 200 (ms 40);
                   started_at 10 404 (ms 30)] in
  TestResult.Timeline
    (@summarize (TestPlatform []) (config_of 3 1) outcomes (ms 100))
  = [TimelinePoint.mk 11 40 1; TimelinePoint.mk 10 25 2].
Proof. vm_compute. reflexivity. Qed.

(** ** The worker pool *)

Section PoolFacts.

Context {P : Platform}.

Lemma executeRequest_after_deadline (config : TestConfiguration.t) (reqIdx : Z)
    (rs : RunState) :
  ctx_Done (rworld rs) = true -> executeRequest config reqIdx rs = Done None rs.
Proof.
  intros Hdone. unfold executeRequest, bind, get. cbv beta iota.
  rewrite Hdone. reflexivity.
Qed.

Lemma executeRequest_sends (config : TestConfiguration.t) (reqIdx : Z)
    (rs rs' : RunState) (sent : option RequestResult.t) :
  ctx_Done (rworld rs) = false ->
  executeRequest config reqIdx rs = Done sent rs' ->
  exists res : RequestResult.t, sent = Some res.
Proof.
  intros Hlive Hrun. unfold executeRequest in Hrun.
  apply bind_Done in Hrun as (s0 & rs0 & [= <- <-] & Hrun).
  rewrite Hlive in Hrun.
  apply bind_Done in Hrun as (resolved & rs1 & _ & Hrun).
  assert (Hfailed : forall err rs2,
             failed_outcome err rs2 = Done sent rs' ->
             exists res : RequestResult.t, sent = Some res).
  { intros err rs2 Hf. unfold failed_outcome in Hf.
    apply bind_Done in Hf as (t & rs3 & _ & [= <- _]). eauto. }
  destruct resolved as [err|[reqURL reqBody]]; [eapply Hfailed; eassumption|].
  destruct (build_request config reqURL reqBody) as [[err|req]|msg];
    [eapply Hfailed; eassumption | | discriminate].
  unfold send_request in Hrun.
  apply bind_Done in Hrun as (reqStart & rs2 & _ & Hrun).
  apply bind_Done in Hrun as (reply & rs3 & _ & Hrun).
  apply bind_Done in Hrun as (t & rs4 & _ & Hrun).
  destruct reply; injection Hrun as <- _; eauto.
Qed.

Lemma run_requests_traced (config : TestConfiguration.t) (n : nat) :
  forall (reqIdx : Z) (rs : RunState),
    run_requests config n reqIdx rs
    = (let* trace := trace_requests config n reqIdx in
       ret (outcomes_of trace)) rs.
Proof.
  induction n as [|n IH]; intros reqIdx rs; [reflexivity|].
  cbn [run_requests trace_requests]. unfold bind at 1 3 4 5, get.
  destruct (executeRequest config reqIdx rs) as [outcome rs1|]; [|reflexivity].
  unfold bind at 1. rewrite IH. unfold bind.
  destruct (trace_requests config n (reqIdx + 1) rs1) as [rest rs2|];
    [|reflexivity].
  unfold ret, outcomes_of. cbn [omap list_omap Handled.sent].
  destruct outcome; reflexivity.
Qed.

Lemma run_workers_traced (config : TestConfiguration.t) (rs : RunState) :
  run_workers config rs
  = (let* trace := trace_workers config in ret (outcomes_of trace)) rs.
Proof.
  unfold run_workers, trace_workers.
  destruct (0 <? TestConfiguration.Concurrency config); [|reflexivity].
  apply run_requests_traced.
Qed.

Lemma indices_succ (n : nat) (reqIdx : Z) :
  Z.of_nat <$> seq (S (Z.to_nat reqIdx)) n
  = (fun i => i + 1) <$> (Z.of_nat <$> seq (Z.to_nat reqIdx) n).
Proof.
  rewrite <- seq_shift, <- !list_fmap_compose.
  apply list_fmap_ext. intros _ i _. simpl. lia.
Qed.

Lemma trace_requests_accounts (config : TestConfiguration.t) (n : nat) :
  forall (reqIdx : Z) (rs rs' : RunState) (trace : list Handled.t),
    trace_requests config n reqIdx rs = Done trace rs' ->
    Handled.index <$> trace = (fun i => reqIdx + Z.of_nat i) <$> seq 0 n
    /\ Forall accounted trace.
Proof.
  induction n as [|n IH]; intros reqIdx rs rs' trace Hrun.
  - injection Hrun as <- _. split; [reflexivity | constructor].
  - cbn [trace_requests] in Hrun.
    apply bind_Done in Hrun as (s & rs0 & [= <- <-] & Hrun).
    apply bind_Done in Hrun as (outcome & rs1 & Hsent & Hrun).
    apply bind_Done in Hrun as (rest & rs2 & Hrest & [= <- _]).
    destruct (IH _ _ _ _ Hrest) as [Hidx Hall]. split.
    + cbn [fmap list_fmap seq Handled.index]. f_equal; [lia|].
      change (list_fmap Handled.t Z Handled.index rest)
        with (Handled.index <$> rest).
      rewrite Hidx, <- seq_shift.
      change (list_fmap nat Z (fun i => reqIdx + Z.of_nat i)
                (List.map S (seq 0 n)))
        with ((fun i => reqIdx + Z.of_nat i) <$> List.map S (seq 0 n)).
      clear. induction (seq 0 n) as [|i l IHl]; [reflexivity|].
      cbn [fmap list_fmap List.map] in *. f_equal; [lia | exact IHl].
    + constructor; [|exact Hall]. unfold accounted. cbn [Handled.expired
                                                         Handled.sent].
      destruct (ctx_Done (rworld rs)) eqn:Hdone.
      * rewrite (executeRequest_after_deadline config reqIdx rs Hdone) in Hsent.
        injection Hsent as <- _. reflexivity.
      * destruct (executeRequest_sends config reqIdx rs rs1 outcome Hdone Hsent)
          as [res ->]. eexists; reflexivity.
Qed.

Lemma accounted_count (trace : list Handled.t) :
  Forall accounted trace ->
  (length (outcomes_of trace) + length (expired_in trace) = length trace)%nat.
Proof.
  induction 1 as [|[i e o] trace Hh _ IH]; [reflexivity|].
  unfold outcomes_of, expired_in in *. unfold accounted in Hh.
  cbn [omap list_omap List.filter Handled.sent Handled.expired] in *.
  destruct e.
  - rewrite Hh. cbn [length]. change (list_omap Handled.t RequestResult.t
                                        Handled.sent trace)
      with (omap Handled.sent trace). lia.
  - destruct Hh as [res ->]. cbn [length].
    change (list_omap Handled.t RequestResult.t Handled.sent trace)
      with (omap Handled.sent trace). lia.
Qed.

Lemma run_requests_after_deadline (config : TestConfiguration.t) (n : nat) :
  forall (reqIdx : Z) (rs : RunState),
    ctx_Done (rworld rs) = true ->
    run_requests config n reqIdx rs = Done [] rs.
Proof.
  induction n as [|n IH]; intros reqIdx rs Hdone; [reflexivity|].
  cbn [run_requests]. unfold bind.
  rewrite (executeRequest_after_deadline config reqIdx rs Hdone).
  rewrite (IH (reqIdx + 1) rs Hdone). reflexivity.
Qed.

End PoolFacts.

(** X4: the worker pool accounts for every request index. Under the schedule
    of the model the pool takes the indices 0 to [config.Requests] - 1 once
    each, in order, and what it sends on [resultChan] is exactly what
    [executeRequest] sends for them: an index whose turn comes when the
    context of the run is done sends nothing, every other index sends exactly
    one outcome, so none is dropped and none is retried. Hence a run that
    returns has processed [config.Requests] outcomes less the indices that
    came after the deadline, and all of them when there was none. (For a pool
    with at least one worker.) *)
Theorem RunTest_processes_every_request `{P : Platform}
    (config : TestConfiguration.t) :
  0 < TestConfiguration.Concurrency config ->
  (forall rs : RunState,
      run_workers config rs
      = (let* trace := trace_workers config in ret (outcomes_of trace)) rs)
  /\ (forall (rs rs' : RunState) (trace : list Handled.t),
        trace_workers config rs = Done trace rs' ->
        Handled.index <$> trace
        = indices (Z.to_nat (TestConfiguration.Requests config))
        /\ Forall accounted trace)
  /\ (forall (w w' : World) (r : TestResult.t),
        RunTest config w = Done r w' ->
        exists (varCtx : option VariableContext.t) (w0 : World)
               (rs' : RunState) (trace : list Handled.t)
               (elapsed : Duration.t),
          trace_workers config (mkRunState varCtx w0) = Done trace rs'
          /\ r = summarize config (outcomes_of trace) elapsed
          /\ count (outcomes_of trace) + count_expired trace
             = TestConfiguration.Requests config
          /\ (expired_in trace = [] ->
              count (outcomes_of trace) = TestConfiguration.Requests config)).
Proof.
  intros Hpool.
  assert (Htrace : forall (rs rs' : RunState) (trace : list Handled.t),
             trace_workers config rs = Done trace rs' ->
             Handled.index <$> trace
             = indices (Z.to_nat (TestConfiguration.Requests config))
             /\ Forall accounted trace).
  { intros rs rs' trace Hrun. unfold trace_workers in Hrun.
    destruct (Z.ltb_spec 0 (TestConfiguration.Concurrency config)); [|lia].
    destruct (trace_requests_accounts config _ _ _ _ _ Hrun) as [Hidx Hall].
    split; [|exact Hall]. rewrite Hidx. unfold indices.
    apply list_fmap_ext. intros _ i _. lia. }
  split; [intros rs; apply run_workers_traced|]. split; [exact Htrace|].
  intros w w' r Hrun. unfold RunTest in Hrun.
  apply bind_Done in Hrun as (timeout & w0 & _ & Hrun).
  apply bind_Done in Hrun as ([] & w1 & _ & Hrun).
  unfold run_under_deadline in Hrun.
  apply bind_Done in Hrun as (ctx & w2 & _ & Hrun).
  apply bind_Done in Hrun as ([] & w3 & Hchan & Hrun).
  apply bind_Done in Hrun as ([] & w3' & _ & Hrun).
  apply bind_Done in Hrun as (startTime & w4 & _ & Hrun).
  apply bind_Done in Hrun as (outcomes & w5 & Hworkers & Hrun).
  apply bind_Done in Hrun as (endTime & w6 & _ & Hrun).
  injection Hrun as <- _.
  assert (Hrequests : 0 <= TestConfiguration.Requests config).
  { revert Hchan. unfold lift, make_chan.
    destruct (Z.ltb_spec (TestConfiguration.Requests config) 0);
      [discriminate | lia]. }
  revert Hworkers. unfold from_run. rewrite run_workers_traced. unfold bind.
  destruct (trace_workers config (mkRunState ctx w4)) as [trace rs'|] eqn:Hpoolrun;
    [|discriminate].
  intros [= <- _].
  destruct (Htrace _ _ _ Hpoolrun) as [Hidx Hall].
  assert (Hlen : length trace
                 = Z.to_nat (TestConfiguration.Requests config)).
  { rewrite <- (length_fmap Handled.index), Hidx. unfold indices.
    rewrite length_fmap, length_seq. reflexivity. }
  pose proof (accounted_count trace Hall) as Hcount.
  exists ctx, w4, rs', trace, (Time.Sub endTime startTime).
  split; [exact Hpoolrun|]. split; [reflexivity|].
  unfold count, count_expired. split; [lia|].
  intros Hnone. rewrite Hnone in Hcount. simpl in Hcount. lia.
Qed.

Lemma RunTest_processes_every_request_witness :
  let P := DeadlinePlatform (5 * Duration.Second) in
  let config := config_of 4 2 in
  (forall rs : @RunState P,
      @run_workers P config rs
      = (let* trace := @trace_workers P config in ret (outcomes_of trace)) rs)
  /\ (forall (rs rs' : @RunState P) (trace : list Handled.t),
        @trace_workers P config rs = Done trace rs' ->
        Handled.index <$> trace = indices 4 /\ Forall accounted trace)
  /\ (forall (w w' : @World P) (r : TestResult.t),
        @RunTest P config w = Done r w' ->
        exists (varCtx : option (@VariableContext.t P)) (w0 : @World P)
               (rs' : @RunState P) (trace : list Handled.t)
               (elapsed : Duration.t),
          @trace_workers P config (@mkRunState P varCtx w0) = Done trace rs'
          /\ r = @summarize P config (outcomes_of trace) elapsed
          /\ count (outcomes_of trace) + count_expired trace = 4
          /\ (expired_in trace = [] -> count (outcomes_of trace) = 4)).
Proof.
  apply (@RunTest_processes_every_request
           (DeadlinePlatform (5 * Duration.Second)) (config_of 4 2)).
  simpl. lia.
Defined.

(** A run of four requests of five seconds each under its deadline of twelve
    seconds: the last index comes up after the deadline and sends nothing. *)
Example RunTest_cut_by_its_deadline :
  (fun trace => (Handled.expired <$> trace, count (outcomes_of trace)))
  <$> returned
        (@trace_workers (DeadlinePlatform (5 * Duration.Second)) (config_of 4 2)
           (@mkRunState (DeadlinePlatform (5 * Duration.Second)) None
              (0, 12 * Duration.Second)))
  = Some ([false; false; false; true], 3)
  /\ TestResult.StatusCodes
       <$> returned (@RunTest (DeadlinePlatform (5 * Duration.Second))
                       (config_of 4 2) (0, 0))
     = Some {[ "200" := 3 ]}.
Proof. vm_compute. split; reflexivity. Qed.

(** X5: a worker pool that starts after the deadline has fired executes
    nothing: no outcome is produced, no variable is resolved and no request is
    sent, whatever the number of requests. *)
Theorem no_request_after_the_deadline `{P : Platform}
    (config : TestConfiguration.t) (rs : RunState) :
  ctx_Done (rworld rs) = true ->
  run_workers config rs = Done [] rs.
Proof.
  intros Hdone. unfold run_workers.
  destruct (0 <? TestConfiguration.Concurrency config); [|reflexivity].
  apply run_requests_after_deadline. exact Hdone.
Qed.

Lemma no_request_after_the_deadline_witness :
  @run_workers (EdgePlatform true) (config_of 1000 50)
    (@mkRunState (EdgePlatform true) None 0)
  = Done [] (@mkRunState (EdgePlatform true) None 0).
Proof.
  apply (@no_request_after_the_deadline (EdgePlatform true)). reflexivity.
Defined.

(** X6: with a negative concurrency no worker is spawned, and with zero
    requests there is nothing to do: a run that ends reports a success rate,
    latencies and throughput of zero and has no status codes, no errors and
    no timeline, and this is not an error of the run. *)
Theorem RunTest_without_work `{P : Platform}
    (config : TestConfiguration.t) (w w' : World) (r : TestResult.t) :
  TestConfiguration.Concurrency config < 0
  \/ TestConfiguration.Requests config = 0 ->
  RunTest config w = Done r w' ->
  TestResult.SuccessRate r = 0%float
  /\ TestResult.AvgResponseTime r = 0%float
  /\ TestResult.MinResponseTime r = 0%float
  /\ TestResult.MaxResponseTime r = 0%float
  /\ TestResult.RequestsPerSecond r = 0%float
  /\ TestResult.StatusCodes r = ∅
  /\ TestResult.Errors r = []
  /\ TestResult.Timeline r = [].
Proof.
  intros Hidle Hrun. unfold RunTest in Hrun.
  apply bind_Done in Hrun as (timeout & w0 & _ & Hrun).
  apply bind_Done in Hrun as ([] & w1 & _ & Hrun).
  unfold run_under_deadline in Hrun.
  apply bind_Done in Hrun as (ctx & w2 & _ & Hrun).
  apply bind_Done in Hrun as ([] & w3 & _ & Hrun).
  apply bind_Done in Hrun as ([] & w3' & _ & Hrun).
  apply bind_Done in Hrun as (startTime & w4 & _ & Hrun).
  apply bind_Done in Hrun as (outcomes & w5 & Hworkers & Hrun).
  apply bind_Done in Hrun as (endTime & w6 & _ & Hrun).
  injection Hrun as <- _.
  assert (Hnone : outcomes = []).
  { revert Hworkers. unfold from_run, run_workers.
    destruct (Z.ltb_spec 0 (TestConfiguration.Concurrency config)) as [Hpos|_];
      [|intros [= <- _]; reflexivity].
    destruct Hidle as [Hneg|Hzero]; [lia|]. rewrite Hzero. simpl.
    intros [= <- _]. reflexivity. }
  subst outcomes. repeat split.
Qed.

Lemma RunTest_without_work_witness :
  TestResult.SuccessRate <$> returned (@RunTest (TestPlatform []) (config_of 100 (-4)) 0)
  = Some 0%float
  /\ TestResult.Errors <$> returned (@RunTest (TestPlatform []) (config_of 100 (-4)) 0)
     = Some [].
Proof.
  destruct (@RunTest (TestPlatform []) (config_of 100 (-4)) 0) as [r w'|msg w']
    eqn:Hrun.
  - destruct (@RunTest_without_work (TestPlatform []) (config_of 100 (-4)) 0
                w' r) as (Hrate & _ & _ & _ & _ & _ & Herrors & _).
    + left. simpl. lia.
    + exact Hrun.
    + simpl. rewrite Hrate, Herrors. split; reflexivity.
  - vm_compute in Hrun. discriminate.
Defined.

(** X7: a negative request count makes [RunTest] panic when it creates the
    result channel ([make(chan T, n)] with [n < 0]), after the deadline has
    been armed and before any worker starts: the run returns no summary and
    no error value. (Stated for a test without variables and a non-zero
    concurrency, so that nothing before the channel panics.) *)
Theorem RunTest_negative_requests_panics `{P : Platform}
    (config : TestConfiguration.t) (w : World) :
  TestConfiguration.Requests config < 0 ->
  TestConfiguration.Concurrency config <> 0 ->
  TestConfiguration.UseVariables config = false ->
  exists timeout : Duration.t,
    run_timeout config = Ok timeout
    /\ RunTest config w
       = Panicked "makechan: size out of range" (context_WithTimeout timeout w).
Proof.
  intros Hneg Hpool Hplain. unfold RunTest, run_timeout, GoInt.div.
  destruct (Z.eqb_spec (TestConfiguration.Concurrency config) 0);
    [contradiction|].
  eexists. split; [reflexivity|].
  unfold bind, lift, ret, modify, run_under_deadline, bind.
  rewrite Hplain. unfold ret, lift, make_chan.
  destruct (Z.ltb_spec (TestConfiguration.Requests config) 0); [|lia].
  reflexivity.
Qed.

Lemma RunTest_negative_requests_panics_witness :
  exists timeout : Duration.t,
    run_timeout (config_of (-1) 1) = Ok timeout
    /\ @RunTest (TestPlatform []) (config_of (-1) 1) 0
       = Panicked "makechan: size out of range"
           (@context_WithTimeout (TestPlatform []) timeout 0).
Proof.
  apply (@RunTest_negative_requests_panics (TestPlatform []) (config_of (-1) 1) 0).
  - simpl. lia.
  - simpl. lia.
  - reflexivity.
Defined.

(** ** Requests that cannot be built, bodies and tokens *)

Lemma executeRequest_built (P : Platform)
    (config : TestConfiguration.t) (reqIdx : Z) (rs rs1 : RunState)
    (reqURL reqBody : string) :
  ctx_Done (rworld rs) = false ->
  resolve_request config reqIdx rs = Done (inr (reqURL, reqBody)) rs1 ->
  executeRequest config reqIdx rs
  = match build_request config reqURL reqBody with
    | Panic msg => Panicked msg rs1
    | Ok (inl err) => failed_outcome err rs1
    | Ok (inr req) => send_request req (client_timeout config) rs1
    end.
Proof.
  intros Hlive Hresolve. unfold executeRequest, bind, get. cbv beta iota.
  rewrite Hlive. cbv beta iota. rewrite Hresolve. cbv beta iota.
  destruct (build_request config reqURL reqBody) as [[err|req]|msg];
    reflexivity.
Qed.

(** So does a request count whose outcomes do not fit under the allocation
    limit of the runtime. *)
Example RunTest_oversize_requests_panics :
  @RunTest (TestPlatform []) (config_of (2 ^ 62) 1) 0
  = Panicked "makechan: size out of range" 0
  /\ make_chan sizeof_RequestResult 5026338869831 = Ok tt
  /\ make_chan sizeof_RequestResult 5026338869832
     = Panic "makechan: size out of range".
Proof. vm_compute. repeat split. Qed.

(** X8: when [http.NewRequestWithContext] refuses the resolved URL of a GET
    or DELETE request, the failure is recorded as an outcome of duration zero
    and status zero that carries the error, stamped with the current time;
    the network is not touched and the run goes on. *)
Theorem unbuildable_GET_is_recorded `{P : Platform}
    (config : TestConfiguration.t) (reqIdx : Z) (rs rs1 : RunState)
    (reqURL reqBody : string) (err : error) :
  let method := TestConfiguration.Method config in
  ctx_Done (rworld rs) = false ->
  resolve_request config reqIdx rs = Done (inr (reqURL, reqBody)) rs1 ->
  method = "GET" \/ method = "DELETE" ->
  http_NewRequest_error method reqURL = Some err ->
  executeRequest config reqIdx rs
  = Done (Some (RequestResult.mk 0 0 (Some err) (fst (time_Now (rworld rs1)))))
         (mkRunState (varCtx rs1) (snd (time_Now (rworld rs1)))).
Proof.
  intros method Hlive Hresolve Hmethod Herr.
  rewrite (executeRequest_built P config reqIdx rs rs1 reqURL reqBody
             Hlive Hresolve).
  unfold build_request. fold method. rewrite Herr.
  assert (Hbodyless : String.eqb method "GET" || String.eqb method "DELETE"
                      = true).
  { destruct Hmethod as [->| ->]; reflexivity. }
  rewrite Hbodyless. unfold failed_outcome, bind, in_rworld, ret.
  destruct (time_Now (rworld rs1)) as [t w]. reflexivity.
Qed.

Lemma unbuildable_GET_is_recorded_witness :
  @executeRequest (EdgePlatform false) (config_for "GET" ":8080/items" "" false)
    0 (@mkRunState (EdgePlatform false) None 7)
  = Done (Some (RequestResult.mk 0 0
                  (Some (RequestError "missing protocol scheme")) 7))
         (@mkRunState (EdgePlatform false) None (7 + Duration.Millisecond)).
Proof.
  apply (@unbuildable_GET_is_recorded (EdgePlatform false)
           (config_for "GET" ":8080/items" "" false) 0
           (@mkRunState (EdgePlatform false) None 7)
           (@mkRunState (EdgePlatform false) None 7) ":8080/items" "").
  - reflexivity.
  - reflexivity.
  - left. reflexivity.
  - reflexivity.
Defined.

(** X9: for every other method the same refusal is not recorded: the
    Content-Type header is set on the [nil] request before the error is
    looked at, and [executeRequest] panics with a nil pointer dereference; no
    outcome is sent for the request. *)
Theorem unbuildable_POST_panics `{P : Platform}
    (config : TestConfiguration.t) (reqIdx : Z) (rs rs1 : RunState)
    (reqURL reqBody : string) (err : error) :
  let method := TestConfiguration.Method config in
  ctx_Done (rworld rs) = false ->
  resolve_request config reqIdx rs = Done (inr (reqURL, reqBody)) rs1 ->
  method <> "GET" -> method <> "DELETE" ->
  http_NewRequest_error method reqURL = Some err ->
  executeRequest config reqIdx rs
  = Panicked "runtime error: invalid memory address or nil pointer dereference"
      rs1.
Proof.
  intros method Hlive Hresolve Hget Hdelete Herr.
  rewrite (executeRequest_built P config reqIdx rs rs1 reqURL reqBody
             Hlive Hresolve).
  unfold build_request. fold method. rewrite Herr.
  destruct (String.eqb_spec method "GET"); [contradiction|].
  destruct (String.eqb_spec method "DELETE"); [contradiction|].
  reflexivity.
Qed.

Lemma unbuildable_POST_panics_witness :
  @executeRequest (EdgePlatform false) (config_for "POST" ":8080/items" "" false)
    0 (@mkRunState (EdgePlatform false) None 7)
  = Panicked "runtime error: invalid memory address or nil pointer dereference"
      (@mkRunState (EdgePlatform false) None 7).
Proof.
  apply (@unbuildable_POST_panics (EdgePlatform false)
           (config_for "POST" ":8080/items" "" false) 0
           (@mkRunState (EdgePlatform false) None 7)
           (@mkRunState (EdgePlatform false) None 7) ":8080/items" ""
           (RequestError "missing protocol scheme")).
  - reflexivity.
  - reflexivity.
  - discriminate.
  - discriminate.
  - reflexivity.
Defined.

(** X10: the body goes through the variable engine only for POST, PUT and
    PATCH. For any other method the resolution step hands the configured body
    on as it is, placeholders included, without touching the variables for
    it; and when variables are off, or no context exists, the URL is handed
    on unresolved as well and the state is left alone. *)
Theorem body_resolved_only_for_POST_PUT_PATCH `{P : Platform}
    (config : TestConfiguration.t) (reqIdx : Z) (rs rs1 : RunState)
    (reqURL reqBody : string) :
  resolve_request config reqIdx rs = Done (inr (reqURL, reqBody)) rs1 ->
  (carries_body (TestConfiguration.Method config) = false ->
   reqBody = TestConfiguration.Body config)
  /\ (TestConfiguration.UseVariables config = false \/ varCtx rs = None ->
      reqURL = TestConfiguration.URL config
      /\ reqBody = TestConfiguration.Body config
      /\ rs1 = rs).
Proof.
  unfold resolve_request, bind, get. cbv beta iota. intros Hresolve. split.
  - intros Hmethod. revert Hresolve.
    destruct (varCtx rs) as [ctx|]; [|intros [= _ <- _]; reflexivity].
    destruct (TestConfiguration.UseVariables config);
      [|intros [= _ <- _]; reflexivity].
    unfold with_varCtx, apply_variables, bind. rewrite Hmethod.
    destruct (processVariables (TestConfiguration.URL config) reqIdx
                (mkState ctx (rworld rs))) as [[u err] s1|]; [|discriminate].
    destruct err; intros [= _ <- _]; reflexivity.
  - intros Hoff. revert Hresolve.
    destruct (varCtx rs) as [ctx|].
    + destruct Hoff as [Hoff|Hoff]; [|discriminate]. rewrite Hoff.
      intros [= <- <- <-]. repeat split.
    + intros [= <- <- <-]. repeat split.
Qed.

Lemma body_resolved_only_for_POST_PUT_PATCH_witness :
  exists rs1,
    @resolve_request (TestPlatform [sequential_variable "n" 0 2 1])
      (config_for "OPTIONS" "http://localhost:8080/items/{{n}}" "{{n}}" true)
      0 (run_state_with [sequential_variable "n" 0 2 1])
    = Done (inr ("http://localhost:8080/items/0", "{{n}}")) rs1
    /\ "{{n}}"
       = TestConfiguration.Body
           (config_for "OPTIONS" "http://localhost:8080/items/{{n}}" "{{n}}"
              true).
Proof.
  pose (config := config_for "OPTIONS" "http://localhost:8080/items/{{n}}"
                    "{{n}}" true).
  pose (rs1 := final_state
                 (@resolve_request (TestPlatform [sequential_variable "n" 0 2 1])
                    config 0 (run_state_with [sequential_variable "n" 0 2 1]))).
  assert (Hresolve :
            @resolve_request (TestPlatform [sequential_variable "n" 0 2 1])
              config 0 (run_state_with [sequential_variable "n" 0 2 1])
            = Done (inr ("http://localhost:8080/items/0", "{{n}}")) rs1)
    by (vm_compute; reflexivity).
  exists rs1. split; [exact Hresolve|].
  exact (proj1 (@body_resolved_only_for_POST_PUT_PATCH
                  (TestPlatform [sequential_variable "n" 0 2 1]) config 0
                  (run_state_with [sequential_variable "n" 0 2 1]) rs1
                  "http://localhost:8080/items/0" "{{n}}" Hresolve) eq_refl).
Defined.

(** X11: a request that is built carries the configured token verbatim in
    its Authorization header, with no prefix, and no Authorization header at
    all when the token is empty; beside it the only header the executor sets
    is Content-Type. *)
Theorem Authorization_is_the_raw_token `{P : Platform}
    (config : TestConfiguration.t) (reqURL reqBody : string) (req : Request.t) :
  build_request config reqURL reqBody = Ok (inr req) ->
  Request.Header req !! "Authorization"
  = (if String.eqb (TestConfiguration.AuthToken config) "" then None
     else Some [TestConfiguration.AuthToken config])
  /\ (forall k : string,
        is_Some (Request.Header req !! k) ->
        k = "Authorization" \/ k = "Content-Type").
Proof.
  unfold build_request, authorize, Request.Header_Set.
  destruct (String.eqb (TestConfiguration.Method config) "GET"
            || String.eqb (TestConfiguration.Method config) "DELETE");
    destruct (http_NewRequest_error (TestConfiguration.Method config) reqURL);
    try discriminate; intros [= <-];
    destruct (String.eqb (TestConfiguration.AuthToken config) ""); simpl;
    (split; [try reflexivity; try apply lookup_insert_eq |]).
  all: try (rewrite lookup_insert_ne by discriminate; apply lookup_empty).
  all: intros k [v Hk].
  all: repeat (apply lookup_insert_Some in Hk as [[<- _]|[_ Hk]]; [tauto|]).
  all: rewrite lookup_empty in Hk; discriminate.
Qed.

Lemma Authorization_is_the_raw_token_witness :
  exists req : Request.t,
    @build_request (TestPlatform []) (post_config "") "http://localhost/x" ""
    = Ok (inr req)
    /\ Request.Header req !! "Authorization" = Some ["secret"].
Proof.
  pose (req := authorize (post_config "")
                 (Request.Header_Set "Content-Type" "application/json"
                    (Request.mk "POST" "http://localhost/x" (Some "{}") ∅))).
  assert (Hbuild : @build_request (TestPlatform []) (post_config "")
                     "http://localhost/x" "" = Ok (inr req)) by reflexivity.
  exists req. split; [exact Hbuild|].
  exact (proj1 (@Authorization_is_the_raw_token (TestPlatform [])
                  (post_config "") "http://localhost/x" "" req Hbuild)).
Defined.

(** ** Placeholders and names *)

Lemma span_name_exact (name rest : string) :
  brace_free name = true ->
  span_name (name +:+ String close_brace rest) = (name, String close_brace rest).
Proof.
  induction name as [|c name IH]; intros Hfree.
  - reflexivity.
  - simpl in Hfree. apply andb_prop in Hfree as [Hc Hfree].
    rewrite append_cons. cbn [span_name].
    destruct (Ascii.eqb c close_brace); [discriminate|].
    rewrite (IH Hfree). reflexivity.
Qed.

Lemma starts_with_closing (rest : string) :
  starts_with "}}" (String close_brace (String close_brace rest)) = true.
Proof. destruct rest; reflexivity. Qed.

Lemma match_placeholder_exact (name rest : string) :
  name_ok name = true ->
  match_placeholder (placeholder name +:+ rest) = Some (placeholder name).
Proof.
  unfold name_ok, placeholder. intros Hok.
  apply andb_prop in Hok as [Hne Hfree].
  change ("{{" +:+ name +:+ "}}")
    with (String open_brace (String open_brace (name +:+ "}}"))).
  rewrite !append_cons. cbn [match_placeholder].
  rewrite !Ascii.eqb_refl. cbn [andb]. rewrite append_assoc.
  change ("}}" +:+ rest) with (String close_brace (String close_brace rest)).
  rewrite (span_name_exact name _ Hfree), Hne, starts_with_closing.
  reflexivity.
Qed.

Lemma append_empty_r (s : string) : s +:+ "" = s.
Proof.
  induction s as [|c s IH]; [reflexivity|]. rewrite append_cons, IH.
  reflexivity.
Qed.

Lemma segments_from_past (s : string) :
  forall skip : nat, (String.length s <= skip)%nat -> segments_from skip s = [].
Proof.
  induction s as [|c s IH]; intros skip Hskip; [reflexivity|].
  destruct skip as [|k]; simpl in Hskip; [lia|].
  cbn [segments_from]. apply IH. lia.
Qed.

(** A string that is one placeholder is one match. *)
Lemma segments_placeholder (name : string) :
  name_ok name = true -> segments (placeholder name) = [Match (placeholder name)].
Proof.
  intros Hok. pose proof (match_placeholder_exact name "" Hok) as Hm.
  rewrite append_empty_r in Hm. unfold segments.
  remember (placeholder name) as p eqn:Hp. destruct p as [|c p].
  - unfold placeholder in Hp. discriminate.
  - cbn [segments_from]. rewrite Hm. f_equal.
    apply segments_from_past. simpl. lia.
Qed.

Lemma substring_prefix (a b : string) :
  String.substring 0 (String.length a) (a +:+ b) = a.
Proof.
  induction a as [|c a IH]; [destruct b; reflexivity|].
  rewrite append_cons. simpl. rewrite IH. reflexivity.
Qed.

(** The name cut out of a placeholder is the name it was made of. *)
Lemma placeholder_name_placeholder (name : string) :
  placeholder_name (placeholder name) = name.
Proof.
  unfold placeholder_name, placeholder.
  change ("{{" +:+ name +:+ "}}")
    with (String open_brace (String open_brace (name +:+ "}}"))).
  cbn [String.length]. rewrite length_append.
  replace (S (S (String.length name + String.length "}}")) - 4)%nat
    with (String.length name) by (simpl; lia).
  cbn [String.substring]. apply substring_prefix.
Qed.

(** ** How resolution composes *)

Section CompositionFacts.

Context {P : Platform}.

Lemma segments_from_plain (a rest : string) :
  plain a = true ->
  segments_from 0 (a +:+ rest) = copied a ++ segments_from 0 rest.
Proof.
  induction a as [|c a IH]; intros Hplain; [reflexivity|].
  simpl in Hplain. apply andb_prop in Hplain as [Hc Hplain].
  rewrite append_cons. cbn [segments_from copied].
  assert (Hnone : match_placeholder (String c (a +:+ rest)) = None).
  { unfold match_placeholder. destruct (a +:+ rest); [reflexivity|].
    destruct (Ascii.eqb c open_brace); [discriminate | reflexivity]. }
  rewrite Hnone, (IH Hplain). reflexivity.
Qed.

Lemma segments_from_skip (x rest : string) :
  segments_from (String.length x) (x +:+ rest) = segments_from 0 rest.
Proof.
  induction x as [|c x IH]; [destruct rest; reflexivity|].
  rewrite append_cons. cbn [String.length segments_from]. exact IH.
Qed.

Lemma segments_placeholder_append (name rest : string) :
  name_ok name = true ->
  segments_from 0 (placeholder name +:+ rest)
  = Match (placeholder name) :: segments_from 0 rest.
Proof.
  intros Hok. pose proof (match_placeholder_exact name rest Hok) as Hm.
  remember (placeholder name) as p eqn:Hp. destruct p as [|c p].
  - unfold placeholder in Hp. discriminate.
  - rewrite append_cons in *. cbn [segments_from]. rewrite Hm. f_equal.
    replace (String.length (String c p) - 1)%nat with (String.length p)
      by (simpl; lia).
    apply segments_from_skip.
Qed.

(** The segments of text, a placeholder and more input. *)
Lemma segments_compose (a name rest : string) :
  plain a = true -> name_ok name = true ->
  segments (a +:+ placeholder name +:+ rest)
  = copied a ++ Match (placeholder name) :: segments rest.
Proof.
  intros Hplain Hok. unfold segments.
  rewrite (segments_from_plain _ _ Hplain),
    (segments_placeholder_append _ _ Hok). reflexivity.
Qed.

Lemma string_concat_cons (x : string) (l : list string) :
  string_concat (x :: l) = x +:+ string_concat l.
Proof. reflexivity. Qed.

Lemma string_concat_app (l1 l2 : list string) :
  string_concat (l1 ++ l2) = string_concat l1 +:+ string_concat l2.
Proof.
  induction l1 as [|x l1 IH]; [reflexivity|].
  rewrite <- app_comm_cons, !string_concat_cons, IH, append_assoc.
  reflexivity.
Qed.

Lemma replace_segments_copied (repl : string -> M State string) (a : string)
    (l : list segment) (s : State) :
  replace_segments repl (copied a ++ l) s
  = match replace_segments repl l s with
    | Done pieces s' =>
        Done (((fun c => String c "") <$> list_ascii_of_string a) ++ pieces) s'
    | Panicked msg s' => Panicked msg s'
    end.
Proof.
  induction a as [|c a IH]; simpl.
  - destruct (replace_segments repl l s); reflexivity.
  - unfold bind. rewrite IH.
    destruct (replace_segments repl l s); reflexivity.
Qed.

Lemma string_concat_bytes (a : string) :
  string_concat ((fun c => String c "") <$> list_ascii_of_string a) = a.
Proof.
  induction a as [|c a IH]; [reflexivity|].
  cbn [list_ascii_of_string fmap list_fmap]. rewrite string_concat_cons.
  change (list_fmap ascii string (fun c => String c "")
            (list_ascii_of_string a))
    with ((fun c => String c "") <$> list_ascii_of_string a).
  rewrite IH. reflexivity.
Qed.

Lemma processVariables_replace_all (input : string) (requestIndex : Z)
    (s : State) :
  processVariables input requestIndex s
  = match replace_all input requestIndex s with
    | Done output s' => Done (output, None) s'
    | Panicked msg s' => Panicked msg s'
    end.
Proof.
  unfold processVariables, replace_all.
  destruct (String.eqb_spec input "") as [->|_]; [reflexivity|].
  unfold bind.
  destruct (ReplaceAllStringFunc input (replace_match requestIndex) s);
    reflexivity.
Qed.

End CompositionFacts.

Lemma replace_all_compose `{P : Platform}
    (a name rest : string) (requestIndex : Z) (s : State) :
  plain a = true ->
  name_ok name = true ->
  replace_all (a +:+ placeholder name +:+ rest) requestIndex s
  = match replace_match requestIndex (placeholder name) s with
    | Done piece s1 =>
        match replace_all rest requestIndex s1 with
        | Done output s2 => Done (a +:+ piece +:+ output) s2
        | Panicked msg s2 => Panicked msg s2
        end
    | Panicked msg s1 => Panicked msg s1
    end.
Proof.
  intros Hplain Hok.
  unfold replace_all, ReplaceAllStringFunc, bind.
  rewrite (segments_compose a name rest Hplain Hok), replace_segments_copied.
  cbn [replace_segments]. unfold bind.
  destruct (replace_match requestIndex (placeholder name) s) as [piece s1|];
    [|reflexivity].
  destruct (replace_segments (replace_match requestIndex) (segments rest) s1)
    as [pieces s2|]; [|reflexivity].
  unfold ret.
  rewrite string_concat_app, string_concat_bytes, string_concat_cons.
  reflexivity.
Qed.

(** X12: resolution works from left to right and composes: for an input made
    of text without an opening brace, the placeholder of a name, and more
    input, the name between the braces is resolved first, then the rest of
    the input in the state this leaves, and the output is the text, the value
    of the name (or the placeholder itself when its resolution ends in an
    error) and the output of the rest. A panic in either part is the panic of
    the whole. *)
Theorem resolution_composes `{P : Platform}
    (a name rest : string) (requestIndex : Z) (s : State) :
  plain a = true ->
  name_ok name = true ->
  processVariables (a +:+ placeholder name +:+ rest) requestIndex s
  = (let* (value, err) := getVariableValue name requestIndex in
     let* (output, _) := processVariables rest requestIndex in
     ret (a +:+ match err with
                | Some _ => placeholder name
                | None => value
                end +:+ output, None)) s.
Proof.
  intros Hplain Hok. unfold bind at 1 2.
  rewrite !processVariables_replace_all.
  rewrite (replace_all_compose a name rest requestIndex s Hplain Hok).
  unfold replace_match, bind. rewrite placeholder_name_placeholder.
  destruct (getVariableValue name requestIndex s) as [[value err] s1|];
    [|reflexivity].
  destruct err as [e|]; unfold ret;
    rewrite processVariables_replace_all;
    destruct (replace_all rest requestIndex s1); reflexivity.
Qed.

Lemma resolution_composes_witness :
  let s := state_with [sequential_variable "n" 0 2 1] in
  processVariables ("/users/" +:+ placeholder "n" +:+ "/{{n}}") 7 s
  = (let* (value, err) := getVariableValue "n" 7 in
     let* (output, _) := processVariables "/{{n}}" 7 in
     ret ("/users/" +:+ match err with
                        | Some _ => placeholder "n"
                        | None => value
                        end +:+ output, None)) s.
Proof.
  apply (@resolution_composes (TestPlatform [sequential_variable "n" 0 2 1])
           "/users/" "n" "/{{n}}" 7
           (state_with [sequential_variable "n" 0 2 1])); reflexivity.
Defined.

(** ** Resolutions that leave the state alone *)

Section SettledFacts.

Context {P : Platform}.

Lemma unknown_strategy (strategy : string) :
  known_strategy strategy = false ->
  String.eqb strategy "static" = false
  /\ String.eqb strategy "sequential" = false
  /\ String.eqb strategy "random" = false
  /\ String.eqb strategy "uuid" = false
  /\ String.eqb strategy "timestamp" = false
  /\ String.eqb strategy "template" = false.
Proof.
  unfold known_strategy. intros H.
  repeat (apply orb_false_iff in H; destruct H as [H ?]).
  repeat split; assumption.
Qed.

Lemma replace_match_settled (s : State) (requestIndex : Z) (m piece : string) :
  settled s requestIndex m = Some piece ->
  replace_match requestIndex m s = Done piece s.
Proof.
  unfold settled, replace_match, getVariableValue, bind, get_Variables.
  destruct (String.eqb (placeholder_name m) "$index") eqn:Hindex.
  { intros [= <-]. reflexivity. }
  destruct (String.eqb (placeholder_name m) "$random") eqn:Hrandom;
    [discriminate|].
  destruct (VariableContext.Variables (vctx s) !! placeholder_name m)
    as [v|] eqn:Hv.
  - unfold generate_value.
    destruct (String.eqb (Variable_.Strategy v) "static") eqn:Hstatic.
    { intros [= <-]. reflexivity. }
    destruct (known_strategy (Variable_.Strategy v)) eqn:Hknown;
      [discriminate|].
    intros [= <-].
    destruct (unknown_strategy _ Hknown) as (_ & -> & -> & -> & -> & ->).
    reflexivity.
  - intros [= <-]. reflexivity.
Qed.

Lemma replace_segments_settled (requestIndex : Z) (segs : list segment)
    (s : State) :
  (forall m, In (Match m) segs -> is_Some (settled s requestIndex m)) ->
  replace_segments (replace_match requestIndex) segs s
  = Done (settled_piece s requestIndex <$> segs) s.
Proof.
  induction segs as [|[c|m] segs IH]; intros Hall.
  - reflexivity.
  - cbn [replace_segments]. unfold bind.
    rewrite IH by (intros m Hin; apply Hall; right; exact Hin).
    reflexivity.
  - cbn [replace_segments]. unfold bind.
    destruct (Hall m (or_introl eq_refl)) as [piece Hpiece].
    rewrite (replace_match_settled s requestIndex m piece Hpiece).
    rewrite IH by (intros m' Hin; apply Hall; right; exact Hin).
    cbn [fmap list_fmap settled_piece]. rewrite Hpiece. reflexivity.
Qed.

Lemma processVariables_settled (input : string) (requestIndex : Z) (s : State) :
  (forall m, In m (placeholders input) -> is_Some (settled s requestIndex m)) ->
  processVariables input requestIndex s
  = Done (string_concat (settled_piece s requestIndex <$> segments input), None)
         s.
Proof.
  intros Hall. rewrite processVariables_replace_all.
  unfold replace_all, ReplaceAllStringFunc, bind.
  rewrite replace_segments_settled
    by (intros m Hin; apply Hall, In_placeholders, Hin).
  reflexivity.
Qed.

Lemma erroring_settled (s : State) (requestIndex : Z) (m : string) :
  erroring s (placeholder_name m) = true ->
  settled s requestIndex m = Some m.
Proof.
  unfold erroring, settled. intros H.
  apply andb_true_iff in H. destruct H as [Hbuiltin Hv].
  apply negb_true_iff in Hbuiltin.
  destruct (not_builtin _ Hbuiltin) as [-> ->].
  destruct (VariableContext.Variables (vctx s) !! placeholder_name m) as [v|];
    [|reflexivity].
  apply negb_true_iff in Hv. rewrite Hv.
  destruct (unknown_strategy _ Hv) as (-> & _). reflexivity.
Qed.

Lemma settled_piece_erroring (s : State) (requestIndex : Z)
    (segs : list segment) :
  (forall m, In (Match m) segs -> erroring s (placeholder_name m) = true) ->
  settled_piece s requestIndex <$> segs = segment_text <$> segs.
Proof.
  induction segs as [|[c|m] segs IH]; intros Hall.
  - reflexivity.
  - cbn [fmap list_fmap] in *.
    rewrite IH by (intros m Hin; apply Hall; right; exact Hin). reflexivity.
  - cbn [fmap list_fmap] in *.
    rewrite IH by (intros m' Hin; apply Hall; right; exact Hin).
    cbn [settled_piece segment_text].
    rewrite (erroring_settled s requestIndex m (Hall m (or_introl eq_refl))).
    reflexivity.
Qed.

End SettledFacts.

(** X13: a resolution that needs neither the generator, nor the clock, nor a
    cursor leaves the runtime state as it was. When every placeholder of the
    input names the request index, a static variable, an undefined variable
    or a variable of an unknown strategy, [processVariables] returns with the
    state it was given, and its output is the input with each placeholder
    replaced by the index, by the variable's value, or by itself. *)
Theorem stateless_resolution `{P : Platform}
    (input : string) (requestIndex : Z) (s : State) :
  (forall m, In m (placeholders input) -> is_Some (settled s requestIndex m)) ->
  processVariables input requestIndex s
  = Done (string_concat (settled_piece s requestIndex <$> segments input), None)
         s.
Proof.
  intros Hall. rewrite processVariables_replace_all.
  unfold replace_all, ReplaceAllStringFunc, bind.
  rewrite replace_segments_settled; [reflexivity|].
  intros m Hin. apply Hall, In_placeholders, Hin.
Qed.

Lemma stateless_resolution_witness :
  let s := state_with [static_variable "host" "example.org"] in
  processVariables "http://{{host}}/items/{{$index}}?q={{missing}}" 7 s
  = Done ("http://example.org/items/7?q={{missing}}", None) s.
Proof.
  apply (@stateless_resolution (TestPlatform [static_variable "host" "example.org"])
           "http://{{host}}/items/{{$index}}?q={{missing}}" 7
           (state_with [static_variable "host" "example.org"])).
  intros m Hin. vm_compute in Hin.
  destruct Hin as [<-|[<-|[<-|[]]]]; vm_compute; eexists; reflexivity.
Defined.

(** X14: an error of [getVariableValue] is swallowed. When every placeholder
    of the input names a variable that is undefined or whose strategy is none
    of static, sequential, random, uuid, timestamp and template,
    [processVariables] returns the input as it was written, a nil error, and
    the state unchanged. *)
Theorem erroring_placeholders_left_as_written `{P : Platform}
    (input : string) (requestIndex : Z) (s : State) :
  (forall m, In m (placeholders input) ->
             erroring s (placeholder_name m) = true) ->
  processVariables input requestIndex s = Done (input, None) s.
Proof.
  intros Hall.
  rewrite processVariables_settled.
  - rewrite settled_piece_erroring
      by (intros m Hin; apply Hall, In_placeholders, Hin).
    rewrite segments_text. reflexivity.
  - intros m Hin. rewrite (erroring_settled s requestIndex m (Hall m Hin)).
    eexists; reflexivity.
Qed.

Lemma erroring_placeholders_left_as_written_witness :
  let s := state_with [odd_variable "n" "round-robin"] in
  processVariables "/users/{{n}}/{{missing}}" 7 s
  = Done ("/users/{{n}}/{{missing}}", None) s.
Proof.
  apply (@erroring_placeholders_left_as_written
           (TestPlatform [odd_variable "n" "round-robin"])
           "/users/{{n}}/{{missing}}" 7
           (state_with [odd_variable "n" "round-robin"])).
  intros m Hin. vm_compute in Hin.
  destruct Hin as [<-|[<-|[]]]; vm_compute; reflexivity.
Defined.

(** ** A sequential variable stays in its range *)

Section SequentialFacts.

Context {P : Platform}.

Lemma next_cursor_within (v : Variable_.t) :
  Variable_.StartValue v < Variable_.EndValue v ->
  Variable_.StartValue v <= Variable_.current v <= Variable_.EndValue v ->
  0 < Variable_.Increment v ->
  GoInt.min_int <= Variable_.StartValue v ->
  Variable_.EndValue v + Variable_.Increment v <= GoInt.max_int ->
  Variable_.StartValue v <= next_cursor v <= Variable_.EndValue v.
Proof.
  intros Hrange Hcur Hinc Hmin Hmax. unfold next_cursor, GoInt.add.
  rewrite wrap_in_range by (unfold GoInt.in_range; lia).
  destruct (Variable_.EndValue v >? Variable_.StartValue v) eqn:Hgt;
    [|rewrite Z.gtb_ltb in Hgt; apply Z.ltb_ge in Hgt; lia].
  destruct (Variable_.current v + Variable_.Increment v
            >? Variable_.EndValue v) eqn:Hover; simpl.
  - lia.
  - rewrite Z.gtb_ltb in Hover. apply Z.ltb_ge in Hover. lia.
Qed.

End SequentialFacts.

(** X15: a sequential variable whose range has more than one value never
    leaves it. With [StartValue < EndValue], a positive increment, the cursor
    between the two ends, and [EndValue + Increment] within the 64-bit
    integers, any number of successive resolutions return, and every value
    they give prints an integer between [StartValue] and [EndValue]. *)
Theorem sequential_values_stay_in_range `{P : Platform}
    (n : nat) (name : string) (requestIndex : Z) (s : State) (v : Variable_.t) :
  is_builtin name = false ->
  VariableContext.Variables (vctx s) !! name = Some v ->
  Variable_.Strategy v = "sequential" ->
  Variable_.StartValue v < Variable_.EndValue v ->
  Variable_.StartValue v <= Variable_.current v <= Variable_.EndValue v ->
  0 < Variable_.Increment v ->
  GoInt.min_int <= Variable_.StartValue v ->
  Variable_.EndValue v + Variable_.Increment v <= GoInt.max_int ->
  exists (values : list string) (s' : State),
    resolve_times n name requestIndex s = Done values s'
    /\ length values = n
    /\ Forall (within v) values.
Proof.
  revert s v. induction n as [|n IH];
    intros s v Hname Hv Hseq Hrange Hcur Hinc Hmin Hmax.
  - exists [], s. repeat split; constructor.
  - cbn [resolve_times]. unfold bind at 1.
    rewrite (getVariableValue_sequential name requestIndex s v Hname Hv Hseq).
    destruct (IH (stored name (sequential_advance v) s)
                 (sequential_advance v) Hname (stored_lookup _ _ _))
      as (values & s' & Hrun & Hlen & Hall).
    + rewrite sequential_advance_cursor. exact Hseq.
    + rewrite sequential_advance_cursor. exact Hrange.
    + rewrite sequential_advance_cursor. simpl.
      apply next_cursor_within; assumption.
    + rewrite sequential_advance_cursor. exact Hinc.
    + rewrite sequential_advance_cursor. exact Hmin.
    + rewrite sequential_advance_cursor. exact Hmax.
    + exists (GoInt.Itoa (Variable_.current v) :: values), s'.
      unfold bind. rewrite Hrun. split; [reflexivity|].
      split; [simpl; congruence|].
      constructor.
      * exists (Variable_.current v). split; [reflexivity|exact Hcur].
      * rewrite sequential_advance_cursor in Hall. exact Hall.
Qed.

Lemma sequential_values_stay_in_range_witness :
  exists (values : list string)
         (s' : @State (TestPlatform [sequential_variable "n" 3 5 2])),
    resolve_times 4 "n" 0 (state_with [sequential_variable "n" 3 5 2])
    = Done values s'
    /\ length values = 4%nat
    /\ Forall (within (init_variable (sequential_variable "n" 3 5 2))) values.
Proof.
  apply (@sequential_values_stay_in_range
           (TestPlatform [sequential_variable "n" 3 5 2]) 4 "n" 0
           (state_with [sequential_variable "n" 3 5 2])
           (init_variable (sequential_variable "n" 3 5 2)));
    vm_compute; try reflexivity; try (split; discriminate);
    try discriminate.
Defined.

Example sequential_values_of_a_range :
  returned (resolve_times 4 "n" 0 (state_with [sequential_variable "n" 3 5 2]))
  = Some ["3"; "5"; "3"; "5"].
Proof. vm_compute. reflexivity. Qed.

(** ** Templates *)

Section TemplateFacts.

Context {P : Platform}.

Lemma ReplaceAll_absent (old new : string) (s : string) :
  occurs old s = false -> ReplaceAll s old new = s.
Proof.
  unfold ReplaceAll. induction s as [|c s IH]; [reflexivity|].
  cbn [occurs ReplaceAll_from]. intros H.
  apply orb_false_iff in H. destruct H as [Hhere Hlater].
  rewrite Hhere, (IH Hlater). reflexivity.
Qed.

Lemma Rand_Intn_draw (n : Z) (s : State) :
  0 < n ->
  Rand_Intn n s
  = Done (fst (rand_Intn n (VariableContext.Rand_ (vctx s)))) (after_draw n s).
Proof.
  intros Hn. unfold Rand_Intn, after_draw.
  destruct (n <=? 0) eqn:Hle; [apply Z.leb_le in Hle; lia|].
  destruct (rand_Intn n (VariableContext.Rand_ (vctx s))); reflexivity.
Qed.

Lemma generate_value_template (name : string) (v : Variable_.t)
    (requestIndex : Z) (s : State) :
  Variable_.Strategy v = "template" ->
  generate_value name v requestIndex s
  = Done (ReplaceAll
            (ReplaceAll (Variable_.Template v) "{{$index}}"
               (GoInt.Itoa requestIndex))
            "{{$random}}"
            (GoInt.Itoa
               (fst (rand_Intn 10000 (VariableContext.Rand_ (vctx s))))),
          None)
         (after_draw 10000 s).
Proof.
  intros Hstrategy. unfold generate_value. rewrite Hstrategy. cbn [String.eqb].
  simpl. unfold bind. rewrite Rand_Intn_draw by lia. reflexivity.
Qed.

Lemma processVariables_placeholder (name : string) (requestIndex : Z)
    (s : State) :
  name_ok name = true ->
  processVariables (placeholder name) requestIndex s
  = match getVariableValue name requestIndex s with
    | Done (value, None) s' => Done (value, None) s'
    | Done (_, Some _) s' => Done (placeholder name, None) s'
    | Panicked msg s' => Panicked msg s'
    end.
Proof.
  intros Hok. rewrite processVariables_replace_all.
  unfold replace_all, ReplaceAllStringFunc, bind.
  rewrite (segments_placeholder name Hok). cbn [replace_segments].
  unfold bind, replace_match, bind. rewrite placeholder_name_placeholder.
  destruct (getVariableValue name requestIndex s) as [[value [e|]] s'|];
    unfold ret; cbn [string_concat fold_right]; rewrite ?append_empty_r;
    reflexivity.
Qed.

End TemplateFacts.

(** X16: the value of a template is not scanned again. A template in which
    neither the text of the index placeholder nor that of the random
    placeholder occurs is the value of its variable as it stands, whatever
    other placeholders it holds, and so is the output of [processVariables]
    on the placeholder of the variable; the resolution still draws once from
    the generator, and changes nothing else. *)
Theorem template_is_not_rescanned `{P : Platform}
    (name : string) (requestIndex : Z) (s : State) (v : Variable_.t) :
  name_ok name = true ->
  is_builtin name = false ->
  VariableContext.Variables (vctx s) !! name = Some v ->
  Variable_.Strategy v = "template" ->
  occurs "{{$index}}" (Variable_.Template v) = false ->
  occurs "{{$random}}" (Variable_.Template v) = false ->
  getVariableValue name requestIndex s
  = Done (Variable_.Template v, None) (after_draw 10000 s)
  /\ processVariables (placeholder name) requestIndex s
     = Done (Variable_.Template v, None) (after_draw 10000 s).
Proof.
  intros Hok Hname Hv Hstrategy Hindex Hrandom.
  assert (Hvalue : getVariableValue name requestIndex s
                   = Done (Variable_.Template v, None) (after_draw 10000 s)).
  { rewrite (getVariableValue_lookup name requestIndex s v Hname Hv),
      (generate_value_template name v requestIndex s Hstrategy),
      (ReplaceAll_absent _ _ _ Hindex), (ReplaceAll_absent _ _ _ Hrandom).
    reflexivity. }
  split; [exact Hvalue|].
  rewrite (processVariables_placeholder name requestIndex s Hok), Hvalue.
  reflexivity.
Qed.

Lemma template_is_not_rescanned_witness :
  let vars := [template_variable "t" "/users/{{n}}";
               sequential_variable "n" 0 2 1] in
  getVariableValue "t" 7 (state_with vars)
  = Done ("/users/{{n}}", None) (after_draw 10000 (state_with vars))
  /\ processVariables "{{t}}" 7 (state_with vars)
     = Done ("/users/{{n}}", None) (after_draw 10000 (state_with vars)).
Proof.
  apply (@template_is_not_rescanned
           (TestPlatform [template_variable "t" "/users/{{n}}";
                          sequential_variable "n" 0 2 1])
           "t" 7
           (state_with [template_variable "t" "/users/{{n}}";
                        sequential_variable "n" 0 2 1])
           (template_variable "t" "/users/{{n}}")); reflexivity.
Defined.

(** ** Registration of the variable definitions *)

Section RegistrationFacts.

Context {P : Platform}.

Lemma init_variable_Name (v : Variable_.t) :
  Variable_.Name (init_variable v) = Variable_.Name v.
Proof.
  unfold init_variable.
  destruct (String.eqb (Variable_.Strategy v) "sequential"
            && (Variable_.Increment v <=? 0));
    [destruct (String.eqb
                 (Variable_.Strategy (Variable_.set_Increment 1 v))
                 "sequential")
    |destruct (String.eqb (Variable_.Strategy v) "sequential")];
    reflexivity.
Qed.

Lemma register_variables_all (vars : list Variable_.t) :
  forall ctx : VariableContext.t,
    register_variables (Some <$> vars) ctx
    = Ok (fold_left register_variable vars ctx).
Proof.
  induction vars as [|v vars IH]; intros ctx; [reflexivity|].
  cbn [fmap list_fmap register_variables fold_left]. apply IH.
Qed.

Lemma register_variables_nil (variables : list (option Variable_.t)) :
  forall ctx : VariableContext.t,
    In None variables ->
    register_variables variables ctx
    = Panic "runtime error: invalid memory address or nil pointer dereference".
Proof.
  induction variables as [|[v|] variables IH]; intros ctx Hin.
  - destruct Hin.
  - cbn [register_variables]. apply IH.
    destruct Hin as [Hin|Hin]; [discriminate|exact Hin].
  - reflexivity.
Qed.

Lemma last_definition_snoc (name : string) (vars : list Variable_.t)
    (v : Variable_.t) :
  last_definition name (vars ++ [v])
  = if String.eqb (Variable_.Name v) name then Some v
    else last_definition name vars.
Proof. unfold last_definition. rewrite rev_unit. reflexivity. Qed.

Lemma registered_lookup (vars : list Variable_.t) (ctx : VariableContext.t)
    (name : string) :
  VariableContext.Variables (fold_left register_variable vars ctx) !! name
  = match last_definition name vars with
    | Some v => Some (init_variable v)
    | None => VariableContext.Variables ctx !! name
    end.
Proof.
  induction vars as [|v vars IH] using rev_ind; [reflexivity|].
  rewrite fold_left_app, last_definition_snoc. cbn [fold_left].
  unfold register_variable at 1. cbn [VariableContext.set_Variables
                                       VariableContext.Variables].
  rewrite init_variable_Name.
  destruct (String.eqb_spec (Variable_.Name v) name) as [->|Hne].
  - apply lookup_insert_eq.
  - rewrite lookup_insert_ne by exact Hne. exact IH.
Qed.

Lemma registered_Rand (vars : list Variable_.t) (ctx : VariableContext.t) :
  VariableContext.Rand_ (fold_left register_variable vars ctx)
  = VariableContext.Rand_ ctx.
Proof.
  revert ctx. induction vars as [|v vars IH]; intros ctx; [reflexivity|].
  cbn [fold_left]. rewrite IH. reflexivity.
Qed.

Lemma setupVariableContext_undecoded (config : TestConfiguration.t) (w : World) :
  json_Unmarshal (TestConfiguration.Variables config) = None ->
  setupVariableContext config w
  = Done (VariableContext.mk ∅ 0 (rand_New (fst (time_Now w))))
         (snd (time_Now w)).
Proof.
  intros Hjson. unfold setupVariableContext.
  destruct (time_Now w) as [now w']. rewrite Hjson. reflexivity.
Qed.

End RegistrationFacts.

(** X17: of several definitions of one name, the last one of the document is
    the one in force. When the variables document decodes to definitions
    without a null, [setupVariableContext] returns a context seeded from the
    clock in which every name is bound to the last definition of that name,
    with its sequential defaults applied, and a name the document does not
    define is unbound. *)
Theorem last_definition_wins `{P : Platform}
    (config : TestConfiguration.t) (w : World) (vars : list Variable_.t) :
  json_Unmarshal (TestConfiguration.Variables config) = Some (Some <$> vars) ->
  exists ctx : VariableContext.t,
    setupVariableContext config w = Done ctx (snd (time_Now w))
    /\ VariableContext.Rand_ ctx = rand_New (fst (time_Now w))
    /\ forall name : string,
         VariableContext.Variables ctx !! name
         = init_variable <$> last_definition name vars.
Proof.
  intros Hjson. unfold setupVariableContext.
  destruct (time_Now w) as [now w']. rewrite Hjson, register_variables_all.
  eexists. split; [reflexivity|]. split.
  - rewrite registered_Rand. reflexivity.
  - intros name. rewrite registered_lookup.
    destruct (last_definition name vars); reflexivity.
Qed.

Lemma last_definition_wins_witness :
  let vars := [sequential_variable "n" 0 2 0; static_variable "host" "a";
               sequential_variable "n" 10 20 5] in
  exists ctx : @VariableContext.t (TestPlatform vars),
    @setupVariableContext (TestPlatform vars) (config_of 5 1) 1700000000
    = Done ctx (1700000000 + Duration.Millisecond)
    /\ VariableContext.Rand_ ctx = 1700000000
    /\ forall name : string,
         VariableContext.Variables ctx !! name
         = init_variable <$> last_definition name vars.
Proof.
  exact (@last_definition_wins
           (TestPlatform [sequential_variable "n" 0 2 0;
                          static_variable "host" "a";
                          sequential_variable "n" 10 20 5])
           (config_of 5 1) 1700000000
           [sequential_variable "n" 0 2 0; static_variable "host" "a";
            sequential_variable "n" 10 20 5] eq_refl).
Defined.

(** X18: a null in the variables document stops the run. When the document
    decodes to a list with a [nil] element, a test that uses variables and
    whose concurrency is not zero panics in [setupVariableContext] on a nil
    pointer dereference, before any request is made: [RunTest] returns no
    result. *)
Theorem null_definition_panics `{P : Platform}
    (config : TestConfiguration.t) (w : World)
    (variables : list (option Variable_.t)) :
  TestConfiguration.UseVariables config = true ->
  TestConfiguration.Concurrency config <> 0 ->
  json_Unmarshal (TestConfiguration.Variables config) = Some variables ->
  In None variables ->
  exists timeout : Duration.t,
    run_timeout config = Ok timeout
    /\ RunTest config w
       = Panicked
           "runtime error: invalid memory address or nil pointer dereference"
           (snd (time_Now (context_WithTimeout timeout w))).
Proof.
  intros Huse Hconc Hjson Hnil.
  unfold RunTest, run_timeout, GoInt.div.
  destruct (TestConfiguration.Concurrency config =? 0) eqn:Hzero;
    [apply Z.eqb_eq in Hzero; contradiction|].
  eexists. split; [reflexivity|].
  unfold bind at 1. cbn [lift]. unfold ret at 1. unfold bind at 1.
  unfold modify at 1. unfold run_under_deadline. rewrite Huse.
  unfold bind, setupVariableContext.
  destruct (time_Now (context_WithTimeout _ w)) as [now w'].
  rewrite Hjson, (register_variables_nil variables _ Hnil). reflexivity.
Qed.

Lemma null_definition_panics_witness :
  exists timeout : Duration.t,
    @run_timeout (config_with "[null]") = Ok timeout
    /\ @RunTest (EdgePlatform false) (config_with "[null]") 0
       = Panicked
           "runtime error: invalid memory address or nil pointer dereference"
           (snd (@time_Now (EdgePlatform false)
                   (@context_WithTimeout (EdgePlatform false) timeout 0))).
Proof.
  apply (@null_definition_panics (EdgePlatform false) (config_with "[null]") 0
           [None]).
  - reflexivity.
  - discriminate.
  - reflexivity.
  - left. reflexivity.
Defined.

(** X19: a variables document that does not decode leaves the run without
    variables. [setupVariableContext] then returns a context without
    variables, and in it [processVariables] returns every input whose
    placeholders name no built-in as it was written, with a nil error and the
    state unchanged. *)
Theorem undecoded_variables_disable_substitution `{P : Platform}
    (config : TestConfiguration.t) (w w' : World)
    (input : string) (requestIndex : Z) :
  json_Unmarshal (TestConfiguration.Variables config) = None ->
  (forall m, In m (placeholders input) ->
             is_builtin (placeholder_name m) = false) ->
  exists ctx : VariableContext.t,
    setupVariableContext config w = Done ctx (snd (time_Now w))
    /\ VariableContext.Variables ctx = ∅
    /\ processVariables input requestIndex (mkState ctx w')
       = Done (input, None) (mkState ctx w').
Proof.
  intros Hjson Hnames.
  rewrite (setupVariableContext_undecoded config w Hjson).
  eexists. split; [reflexivity|]. split; [reflexivity|].
  assert (Herr : forall m, In (Match m) (segments input) ->
                           erroring (mkState (VariableContext.mk ∅ 0
                                                (rand_New (fst (time_Now w))))
                                             w')
                                    (placeholder_name m) = true).
  { intros m Hin. unfold erroring.
    rewrite (Hnames m (In_placeholders input m Hin)). reflexivity. }
  rewrite processVariables_settled.
  - rewrite settled_piece_erroring by exact Herr.
    rewrite segments_text. reflexivity.
  - intros m Hin. unfold placeholders in Hin.
    rewrite (erroring_settled _ requestIndex m).
    + eexists; reflexivity.
    + unfold erroring.
      rewrite (Hnames m Hin). reflexivity.
Qed.

Lemma undecoded_variables_disable_substitution_witness :
  exists ctx : @VariableContext.t (EdgePlatform false),
    @setupVariableContext (EdgePlatform false) (config_with "{not json") 0
    = Done ctx (snd (@time_Now (EdgePlatform false) 0))
    /\ VariableContext.Variables ctx = ∅
    /\ processVariables "http://localhost:8080/{{n}}" 7
         (@mkState (EdgePlatform false) ctx 1)
       = Done ("http://localhost:8080/{{n}}", None)
              (@mkState (EdgePlatform false) ctx 1).
Proof.
  apply (@undecoded_variables_disable_substitution (EdgePlatform false)
           (config_with "{not json") 0 1 "http://localhost:8080/{{n}}" 7).
  - reflexivity.
  - intros m Hin. vm_compute in Hin.
    destruct Hin as [<-|[]]. reflexivity.
Defined.

(** ** The analyzer: status codes by class *)

Section AnalyzerFacts.

Lemma counter_of_is_counter (code : string) : is_counter (counter_of code) = true.
Proof.
  unfold counter_of, getStatusCodeType.
  destruct code as [|c code]; [reflexivity|].
  destruct (Ascii.eqb c "1"); [reflexivity|].
  destruct (Ascii.eqb c "2"); [reflexivity|].
  destruct (Ascii.eqb c "3"); [reflexivity|].
  destruct (Ascii.eqb c "4"); [reflexivity|].
  destruct (Ascii.eqb c "5"); reflexivity.
Qed.

Lemma wrap_add_wrap_r (a b : Z) :
  GoInt.wrap (a + GoInt.wrap b) = GoInt.wrap (a + b).
Proof.
  replace (a + GoInt.wrap b) with (GoInt.wrap b + a) by lia.
  rewrite wrap_add_wrap_l. f_equal. lia.
Qed.

Lemma wrap_wrap (a : Z) : GoInt.wrap (GoInt.wrap a) = GoInt.wrap a.
Proof.
  replace (GoInt.wrap a) with (GoInt.wrap a + 0) at 1 by lia.
  rewrite wrap_add_wrap_l. f_equal. lia.
Qed.

Lemma class_total_snoc (k : string) (entries : list (string * Z))
    (code : string) (n : Z) :
  class_total k (entries ++ [(code, n)])
  = class_total k entries + (if String.eqb (counter_of code) k then n else 0).
Proof.
  unfold class_total. rewrite List.filter_app, List.map_app. cbn [List.filter fst].
  induction (List.map snd
               (List.filter
                  (fun entry => String.eqb (counter_of (fst entry)) k) entries))
    as [|x l IH].
  - destruct (String.eqb (counter_of code) k); simpl; lia.
  - cbn [app fold_right]. rewrite IH. lia.
Qed.

Lemma class_total_perm (k : string) (entries entries' : list (string * Z)) :
  Permutation entries entries' ->
  class_total k entries = class_total k entries'.
Proof.
  unfold class_total. induction 1 as [|[code n] l l' _ IH|[c1 n1] [c2 n2] l|]; cbn.
  - reflexivity.
  - destruct (String.eqb (counter_of code) k); cbn; rewrite IH; reflexivity.
  - destruct (String.eqb (counter_of c1) k), (String.eqb (counter_of c2) k);
      cbn; lia.
  - congruence.
Qed.

Lemma count_classes_lookup (entries : list (string * Z)) (k : string) :
  count_classes entries !! k
  = if is_counter k then Some (GoInt.wrap (class_total k entries)) else None.
Proof.
  induction entries as [|[code n] entries IH] using rev_ind.
  - unfold count_classes, initial_counts, is_counter, counters. cbn [fold_left existsb].
    destruct (String.eqb_spec k "success") as [->|H1]; [reflexivity|].
    rewrite lookup_insert_ne by congruence.
    destruct (String.eqb_spec k "redirection") as [->|H2]; [reflexivity|].
    rewrite lookup_insert_ne by congruence.
    destruct (String.eqb_spec k "clientError") as [->|H3]; [reflexivity|].
    rewrite lookup_insert_ne by congruence.
    destruct (String.eqb_spec k "serverError") as [->|H4]; [reflexivity|].
    rewrite lookup_insert_ne by congruence.
    destruct (String.eqb_spec k "unknown") as [->|H5]; [reflexivity|].
    rewrite lookup_insert_ne by congruence. reflexivity.
  - unfold count_classes in *. rewrite fold_left_app. cbn [fold_left].
    unfold add_count at 1. rewrite class_total_snoc.
    destruct (String.eqb_spec (counter_of code) k) as [Heq|Hne].
    + subst k. rewrite lookup_insert_eq, IH, counter_of_is_counter.
      cbn [from_option id]. unfold GoInt.add. rewrite wrap_add_wrap_l.
      reflexivity.
    + rewrite lookup_insert_ne by exact Hne. rewrite IH.
      rewrite Z.add_0_r. reflexivity.
Qed.

Lemma class_totals_all (entries : list (string * Z)) :
  class_total "success" entries + class_total "redirection" entries
  + class_total "clientError" entries + class_total "serverError" entries
  + class_total "unknown" entries
  = fold_right Z.add 0 (List.map snd entries).
Proof.
  induction entries as [|[code n] entries IH]; [reflexivity|].
  cbn [List.map fold_right snd]. rewrite <- IH. unfold class_total.
  cbn [List.filter fst].
  pose proof (counter_of_is_counter code) as Hc.
  unfold is_counter, counters in Hc. cbn [existsb] in Hc.
  destruct (String.eqb_spec (counter_of code) "success") as [H1|H1];
    [rewrite H1; cbn; lia|].
  destruct (String.eqb_spec (counter_of code) "redirection") as [H2|H2];
    [rewrite H2; cbn; lia|].
  destruct (String.eqb_spec (counter_of code) "clientError") as [H3|H3];
    [rewrite H3; cbn; lia|].
  destruct (String.eqb_spec (counter_of code) "serverError") as [H4|H4];
    [rewrite H4; cbn; lia|].
  destruct (String.eqb_spec (counter_of code) "unknown") as [H5|H5];
    [cbn; lia|].
  discriminate.
Qed.

Lemma counted_in_all_totals (entries : list (string * Z)) :
  counted_in_all (count_classes entries)
  = GoInt.wrap (fold_right Z.add 0 (List.map snd entries)).
Proof.
  unfold counted_in_all, counters. cbn [fold_right].
  rewrite !count_classes_lookup. cbn [is_counter counters existsb String.eqb
                                       Ascii.eqb Bool.eqb orb from_option id].
  unfold GoInt.add. rewrite Z.add_0_r, wrap_wrap.
  repeat (rewrite wrap_add_wrap_l || rewrite wrap_add_wrap_r
          || rewrite Z.add_assoc).
  rewrite <- class_totals_all. reflexivity.
Qed.

Lemma class_total_cons (k : string) (entries : list (string * Z))
    (code : string) (n : Z) :
  class_total k ((code, n) :: entries)
  = (if String.eqb (counter_of code) k then n else 0) + class_total k entries.
Proof.
  unfold class_total. cbn [List.filter fst].
  destruct (String.eqb (counter_of code) k); reflexivity.
Qed.

Lemma class_total_insert (k : string) (m : gmap string Z) (key : string)
    (v : Z) :
  class_total k (map_to_list (<[key := v]> m))
  = class_total k (map_to_list m)
    + (if String.eqb (counter_of key) k then v - default 0 (m !! key) else 0).
Proof.
  destruct (m !! key) as [old|] eqn:Hkey; cbn [from_option id].
  - rewrite <- (insert_delete_id m key old Hkey) at 2.
    rewrite <- (insert_delete_eq m key v).
    rewrite (class_total_perm k _ _
               (map_to_list_insert (delete key m) key v
                  (lookup_delete_eq m key))),
      (class_total_perm k _ _
         (map_to_list_insert (delete key m) key old
            (lookup_delete_eq m key))),
      !class_total_cons.
    destruct (String.eqb (counter_of key) k); lia.
  - rewrite (class_total_perm k _ _ (map_to_list_insert m key v Hkey)),
      class_total_cons.
    destruct (String.eqb (counter_of key) k); lia.
Qed.

Lemma answered_in_class_snoc (k : string) (outcomes : list RequestResult.t)
    (res : RequestResult.t) :
  answered_in_class k (outcomes ++ [res])
  = answered_in_class k outcomes
    ++ (if has_response res
           && String.eqb (counter_of (GoInt.Itoa (RequestResult.Status res))) k
        then [res] else []).
Proof.
  unfold answered_in_class. rewrite responses_snoc, List.filter_app.
  destruct (has_response res); [|reflexivity]. cbn [List.filter andb].
  destruct (String.eqb (counter_of (GoInt.Itoa (RequestResult.Status res))) k);
    reflexivity.
Qed.

Lemma class_total_tally `{P : Platform} (k : string)
    (outcomes : list RequestResult.t) :
  GoInt.wrap (class_total k (map_to_list (StatusCodes (tally outcomes))))
  = GoInt.wrap (count (answered_in_class k outcomes)).
Proof.
  induction outcomes as [|res outcomes IH] using rev_ind; [reflexivity|].
  rewrite tally_snoc, answered_in_class_snoc.
  unfold process_result, has_response.
  destruct (RequestResult.Error res) as [err|]; cbn [andb].
  - cbn [StatusCodes]. rewrite app_nil_r. exact IH.
  - cbn [StatusCodes]. rewrite class_total_insert.
    destruct (String.eqb (counter_of (GoInt.Itoa (RequestResult.Status res))) k).
    + rewrite count_snoc. unfold GoInt.add.
      replace (class_total k (map_to_list (StatusCodes (tally outcomes)))
               + (GoInt.wrap
                    (default 0
                       (StatusCodes (tally outcomes)
                        !! GoInt.Itoa (RequestResult.Status res)) + 1)
                  - default 0
                      (StatusCodes (tally outcomes)
                       !! GoInt.Itoa (RequestResult.Status res))))
        with (class_total k (map_to_list (StatusCodes (tally outcomes)))
              - default 0
                  (StatusCodes (tally outcomes)
                   !! GoInt.Itoa (RequestResult.Status res))
              + GoInt.wrap
                  (default 0
                     (StatusCodes (tally outcomes)
                      !! GoInt.Itoa (RequestResult.Status res)) + 1))
        by lia.
      rewrite wrap_add_wrap_r.
      replace (class_total k (map_to_list (StatusCodes (tally outcomes)))
               - default 0
                   (StatusCodes (tally outcomes)
                    !! GoInt.Itoa (RequestResult.Status res))
               + (default 0
                    (StatusCodes (tally outcomes)
                     !! GoInt.Itoa (RequestResult.Status res)) + 1))
        with (class_total k (map_to_list (StatusCodes (tally outcomes))) + 1)
        by lia.
      rewrite <- wrap_add_wrap_l, IH, wrap_add_wrap_l. reflexivity.
    + rewrite app_nil_r, Z.add_0_r. exact IH.
Qed.

Lemma counter_of_three_digits (status : Z) :
  100 <= status <= 599 ->
  counter_of (GoInt.Itoa status) = counter_of_status status.
Proof.
  intros Hrange.
  assert (Hall : forallb
                   (fun n => String.eqb
                               (counter_of (GoInt.Itoa (100 + Z.of_nat n)))
                               (counter_of_status (100 + Z.of_nat n)))
                   (seq 0 500) = true) by (vm_compute; reflexivity).
  rewrite forallb_forall in Hall.
  specialize (Hall (Z.to_nat (status - 100))).
  replace (100 + Z.of_nat (Z.to_nat (status - 100))) with status in Hall by lia.
  apply String.eqb_eq, Hall, in_seq. lia.
Qed.

Lemma wrap_add_cong (a a' b b' : Z) :
  GoInt.wrap a = GoInt.wrap a' -> GoInt.wrap b = GoInt.wrap b' ->
  GoInt.wrap (a + b) = GoInt.wrap (a' + b').
Proof.
  intros Ha Hb.
  rewrite <- wrap_add_wrap_l, Ha, wrap_add_wrap_l.
  rewrite <- wrap_add_wrap_r, Hb, wrap_add_wrap_r. reflexivity.
Qed.

Lemma classes_partition (l : list RequestResult.t) :
  let class k :=
    Z.of_nat
      (length
         (List.filter
            (fun res =>
               String.eqb (counter_of (GoInt.Itoa (RequestResult.Status res))) k)
            l)) in
  class "success" + class "redirection" + class "clientError"
  + class "serverError" + class "unknown" = Z.of_nat (length l).
Proof.
  cbv zeta. induction l as [|res l IH]; [reflexivity|].
  cbn [List.filter].
  pose proof (counter_of_is_counter (GoInt.Itoa (RequestResult.Status res)))
    as Hc.
  unfold is_counter, counters in Hc. cbn [existsb] in Hc.
  destruct (String.eqb_spec
              (counter_of (GoInt.Itoa (RequestResult.Status res))) "success")
    as [H1|H1]; [rewrite H1; cbn [String.eqb Ascii.eqb Bool.eqb length]; lia|].
  destruct (String.eqb_spec
              (counter_of (GoInt.Itoa (RequestResult.Status res))) "redirection")
    as [H2|H2]; [rewrite H2; cbn [String.eqb Ascii.eqb Bool.eqb length]; lia|].
  destruct (String.eqb_spec
              (counter_of (GoInt.Itoa (RequestResult.Status res))) "clientError")
    as [H3|H3]; [rewrite H3; cbn [String.eqb Ascii.eqb Bool.eqb length]; lia|].
  destruct (String.eqb_spec
              (counter_of (GoInt.Itoa (RequestResult.Status res))) "serverError")
    as [H4|H4]; [rewrite H4; cbn [String.eqb Ascii.eqb Bool.eqb length]; lia|].
  destruct (String.eqb_spec
              (counter_of (GoInt.Itoa (RequestResult.Status res))) "unknown")
    as [H5|H5]; [cbn [length]; lia|].
  discriminate.
Qed.

Lemma GetStatusCodeCounts_lookup `{P : Platform}
    (config : TestConfiguration.t) (outcomes : list RequestResult.t)
    (elapsed : Duration.t) (k : string) :
  GetStatusCodeCounts (summarize config outcomes elapsed) !! k
  = if is_counter k
    then Some (GoInt.wrap (count (answered_in_class k outcomes)))
    else None.
Proof.
  unfold GetStatusCodeCounts. rewrite count_classes_lookup.
  destruct (is_counter k); [|reflexivity].
  cbn [summarize TestResult.StatusCodes]. rewrite class_total_tally.
  reflexivity.
Qed.

Lemma answered_by_three_digits (k : string) (outcomes : list RequestResult.t) :
  (forall res, In res (responses outcomes) ->
               100 <= RequestResult.Status res <= 599) ->
  answered_in_class k outcomes = answered_by_hundreds k outcomes.
Proof.
  intros Hall. unfold answered_in_class, answered_by_hundreds.
  apply List.filter_ext_in. intros res Hin.
  rewrite (counter_of_three_digits _ (Hall res Hin)). reflexivity.
Qed.

Lemma counter_of_status_success (status : Z) :
  String.eqb (counter_of_status status) "success"
  = (200 <=? status) && (status <? 300).
Proof.
  unfold counter_of_status.
  destruct (Z.leb_spec 200 status), (Z.ltb_spec status 200); try lia;
    destruct (Z.ltb_spec status 300); try reflexivity;
    destruct (Z.ltb_spec status 400); try reflexivity;
    destruct (Z.ltb_spec status 500); reflexivity.
Qed.

Lemma counter_of_status_redirection (status : Z) :
  String.eqb (counter_of_status status) "redirection"
  = (300 <=? status) && (status <? 400).
Proof.
  unfold counter_of_status.
  destruct (Z.leb_spec 300 status), (Z.ltb_spec status 200); try lia;
    destruct (Z.ltb_spec status 300); try lia; try reflexivity;
    destruct (Z.ltb_spec status 400); try lia; try reflexivity;
    destruct (Z.ltb_spec status 500); reflexivity.
Qed.

Lemma successes_by_hundreds (outcomes : list RequestResult.t) :
  count (successes outcomes)
  = count (answered_by_hundreds "success" outcomes)
    + count (answered_by_hundreds "redirection" outcomes).
Proof.
  unfold count, successes, answered_by_hundreds, responses.
  induction outcomes as [|[d status [err|] ts] outcomes IH]; [reflexivity| |].
  { cbn [List.filter is_success has_response RequestResult.Error]. exact IH. }
  cbn [List.filter is_success has_response RequestResult.Error
       RequestResult.Status].
  rewrite counter_of_status_success, counter_of_status_redirection.
  destruct (Z.leb_spec 200 status), (Z.leb_spec status 399),
    (Z.ltb_spec status 300), (Z.leb_spec 300 status), (Z.ltb_spec status 400);
    try lia; cbn [andb length]; lia.
Qed.

End AnalyzerFacts.

(** X20: the five counters of [GetStatusCodeCounts] partition the histogram,
    in whatever order the map is ranged over. For every order of the entries
    the result is the same map: it has exactly the keys success, redirection,
    clientError, serverError and unknown, each holding the sum of the counts
    of the codes of its class, and the five together hold the sum of all
    counts (in 64-bit arithmetic). *)
Theorem status_classes_partition_the_histogram
    (r : TestResult.t) (entries : list (string * Z)) :
  Permutation entries (map_to_list (TestResult.StatusCodes r)) ->
  count_classes entries = GetStatusCodeCounts r
  /\ (forall k : string,
        GetStatusCodeCounts r !! k
        = if is_counter k
          then Some (GoInt.wrap
                       (class_total k (map_to_list (TestResult.StatusCodes r))))
          else None)
  /\ counted_in_all (GetStatusCodeCounts r)
     = GoInt.wrap
         (fold_right Z.add 0
            (List.map snd (map_to_list (TestResult.StatusCodes r)))).
Proof.
  intros Hperm. split; [|split].
  - apply map_eq. intros k. unfold GetStatusCodeCounts.
    rewrite !count_classes_lookup, (class_total_perm k _ _ Hperm). reflexivity.
  - intros k. apply count_classes_lookup.
  - apply counted_in_all_totals.
Qed.

Lemma status_classes_partition_the_histogram_witness :
  let r := @summarize (TestPlatform []) (config_of 4 2) sample_outcomes (ms 100) in
  count_classes (rev (map_to_list (TestResult.StatusCodes r)))
  = GetStatusCodeCounts r
  /\ (forall k : string,
        GetStatusCodeCounts r !! k
        = if is_counter k
          then Some (GoInt.wrap
                       (class_total k (map_to_list (TestResult.StatusCodes r))))
          else None)
  /\ counted_in_all (GetStatusCodeCounts r)
     = GoInt.wrap
         (fold_right Z.add 0
            (List.map snd (map_to_list (TestResult.StatusCodes r)))).
Proof.
  exact (status_classes_partition_the_histogram
           (@summarize (TestPlatform []) (config_of 4 2) sample_outcomes (ms 100))
           (rev (map_to_list
                   (TestResult.StatusCodes
                      (@summarize (TestPlatform []) (config_of 4 2)
                         sample_outcomes (ms 100)))))
           (Permutation_sym (Permutation_rev _))).
Defined.

Example GetStatusCodeCounts_of_sample :
  (fun k =>
     GetStatusCodeCounts
       (@summarize (TestPlatform []) (config_of 4 2)
          (responded 101 (ms 5) :: sample_outcomes) (ms 100)) !! k)
  <$> counters
  = [Some 1; Some 1; Some 0; Some 1; Some 1].
Proof. vm_compute. reflexivity. Qed.

(** X21: what the analyzer makes of a run. Of the summary [RunTest] builds
    from the outcomes it processed, each counter of [GetStatusCodeCounts]
    holds the number of answered requests whose status code begins with the
    digit of its class (2 success, 3 redirection, 4 clientError, 5
    serverError, anything else unknown, the informational codes included),
    and the five counters together hold the number of answered requests:
    requests that failed without an answer are in none of them. *)
Theorem class_counters_count_the_answers `{P : Platform}
    (config : TestConfiguration.t) (outcomes : list RequestResult.t)
    (elapsed : Duration.t) :
  let counts := GetStatusCodeCounts (summarize config outcomes elapsed) in
  (forall k : string,
      counts !! k
      = if is_counter k
        then Some (GoInt.wrap (count (answered_in_class k outcomes)))
        else None)
  /\ counted_in_all counts = GoInt.wrap (count (responses outcomes)).
Proof.
  cbv zeta. split; [intros k; apply GetStatusCodeCounts_lookup|].
  unfold counted_in_all, counters. cbn [fold_right].
  rewrite !GetStatusCodeCounts_lookup.
  cbn [is_counter counters existsb String.eqb Ascii.eqb Bool.eqb orb
       from_option id].
  unfold GoInt.add. rewrite Z.add_0_r, wrap_wrap.
  repeat (rewrite wrap_add_wrap_l || rewrite wrap_add_wrap_r
          || rewrite Z.add_assoc).
  unfold count at 6. rewrite <- (classes_partition (responses outcomes)).
  reflexivity.
Qed.

(** X22: with three-digit status codes the classes are the hundreds, and they
    agree with the runner on what a success is. When every answered request
    has a status from 100 to 599, each counter holds the number of answers in
    its hundred (the 1xx answers under unknown), and the success and
    redirection counters together hold the number of requests the runner
    counted as successful. *)
Theorem classes_are_the_hundreds `{P : Platform}
    (config : TestConfiguration.t) (outcomes : list RequestResult.t)
    (elapsed : Duration.t) :
  (forall res, In res (responses outcomes) ->
               100 <= RequestResult.Status res <= 599) ->
  let counts := GetStatusCodeCounts (summarize config outcomes elapsed) in
  (forall k : string,
      counts !! k
      = if is_counter k
        then Some (GoInt.wrap (count (answered_by_hundreds k outcomes)))
        else None)
  /\ GoInt.add (default 0 (counts !! "success"))
               (default 0 (counts !! "redirection"))
     = GoInt.wrap (count (successes outcomes)).
Proof.
  intros Hall. cbv zeta.
  assert (Hlookup : forall k : string,
             GetStatusCodeCounts (summarize config outcomes elapsed) !! k
             = if is_counter k
               then Some (GoInt.wrap (count (answered_by_hundreds k outcomes)))
               else None).
  { intros k. rewrite GetStatusCodeCounts_lookup,
      (answered_by_three_digits k outcomes Hall). reflexivity. }
  split; [exact Hlookup|].
  rewrite !Hlookup.
  cbn [is_counter counters existsb String.eqb Ascii.eqb Bool.eqb orb
       from_option id].
  unfold GoInt.add. rewrite wrap_add_wrap_l, wrap_add_wrap_r.
  rewrite successes_by_hundreds. reflexivity.
Qed.

Lemma classes_are_the_hundreds_witness :
  let outcomes := responded 101 (ms 5) :: sample_outcomes in
  let counts :=
    GetStatusCodeCounts
      (@summarize (TestPlatform []) (config_of 4 2) outcomes (ms 100)) in
  (forall k : string,
      counts !! k
      = if is_counter k
        then Some (GoInt.wrap (count (answered_by_hundreds k outcomes)))
        else None)
  /\ GoInt.add (default 0 (counts !! "success"))
               (default 0 (counts !! "redirection"))
     = GoInt.wrap (count (successes outcomes)).
Proof.
  apply (@classes_are_the_hundreds (TestPlatform []) (config_of 4 2)
           (responded 101 (ms 5) :: sample_outcomes) (ms 100)).
  intros res Hin. vm_compute in Hin.
  destruct Hin as [<-|[<-|[<-|[<-|[]]]]]; vm_compute; split; discriminate.
Defined.

(** ** The configuration *)

Section ConfigFacts.

Variable TrimSpace : string -> string.

Lemma Setenv_lookup (key value : string) (env : gmap string string) (k : string) :
  env !! key = None ->
  Config.Setenv key value env !! k
  = match env !! k with
    | Some v => Some v
    | None =>
        if String.eqb key "" || Config.has_byte "=" key
           || Config.has_byte Ascii.zero key
           || Config.has_byte Ascii.zero value
        then None
        else if String.eqb key k then Some value else None
    end.
Proof.
  intros Hfree. unfold Config.Setenv.
  destruct (String.eqb key "" || Config.has_byte "=" key
            || Config.has_byte Ascii.zero key
            || Config.has_byte Ascii.zero value).
  - destruct (env !! k); reflexivity.
  - destruct (String.eqb_spec key k) as [->|Hne].
    + rewrite lookup_insert_eq, Hfree. reflexivity.
    + rewrite lookup_insert_ne by exact Hne. destruct (env !! k); reflexivity.
Qed.

Lemma load_line_lookup (env : gmap string string) (line k : string) :
  Config.load_line TrimSpace env line !! k
  = match env !! k with
    | Some v => Some v
    | None =>
        match Config.setting TrimSpace line with
        | Some (key, value) => if String.eqb key k then Some value else None
        | None => None
        end
    end.
Proof.
  unfold Config.load_line, Config.setting.
  destruct (Config.parse_line TrimSpace line) as [[key value]|];
    [|destruct (env !! k); reflexivity].
  destruct (env !! key) as [old|] eqn:Hkey.
  - destruct (env !! k) as [v|] eqn:Hk; [reflexivity|].
    destruct (String.eqb key "" || Config.has_byte "=" key
              || Config.has_byte Ascii.zero key
              || Config.has_byte Ascii.zero value); [reflexivity|].
    destruct (String.eqb_spec key k) as [->|_]; [congruence|reflexivity].
  - rewrite (Setenv_lookup key value env k Hkey).
    destruct (env !! k); [reflexivity|].
    destruct (String.eqb key "" || Config.has_byte "=" key
              || Config.has_byte Ascii.zero key
              || Config.has_byte Ascii.zero value); reflexivity.
Qed.

Lemma loadEnvFile_lookup (lines : list string) :
  forall (env : gmap string string) (k : string),
    Config.loadEnvFile TrimSpace (Some lines) env !! k
    = match env !! k with
      | Some v => Some v
      | None => Config.first_setting TrimSpace k lines
      end.
Proof.
  unfold Config.loadEnvFile.
  induction lines as [|line lines IH]; intros env k; cbn [fold_left].
  - destruct (env !! k); reflexivity.
  - rewrite IH, load_line_lookup. cbn [Config.first_setting].
    destruct (env !! k) as [v|]; [reflexivity|].
    destruct (Config.setting TrimSpace line) as [[key value]|]; [|reflexivity].
    destruct (String.eqb key k); reflexivity.
Qed.

Lemma TrimRight_ends (s : string) (c : ascii) :
  Config.ends_with c (Config.TrimRight s c) = false.
Proof.
  induction s as [|a s IH]; [reflexivity|]. cbn [Config.TrimRight].
  destruct (Config.TrimRight s c) as [|b t] eqn:Htrim.
  - destruct (Ascii.eqb a c) eqn:Hac; [reflexivity|].
    cbn [Config.ends_with]. exact Hac.
  - cbn [Config.ends_with] in *. exact IH.
Qed.

End ConfigFacts.

(** X23: the environment beats the file, and in the file the first setting of
    a name wins. After [loadEnvFile] a name the environment already had keeps
    its value, even an empty one; any other name has the value of the first
    line of the file that sets it with a name and value [os.Setenv] accepts,
    and is unset when there is no such line or no file. Comment lines, blank
    lines and lines without an equals sign set nothing. *)
Theorem environment_beats_the_file
    (TrimSpace : string -> string) (file : option (list string))
    (env : gmap string string) (k : string) :
  Config.loadEnvFile TrimSpace file env !! k
  = match env !! k with
    | Some v => Some v
    | None => Config.first_setting TrimSpace k (default [] file)
    end.
Proof.
  destruct file as [lines|]; [apply loadEnvFile_lookup|].
  apply (loadEnvFile_lookup TrimSpace [] env k).
Qed.

Example loadEnvFile_of_a_file :
  let env : gmap string string := {["BUZZBENCH_API_URL" := ""]} in
  let lines := ["# local settings"; ""; "BUZZBENCH_API_KEY = abc";
                "BUZZBENCH_API_URL=http://localhost:3000/";
                "export"; "BUZZBENCH_API_KEY=def"; "=x"] in
  map_to_list (Config.loadEnvFile Config.ascii_TrimSpace (Some lines) env)
  = [("BUZZBENCH_API_KEY", "abc"); ("BUZZBENCH_API_URL", "")].
Proof. vm_compute. reflexivity. Qed.

(** X24: where the configuration of [New] comes from. An embedded key
    overrides everything: the key is the embedded one, the base URL the
    default, and the environment is not touched. Otherwise the key is the
    value the environment has for BUZZBENCH_API_KEY, an empty one included,
    and only when the environment does not have the name, the first setting
    of the file; the base URL is found the same way, with the default in
    place of an empty one, and in every case it does not end in a slash. *)
Theorem New_precedence
    (TrimSpace : string -> string) (EmbeddedApiKey : string)
    (file : option (list string)) (env : gmap string string) :
  let cfg := fst (Config.New TrimSpace EmbeddedApiKey file env) in
  let found name :=
    match env !! name with
    | Some v => v
    | None =>
        default "" (Config.first_setting TrimSpace name (default [] file))
    end in
  Config.APIKey cfg
  = (if String.eqb EmbeddedApiKey "" then found "BUZZBENCH_API_KEY"
     else EmbeddedApiKey)
  /\ Config.BaseURL cfg
     = (if String.eqb EmbeddedApiKey "" then
          Config.TrimRight
            (if String.eqb (found "BUZZBENCH_API_URL") ""
             then Config.DefaultBaseURL else found "BUZZBENCH_API_URL") "/"
        else Config.DefaultBaseURL)
  /\ Config.ends_with "/" (Config.BaseURL cfg) = false
  /\ (String.eqb EmbeddedApiKey "" = false ->
      snd (Config.New TrimSpace EmbeddedApiKey file env) = env).
Proof.
  cbv zeta. unfold Config.New.
  destruct (String.eqb EmbeddedApiKey "") eqn:Hembedded; cbn [negb fst snd].
  - cbn [Config.APIKey Config.BaseURL]. unfold Config.getEnv.
    assert (Hlookup : forall k,
               Config.loadEnvFile TrimSpace file env !! k
               = match env !! k with
                 | Some v => Some v
                 | None =>
                     Config.first_setting TrimSpace k (default [] file)
                 end).
    { intros k. destruct file as [lines|]; [apply loadEnvFile_lookup|].
      apply (loadEnvFile_lookup TrimSpace [] env k). }
    rewrite !Hlookup.
    split; [|split; [|split]].
    + destruct (env !! "BUZZBENCH_API_KEY") as [v|]; cbn [from_option id].
      * destruct (String.eqb_spec v "") as [->|_]; reflexivity.
      * destruct (String.eqb_spec
                    (default ""
                       (Config.first_setting TrimSpace "BUZZBENCH_API_KEY"
                          (default [] file))) "") as [->|_]; reflexivity.
    + destruct (env !! "BUZZBENCH_API_URL") as [v|]; reflexivity.
    + apply TrimRight_ends.
    + discriminate.
  - cbn [Config.APIKey Config.BaseURL].
    split; [reflexivity|]. split; [reflexivity|].
    split; [reflexivity|]. reflexivity.
Qed.

Example New_of_a_file :
  let env : gmap string string := {["BUZZBENCH_API_URL" := ""]} in
  let lines := ["BUZZBENCH_API_KEY = abc";
                "BUZZBENCH_API_URL=http://localhost:3000/"] in
  fst (Config.New Config.ascii_TrimSpace "" (Some lines) env)
  = Config.mk "abc" "https://buzzbench.io/api" false false "" false ""
  /\ fst (Config.New Config.ascii_TrimSpace "" (Some lines) ∅)
     = Config.mk "abc" "http://localhost:3000" false false "" false "".
Proof. vm_compute. split; reflexivity. Qed.
